(** * PharmaDB front end: CSV bulk import, add-entry workflow, sample templates

    A shallow embedding of the client-side logic of
    [pharma-frontend/src/components/InlineAddEntry.tsx],
    [pharma-frontend/src/utils/csvTemplates.ts],
    [pharma-frontend/src/constants/domains.ts], the [DomainView] page and
    the shared axios client, together with the properties the specification
    states about them and further properties read off the code.

    Conventions of the embedding.
    - A JavaScript string is the list of its UTF-16 code units.
    - A plain object used as a dictionary ([Record<string, string>], the
      template catalogue, the lookup tables) is a finite map over its own
      properties.  Reading [object[key]] also finds the members inherited
      from [Object.prototype], and assigning to the key [__proto__] stores
      nothing: both are part of the model ([JsObject]).
    - Each [async] handler is embedded twice: run to completion on its own
      ([InlineAddEntry]), and as the steps between its [await]s, which
      other events can come in between ([Interleaved]).  The component
      state and the outside world (backend, request trace, refresh
      callback) are threaded explicitly.  Console output is diagnostic
      only and is left out. *)

From Stdlib Require Import Ascii String.
From stdpp Require Import gmap list strings pretty.

Local Open Scope N_scope.

(** ** JavaScript strings *)

Abbreviation js_string := (list N).

(** A literal: each character of the Rocq string is one code unit. *)
Definition str (s : string) : js_string :=
  N_of_ascii <$> list_ascii_of_string s.

Module Js.

Definition LF : N := 10.
Definition COMMA : N := 44.
Definition DQUOTE : N := 34.

(** ECMAScript [WhiteSpace] and [LineTerminator] code points, the ones
    [String.prototype.trim] removes. *)
Definition isWhiteSpace (c : N) : bool :=
  (c =? 9) || (c =? 10) || (c =? 11) || (c =? 12) || (c =? 13) ||
  (c =? 32) || (c =? 160) || (c =? 5760) ||
  ((8192 <=? c) && (c <=? 8202)) ||
  (c =? 8232) || (c =? 8233) || (c =? 8239) || (c =? 8287) ||
  (c =? 12288) || (c =? 65279).

Fixpoint trimStart (s : js_string) : js_string :=
  match s with
  | [] => []
  | c :: s' => if isWhiteSpace c then trimStart s' else s
  end.

Definition trimEnd (s : js_string) : js_string :=
  reverse (trimStart (reverse s)).

(** [s.trim()] *)
Definition trim (s : js_string) : js_string := trimEnd (trimStart s).

(** [s.split(sep)] for a one-character separator; never the empty array:
    [''.split(',')] is [['']]. *)
Fixpoint split (sep : N) (s : js_string) : list js_string :=
  match s with
  | [] => [[]]
  | c :: s' =>
      if c =? sep then [] :: split sep s'
      else match split sep s' with
           | [] => [[c]]
           | w :: ws => (c :: w) :: ws
           end
  end.

(** [parts.join(sep)] *)
Fixpoint join (sep : js_string) (parts : list js_string) : js_string :=
  match parts with
  | [] => []
  | [p] => p
  | p :: rest => p ++ sep ++ join sep rest
  end.

(** [s.replace(/^"|"$/g, '')]: without the [m] flag [^] only matches at
    offset 0 and [$] only at the end of the input, so the matches of the
    pattern are exactly a double quote standing at offset 0 and a double
    quote standing at the last offset; every match is deleted. *)
Definition isEdgeQuote (len index : nat) (c : N) : bool :=
  (c =? DQUOTE) && (Nat.eqb index 0 || Nat.eqb (S index) len).

Definition replaceEdgeQuotes (s : js_string) : js_string :=
  omap (λ ic : nat * N, if isEdgeQuote (length s) ic.1 ic.2 then None else Some ic.2)
       (imap pair s).

(** *** Numbers in template literals

    A number is a double.  Of the numbers only non-negative integers are
    printed here (counters, status codes, identifiers); [n] stands for the
    double nearest to [n], which is [n] itself up to 2^53. *)

(** The double nearest to [n], ties going to the even significand;
    [None] is [Infinity]. *)
Definition toDouble (n : N) : option N :=
  if n <? 2 ^ 53 then Some n
  else
    let unit := 2 ^ (N.log2 n - 52) in
    let q := n / unit in
    let r := n mod unit in
    let half := unit / 2 in
    let q' := if (half <? r) || ((r =? half) && N.odd q) then q + 1 else q in
    if q' * unit <? 2 ^ 1024 then Some (q' * unit) else None.

Definition digitCount (n : N) : N := N.of_nat (String.length (pretty n)).

(** The number with at most [k] significant digits that is nearest to the
    double [x] of [nd] digits, if it is read back as [x]. *)
Definition roundTrip (x nd k : N) : option N :=
  let p := 10 ^ (nd - k) in
  let lo := (x / p) * p in
  let hi := lo + p in
  match bool_decide (toDouble lo = Some x), bool_decide (toDouble hi = Some x) with
  | true, true =>
      Some (if x - lo <? hi - x then lo
            else if hi - x <? x - lo then hi
            else if N.even (x / p) then lo else hi)
  | true, false => Some lo
  | false, true => Some hi
  | false, false => None
  end.

(** The number with the fewest significant digits that is read back as
    the double [x]: seventeen digits always suffice. *)
Definition shortest (x : N) : N :=
  let nd := digitCount x in
  default x
    (foldr (λ k found, match roundTrip x nd k with Some c => Some c | None => found end)
           None (N.of_nat <$> seq 1 17)).

Fixpoint dropZeros (digits : js_string) : js_string :=
  match digits with
  | c :: rest => if c =? 48 then dropZeros rest else digits
  | [] => []
  end.

Definition stripZeros (digits : js_string) : js_string :=
  reverse (dropZeros (reverse digits)).

(** [`${n}`], that is [Number::toString]: the decimal digits of an
    integer below 2^53; beyond, the shortest digits that are read back as
    the same double, followed by zeros up to 21 digits in all and written
    with an exponent from there on ([1e+21]). *)
Definition ofNumber (n : N) : js_string :=
  match toDouble n with
  | None => str "Infinity"
  | Some x =>
      if x <? 2 ^ 53 then str (pretty x)
      else
        let digits := str (pretty (shortest x)) in
        if (length digits <=? 21)%nat then digits
        else
          match stripZeros digits with
          | [] => digits
          | [d] => [d] ++ str "e+" ++ str (pretty (length digits - 1)%nat)
          | d :: rest =>
              d :: str "." ++ rest ++ str "e+" ++ str (pretty (length digits - 1)%nat)
          end
  end.

End Js.

(** ** Plain objects used as dictionaries *)

Module JsObject.

Definition PROTO : js_string := str "__proto__".

(** What a built-in function gives in a template literal. *)
Definition nativeFunction (name : string) : js_string :=
  str ("function " +:+ name +:+ "() { [native code] }").

(** The members every plain object inherits from [Object.prototype]: its
    methods and, under [__proto__], the prototype itself.  None is a
    string and all are truthy; the code only ever tests them for
    truthiness, compares them with string literals or puts them in a
    template literal, so each is kept as the text it gives there. *)
Definition prototype : gmap js_string js_string := list_to_map [
  (str "constructor", nativeFunction "Object");
  (str "hasOwnProperty", nativeFunction "hasOwnProperty");
  (str "isPrototypeOf", nativeFunction "isPrototypeOf");
  (str "propertyIsEnumerable", nativeFunction "propertyIsEnumerable");
  (str "toLocaleString", nativeFunction "toLocaleString");
  (str "toString", nativeFunction "toString");
  (str "valueOf", nativeFunction "valueOf");
  (str "__defineGetter__", nativeFunction "__defineGetter__");
  (str "__defineSetter__", nativeFunction "__defineSetter__");
  (str "__lookupGetter__", nativeFunction "__lookupGetter__");
  (str "__lookupSetter__", nativeFunction "__lookupSetter__");
  (PROTO, str "[object Object]")
].

(** [object[key]] read from a plain object with the own properties
    [own]: the own property if there is one, the inherited member
    otherwise, [None] standing for [undefined]. *)
Definition get (own : gmap js_string js_string) (key : js_string) : option js_string :=
  match own !! key with
  | Some value => Some value
  | None => prototype !! key
  end.

(** [object[key] = value] for a string [value] on a plain object: an own
    property is created or overwritten, except that the key [__proto__],
    unless it is an own property already, reaches the setter inherited
    from [Object.prototype], which ignores a value that is not an object. *)
Definition assign (key value : js_string) (own : gmap js_string js_string)
    : gmap js_string js_string :=
  if decide (key = PROTO ∧ own !! key = None) then own
  else <[key := value]> own.

End JsObject.

(** ** Promises, files and the [fetch] interface *)

Record Error := { message : js_string }.

(** The outcome of awaiting a promise. *)
Inductive Settled (A : Type) :=
| Resolved (a : A)
| Rejected (e : Error).
Arguments Resolved {A} a.
Arguments Rejected {A} e.

(** A [File] picked in the browser: its name and what [readAsText] delivers
    ([None] when the reader fires [onerror]). *)
Record File := { name : js_string; contents : option js_string }.

Inductive Body :=
| JsonBody (o : gmap js_string js_string)
| FormDataBody (file : File).

(** The arguments of one [fetch(url, { method, headers, body })] call. *)
Record Request := {
  url : js_string;
  method : js_string;
  headers : gmap js_string js_string;
  body : Body
}.

(** What the client reads from a parsed response body. *)
Record ResponseJson := { detail : option js_string; items_added : option N }.

(** A response: its status code and what [response.json()] settles to. *)
Record Response := { status : N; json : Settled ResponseJson }.

(** [response.ok]: the status is in the range 200-299. *)
Definition ok (response : Response) : bool :=
  (200 <=? status response) && (status response <=? 299).

(** The outside world of the component: the backend (any state machine
    answering requests), the trace of every request issued with its
    outcome, and the number of times [onEntryAdded] was called. *)
Record World (Backend : Type) := {
  backend : Backend;
  trace : list (Request * Settled Response);
  refreshes : nat
}.
Arguments backend {Backend} w.
Arguments trace {Backend} w.
Arguments refreshes {Backend} w.

(** ** utils/csvTemplates.ts *)

Module csvTemplates.

Record Template := {
  headers : list js_string;
  sampleData : list (list js_string);
  filename : js_string
}.

Definition template (hs : list string) (rows : list (list string)) (file : string) : Template :=
  {| headers := map str hs; sampleData := map (map str) rows; filename := str file |}.

Definition CSV_TEMPLATES : gmap js_string Template := list_to_map [
  (str "Target Lists", template
    ["hcp_id"; "hcp_name"; "specialty"; "territory"; "tier"]
    [ ["HCP001"; "Dr. Rajesh Kumar"; "Cardiology"; "North Delhi"; "A"];
      ["HCP002"; "Dr. Priya Sharma"; "Neurology"; "South Mumbai"; "A"];
      ["HCP003"; "Dr. Amit Patel"; "Orthopedics"; "East Bangalore"; "B"];
      ["HCP004"; "Dr. Sneha Reddy"; "Oncology"; "West Delhi"; "A"];
      ["HCP005"; "Dr. Vikram Singh"; "Gastroenterology"; "Central Gurugram"; "B"] ]
    "target_lists_sample.csv");
  (str "Call Lists", template
    ["hcp_id"; "hcp_name"; "call_date"; "sales_rep"; "status"]
    [ ["HCP001"; "Dr. Rajesh Kumar"; "2025-11-01"; "Arjun Kapoor"; "Scheduled"];
      ["HCP002"; "Dr. Priya Sharma"; "2025-11-02"; "Pooja Singh"; "Scheduled"];
      ["HCP003"; "Dr. Amit Patel"; "2025-11-03"; "Ravi Verma"; "Pending"];
      ["HCP004"; "Dr. Sneha Reddy"; "2025-11-04"; "Neha Agarwal"; "Scheduled"];
      ["HCP005"; "Dr. Vikram Singh"; "2025-11-05"; "Rahul Joshi"; "Completed"] ]
    "call_lists_sample.csv");
  (str "Formulary Decision-Maker Lists", template
    ["contact_id"; "contact_name"; "organization"; "email"; "influence_level"]
    [ ["FDM001"; "Dr. Rajiv Malhotra"; "Max Healthcare"; "rajiv.malhotra@max.com"; "High"];
      ["FDM002"; "Dr. Sunita Verma"; "Apollo Hospitals"; "sunita.verma@apollo.com"; "High"];
      ["FDM003"; "Mr. Anil Chopra"; "Fortis Healthcare"; "anil.chopra@fortis.com"; "Medium"];
      ["FDM004"; "Dr. Kiran Patel"; "Medanta Hospital"; "kiran.patel@medanta.com"; "High"];
      ["FDM005"; "Ms. Rekha Nair"; "AIIMS Delhi"; "rekha.nair@aiims.edu"; "High"] ]
    "formulary_decision_maker_lists_sample.csv");
  (str "IDN/Health System Lists", template
    ["system_id"; "system_name"; "contact_name"; "contact_email"; "importance"]
    [ ["IDN001"; "Apollo Hospitals Group"; "Dr. Ravi Shankar"; "ravi.shankar@apollo.com"; "Tier 1"];
      ["IDN002"; "Fortis Healthcare Network"; "Ms. Priya Mathur"; "priya.mathur@fortis.com"; "Tier 1"];
      ["IDN003"; "Max Healthcare System"; "Mr. Sandeep Gupta"; "sandeep.gupta@max.com"; "Tier 2"];
      ["IDN004"; "Medanta Network"; "Dr. Arvind Kumar"; "arvind.kumar@medanta.com"; "Tier 1"];
      ["IDN005"; "Narayana Health Group"; "Dr. Lakshmi Rao"; "lakshmi.rao@narayana.com"; "Tier 2"] ]
    "idn_health_system_lists_sample.csv");
  (str "Event Invitation Lists", template
    ["event_name"; "event_date"; "invitee_id"; "invitee_name"; "email"; "status"]
    [ ["Cardiology Summit 2025"; "2025-12-15"; "HCP001"; "Dr. Rajesh Kumar"; "rajesh.kumar@apollo.com"; "Invited"];
      ["Neurology Conference"; "2025-12-20"; "HCP002"; "Dr. Priya Sharma"; "priya.sharma@fortis.com"; "Confirmed"];
      ["Oncology Workshop"; "2026-01-10"; "HCP004"; "Dr. Sneha Reddy"; "sneha.reddy@aiims.edu"; "Invited"];
      ["Gastro Symposium"; "2026-01-25"; "HCP005"; "Dr. Vikram Singh"; "vikram.singh@medanta.com"; "Pending"];
      ["Endocrine Conclave"; "2026-02-05"; "HCP006"; "Dr. Ananya Iyer"; "ananya.iyer@apollo.com"; "Confirmed"] ]
    "event_invitation_lists_sample.csv");
  (str "Digital Engagement Lists", template
    ["contact_id"; "contact_name"; "email"; "specialty"; "opt_in"]
    [ ["DG001"; "Dr. Rajesh Kumar"; "rajesh.kumar@apollo.com"; "Cardiology"; "TRUE"];
      ["DG002"; "Dr. Priya Sharma"; "priya.sharma@fortis.com"; "Neurology"; "TRUE"];
      ["DG003"; "Dr. Amit Patel"; "amit.patel@max.com"; "Orthopedics"; "FALSE"];
      ["DG004"; "Dr. Sneha Reddy"; "sneha.reddy@aiims.edu"; "Oncology"; "TRUE"];
      ["DG005"; "Dr. Vikram Singh"; "vikram.singh@medanta.com"; "Gastroenterology"; "TRUE"] ]
    "digital_engagement_lists_sample.csv");
  (str "High-Value Prescriber Lists", template
    ["hcp_id"; "hcp_name"; "specialty"; "territory"; "total_prescriptions"; "revenue"; "value_tier"]
    [ ["HCP001"; "Dr. Rajesh Kumar"; "Cardiology"; "North Delhi"; "850"; "125000.50"; "Platinum"];
      ["HCP002"; "Dr. Priya Sharma"; "Neurology"; "South Mumbai"; "720"; "98000.75"; "Gold"];
      ["HCP003"; "Dr. Amit Patel"; "Orthopedics"; "East Bangalore"; "550"; "72000.00"; "Gold"];
      ["HCP004"; "Dr. Sneha Reddy"; "Oncology"; "West Delhi"; "920"; "145000.25"; "Platinum"];
      ["HCP005"; "Dr. Vikram Singh"; "Gastroenterology"; "Central Gurugram"; "480"; "65000.00"; "Silver"] ]
    "high_value_prescriber_lists_sample.csv");
  (str "Competitor Target Lists", template
    ["hcp_id"; "hcp_name"; "specialty"; "territory"; "competitor_product"; "conversion_potential"; "assigned_rep"]
    [ ["HCP011"; "Dr. Ramesh Patel"; "Cardiology"; "North Delhi"; "CompetitorX CardioMed"; "High"; "Arjun Kapoor"];
      ["HCP012"; "Dr. Lakshmi Menon"; "Neurology"; "South Mumbai"; "CompetitorY NeuroPlus"; "Medium"; "Pooja Singh"];
      ["HCP013"; "Dr. Sunil Reddy"; "Orthopedics"; "East Bangalore"; "CompetitorZ BoneCare"; "High"; "Ravi Verma"];
      ["HCP014"; "Dr. Anjali Desai"; "Oncology"; "West Delhi"; "CompetitorX OncoMax"; "High"; "Neha Agarwal"];
      ["HCP015"; "Dr. Karthik Iyer"; "Gastroenterology"; "Central Gurugram"; "CompetitorY GastroRelief"; "Low"; "Rahul Joshi"] ]
    "competitor_target_lists_sample.csv")
].

(** [rows.map(row => row.join(',')).join('\n')] with [rows = [headers, ...data]] *)
Definition arrayToCSV (headers : list js_string) (data : list (list js_string)) : js_string :=
  let rows := headers :: data in
  Js.join [Js.LF] (map (Js.join [Js.COMMA]) rows).

(** The browser side of a download: the files saved so far, each with
    the name and the text it was saved with. *)
Record Browser := { saved : list (js_string * js_string) }.

Definition downloadCSV (content filename : js_string) (b : Browser) : Browser :=
  {| saved := saved b ++ [(filename, content)] |}.

(** [listType] is not the name of a member of [Object.prototype] (for
    such a name [CSV_TEMPLATES[listType]] is truthy and has no headers);
    [handleDownloadSample], the only caller, never passes one. *)
Definition downloadSampleCSV (listType : js_string) (b : Browser) : Browser :=
  match CSV_TEMPLATES !! listType with
  | None => b
  | Some template =>
      let csvContent := arrayToCSV (headers template) (sampleData template) in
      downloadCSV csvContent (filename template) b
  end.

(** [mapping[subdomainName] || null] *)
Definition getListTypeFromSubdomain (subdomainName : js_string) : option js_string :=
  let mapping : gmap js_string js_string := list_to_map [
    (str "Target Lists", str "Target Lists");
    (str "Call Lists", str "Call Lists");
    (str "Formulary Decision-Maker Lists", str "Formulary Decision-Maker Lists");
    (str "IDN/Health System Lists", str "IDN/Health System Lists");
    (str "Event Invitation Lists", str "Event Invitation Lists");
    (str "Digital Engagement Lists", str "Digital Engagement Lists");
    (str "High-Value Prescriber Lists", str "High-Value Prescriber Lists");
    (str "Competitor Target Lists", str "Competitor Target Lists")
  ] in
  match JsObject.get mapping subdomainName with
  | Some (c :: listType) => Some (c :: listType)
  | _ => None
  end.

End csvTemplates.

(** ** The shared axios client and its request interceptor *)

Module axiosClient.

Record Config := {
  url : js_string;
  method : js_string;
  headers : option (gmap js_string js_string)
}.

(** [instance.interceptors.request.use(config => ...)]; [localStorage] is
    the browser's key-value store, [getItem] of an absent key is [null]. *)
Definition requestInterceptor (localStorage : gmap js_string js_string)
    (config : Config) : Config :=
  match localStorage !! str "sb_token", headers config with
  | Some token, Some hs =>
      if decide (token = []) then config
      else {| url := url config;
              method := method config;
              headers := Some (<[str "Authorization" := str "Bearer " ++ token]> hs) |}
  | _, _ => config
  end.

(** What a request through the client settles to: the status code and the
    parsed body, [None] standing for a falsy [response.data]. *)
Record Response (Data : Type) := { status : N; data : option Data }.
Arguments status {Data} r.
Arguments data {Data} r.

(** The world of the shared client: the browser storage, the backend, and
    every configuration handed to the network with its outcome. *)
Record World (Backend Data : Type) := {
  localStorage : gmap js_string js_string;
  backend : Backend;
  sent : list (Config * Settled (Response Data))
}.
Arguments localStorage {Backend Data} w.
Arguments backend {Backend Data} w.
Arguments sent {Backend Data} w.

(** axios rejects a response whose status is outside 200-299. *)
Definition validateStatus (code : N) : bool := (200 <=? code) && (code <? 300).

(** One request through the instance: the interceptor first, then the
    network; [defaults] are the headers axios itself puts on a request. *)
Definition request {Backend Data : Type}
    (serve : Backend → Config → Backend * Settled (Response Data))
    (defaults : gmap js_string js_string) (verb path : js_string)
    (w : World Backend Data) : World Backend Data * Settled (Response Data) :=
  let config :=
    requestInterceptor (localStorage w)
      {| url := path; method := verb; headers := Some defaults |} in
  let '(b, outcome) := serve (backend w) config in
  let w' := {| localStorage := localStorage w; backend := b;
               sent := sent w ++ [(config, outcome)] |} in
  match outcome with
  | Resolved response =>
      if validateStatus (status response) then (w', Resolved response)
      else (w', Rejected {| message := str "Request failed with status code "
                                         ++ Js.ofNumber (status response) |})
  | Rejected e => (w', Rejected e)
  end.

End axiosClient.

(** ** components/InlineAddEntry.tsx *)

Module InlineAddEntry.

(** *** The CSV import parser, [parseCsvFile] *)

(** [h.trim().replace(/^"|"$/g, '')] *)
Definition cleanField (field : js_string) : js_string :=
  Js.replaceEdgeQuotes (Js.trim field).

(** [line.split(',').map(v => v.trim().replace(/^"|"$/g, ''))] *)
Definition splitFields (line : js_string) : list js_string :=
  map cleanField (Js.split Js.COMMA line).

(** [headers.forEach((header, index) => { row[header] = values[index] || '' })],
    from position [index] of the header array on. *)
Fixpoint forEachHeader (index : nat) (headers values : list js_string)
    (row : gmap js_string js_string) : gmap js_string js_string :=
  match headers with
  | [] => row
  | header :: rest =>
      forEachHeader (S index) rest values
        (JsObject.assign header (default [] (values !! index)) row)
  end.

Definition buildRow (headers values : list js_string) : gmap js_string js_string :=
  forEachHeader 0 headers values ∅.

(** [text.split('\n').filter(line => line.trim())] *)
Definition nonBlankLines (text : js_string) : list js_string :=
  filter (λ line, Js.trim line ≠ []) (Js.split Js.LF text).

Definition MalformedFile : Error :=
  {| message := str "CSV file must have at least a header row and one data row" |}.

(** The body of [reader.onload]. *)
Definition parseCsvText (text : js_string) : Settled (list (gmap js_string js_string)) :=
  let lines := nonBlankLines text in
  if (length lines <? 2)%nat then Rejected MalformedFile
  else
    match lines with
    | [] => Rejected MalformedFile
    | headerLine :: dataLines =>
        let headers := splitFields headerLine in
        Resolved (map (λ line, buildRow headers (splitFields line)) dataLines)
    end.

Definition parseCsvFile (file : File) : Settled (list (gmap js_string js_string)) :=
  match contents file with
  | Some text => parseCsvText text
  | None => Rejected {| message := str "Failed to read file" |}
  end.

(** *** Component state *)

Inductive ToastType := success | error | warning | info.
Record Toast := { toastMessage : js_string; toastType : ToastType }.

Inductive AddMode := manual | csv.

Record State := {
  isAdding : bool;
  showMenu : bool;
  addMode : option AddMode;
  formData : gmap js_string js_string;
  toast : option Toast;
  isSaving : bool;
  isUploading : bool;
  selectedFile : option File
}.

Definition initialState : State :=
  {| isAdding := false; showMenu := false; addMode := None; formData := ∅;
     toast := None; isSaving := false; isUploading := false; selectedFile := None |}.

Definition withIsAdding (v : bool) (st : State) : State :=
  {| isAdding := v; showMenu := showMenu st; addMode := addMode st;
     formData := formData st; toast := toast st; isSaving := isSaving st;
     isUploading := isUploading st; selectedFile := selectedFile st |}.
Definition withShowMenu (v : bool) (st : State) : State :=
  {| isAdding := isAdding st; showMenu := v; addMode := addMode st;
     formData := formData st; toast := toast st; isSaving := isSaving st;
     isUploading := isUploading st; selectedFile := selectedFile st |}.
Definition withAddMode (v : option AddMode) (st : State) : State :=
  {| isAdding := isAdding st; showMenu := showMenu st; addMode := v;
     formData := formData st; toast := toast st; isSaving := isSaving st;
     isUploading := isUploading st; selectedFile := selectedFile st |}.
Definition withFormData (v : gmap js_string js_string) (st : State) : State :=
  {| isAdding := isAdding st; showMenu := showMenu st; addMode := addMode st;
     formData := v; toast := toast st; isSaving := isSaving st;
     isUploading := isUploading st; selectedFile := selectedFile st |}.
Definition withToast (v : option Toast) (st : State) : State :=
  {| isAdding := isAdding st; showMenu := showMenu st; addMode := addMode st;
     formData := formData st; toast := v; isSaving := isSaving st;
     isUploading := isUploading st; selectedFile := selectedFile st |}.
Definition withIsSaving (v : bool) (st : State) : State :=
  {| isAdding := isAdding st; showMenu := showMenu st; addMode := addMode st;
     formData := formData st; toast := toast st; isSaving := v;
     isUploading := isUploading st; selectedFile := selectedFile st |}.
Definition withIsUploading (v : bool) (st : State) : State :=
  {| isAdding := isAdding st; showMenu := showMenu st; addMode := addMode st;
     formData := formData st; toast := toast st; isSaving := isSaving st;
     isUploading := v; selectedFile := selectedFile st |}.
Definition withSelectedFile (v : option File) (st : State) : State :=
  {| isAdding := isAdding st; showMenu := showMenu st; addMode := addMode st;
     formData := formData st; toast := toast st; isSaving := isSaving st;
     isUploading := isUploading st; selectedFile := v |}.

(** *** Synchronous event handlers *)

Definition handleInputChange (column value : js_string) (st : State) : State :=
  withFormData (<[column := value]> (formData st)) st.

Definition handlePlusClick (st : State) : State :=
  withShowMenu (negb (showMenu st)) st.

Definition handleManualAdd (columns : list js_string) (st : State) : State :=
  let initialData := foldl (λ data col, JsObject.assign col [] data) ∅ columns in
  withFormData initialData
    (withShowMenu false (withIsAdding true (withAddMode (Some manual) st))).

Definition handleCsvAdd (st : State) : State :=
  withShowMenu false (withIsAdding true (withAddMode (Some csv) st)).

Definition handleCancel (st : State) : State :=
  withShowMenu false
    (withSelectedFile None (withFormData ∅ (withAddMode None (withIsAdding false st)))).

(** [file.name.endsWith('.csv')] *)
Definition endsWithCsv (fileName : js_string) : bool :=
  bool_decide (str ".csv" `suffix_of` fileName).

(** [event.target.files?.[0]] is [file]. *)
Definition handleFileChange (file : option File) (st : State) : State :=
  match file with
  | None => st
  | Some f =>
      if endsWithCsv (name f) then withSelectedFile (Some f) st
      else withToast (Some {| toastMessage := str "Please select a CSV file";
                              toastType := error |}) st
  end.

(** [Object.fromEntries(Object.entries(row).filter(([_, value]) => value.trim() !== ''))] *)
Definition stripEmpty (row : gmap js_string js_string) : gmap js_string js_string :=
  filter (λ entry : js_string * js_string, Js.trim entry.2 ≠ []) row.

(** [fetch(`http://localhost:8000/api/${tableName}`, { method: 'POST',
    headers: { 'Content-Type': 'application/json' }, body: JSON.stringify(dataToSend) })] *)
Definition createRequest (tableName : js_string) (dataToSend : gmap js_string js_string) : Request :=
  {| url := str "http://localhost:8000/api/" ++ tableName;
     method := str "POST";
     headers := {[ str "Content-Type" := str "application/json" ]};
     body := JsonBody dataToSend |}.

(** [fetch(`http://localhost:8000/api/lists/${listId}/upload-csv`,
    { method: 'POST', body: formData })] *)
Definition uploadRequest (listId : N) (file : File) : Request :=
  {| url := str "http://localhost:8000/api/lists/" ++ Js.ofNumber listId ++ str "/upload-csv";
     method := str "POST";
     headers := ∅;
     body := FormDataBody file |}.

(** [errorData.detail || `Server error: ${response.status}`], where
    [errorData] is [await response.json().catch(() => ({ detail: 'Unknown error' }))]. *)
Definition serverRejected (response : Response) : Error :=
  let errorData :=
    match json response with
    | Resolved data => data
    | Rejected _ => {| detail := Some (str "Unknown error"); items_added := None |}
    end in
  match detail errorData with
  | Some (c :: d) => {| message := c :: d |}
  | _ => {| message := str "Server error: " ++ Js.ofNumber (status response) |}
  end.

(** The running counters of the per-row import loop. *)
Record Tally := { successCount : nat; errorCount : nat }.

Definition countSuccess (t : Tally) : Tally :=
  {| successCount := S (successCount t); errorCount := errorCount t |}.
Definition countError (t : Tally) : Tally :=
  {| successCount := successCount t; errorCount := S (errorCount t) |}.

(** The toast shown once the loop is over. *)
Definition completionToast (t : Tally) : Toast :=
  if (0 <? errorCount t)%nat then
    {| toastMessage :=
         str "Uploaded " ++ Js.ofNumber (N.of_nat (successCount t)) ++
         str " entries successfully. " ++ Js.ofNumber (N.of_nat (errorCount t)) ++
         str " entries failed.";
       toastType := warning |}
  else
    {| toastMessage :=
         str "Successfully uploaded " ++ Js.ofNumber (N.of_nat (successCount t)) ++
         str " entries!";
       toastType := success |}.

(** [handleDownloadSample]: the sample template of the subdomain the
    component is shown for; [subdomainName] is [None] when the prop is
    absent.  The download itself is the browser's business. *)
Definition handleDownloadSample (subdomainName : option js_string)
    (st : State) (b : csvTemplates.Browser) : State * csvTemplates.Browser :=
  match subdomainName with
  | Some (c :: name) =>
      match csvTemplates.getListTypeFromSubdomain (c :: name) with
      | Some (d :: listType) =>
          let b' := csvTemplates.downloadSampleCSV (d :: listType) b in
          (withToast (Some {| toastMessage := str "Sample CSV downloaded successfully!";
                              toastType := success |}) st, b')
      | _ =>
          (withToast (Some {| toastMessage := str "No sample template available for this list type";
                              toastType := error |}) st, b)
      end
  | _ =>
      (withToast (Some {| toastMessage := str "Unable to determine list type for sample CSV";
                          toastType := error |}) st, b)
  end.

Section Handlers.

Context {Backend : Type}.

(** The backend: from its state and a request, its next state and what
    the [fetch] promise settles to ([Rejected] is a network failure). *)
Variable serve : Backend → Request → Backend * Settled Response.

(** Props of the component. [listId] is [None] when the prop is absent. *)
Variable tableName : js_string.
Variable listId : option N.

(** An [async] handler run to completion: it may update the component
    state, talk to the world, and either returns or throws. *)
Definition Async (A : Type) : Type :=
  State → World Backend → State * World Backend * Settled A.

Definition ret {A} (a : A) : Async A := λ st w, (st, w, Resolved a).

Definition throw {A} (e : Error) : Async A := λ st w, (st, w, Rejected e).

Definition bind {A B} (m : Async A) (k : A → Async B) : Async B :=
  λ st w,
    let '(st', w', r) := m st w in
    match r with
    | Resolved a => k a st' w'
    | Rejected e => (st', w', Rejected e)
    end.

(** [try { body } catch (error) { handler }] *)
Definition tryCatch {A} (body : Async A) (handler : Error → Async A) : Async A :=
  λ st w,
    let '(st', w', r) := body st w in
    match r with
    | Resolved a => (st', w', Resolved a)
    | Rejected e => handler e st' w'
    end.

(** [try { body } finally { finalizer }] *)
Definition tryFinally {A} (body : Async A) (finalizer : Async unit) : Async A :=
  λ st w,
    let '(st', w', r) := body st w in
    let '(st'', w'', r') := finalizer st' w' in
    match r' with
    | Resolved _ => (st'', w'', r)
    | Rejected e => (st'', w'', Rejected e)
    end.

(** [await p] for an already settled promise. *)
Definition await {A} (p : Settled A) : Async A := λ st w, (st, w, p).

(** A state setter of [useState]. *)
Definition set (update : State → State) : Async unit :=
  λ st w, (update st, w, Resolved tt).

(** [await fetch(...)]: the request reaches the backend and is recorded. *)
Definition fetch (request : Request) : Async Response :=
  λ st w,
    let '(b, r) := serve (backend w) request in
    (st, {| backend := b; trace := trace w ++ [(request, r)];
            refreshes := refreshes w |}, r).

(** The [onEntryAdded()] callback of the hosting view. *)
Definition onEntryAdded : Async unit :=
  λ st w,
    (st, {| backend := backend w; trace := trace w;
            refreshes := S (refreshes w) |}, Resolved tt).

Local Notation "x <- m ;; k" := (bind m (λ x, k))
  (at level 100, m at next level, right associativity).
Local Notation "m ;; k" := (bind m (λ _, k))
  (at level 100, right associativity).

(** One iteration of [for (const row of rows) { try { ... } catch { ... } }]. *)
Definition importRow (t : Tally) (row : gmap js_string js_string) : Async Tally :=
  tryCatch
    (let dataToSend := stripEmpty row in
     if decide (size dataToSend = 0%nat) then ret (countError t)
     else
       response <- fetch (createRequest tableName dataToSend) ;;
       (if ok response then ret (countSuccess t) else ret (countError t)))
    (λ _, ret (countError t)).

Fixpoint importRows (t : Tally) (rows : list (gmap js_string js_string)) : Async Tally :=
  match rows with
  | [] => ret t
  | row :: rest => t' <- importRow t row ;; importRows t' rest
  end.

(** The [if (listId)] branch: one request to the list's upload endpoint. *)
Definition uploadToList (id : N) (file : File) : Async unit :=
  response <- fetch (uploadRequest id file) ;;
  (if negb (ok response) then throw (serverRejected response) else ret tt) ;;
  result <- await (json response) ;;
  set (withToast (Some
    {| toastMessage :=
         str "Successfully uploaded " ++
         Js.ofNumber (default 0 (items_added result)) ++ str " entries!";
       toastType := success |})).

(** The [else] branch: parse the file and add the entries one by one. *)
Definition uploadPerRow (file : File) : Async unit :=
  rows <- await (parseCsvFile file) ;;
  t <- importRows {| successCount := 0; errorCount := 0 |} rows ;;
  set (withToast (Some (completionToast t))).

(** Thrown values are always [Error] objects here, so the handlers'
    [error instanceof Error ? error.message : ...] shows the message. *)
Definition handleCsvUpload : Async unit :=
  λ render,
    match selectedFile render with
    | None =>
        set (withToast (Some {| toastMessage := str "Please select a CSV file";
                                toastType := warning |})) render
    | Some file =>
        tryFinally
          (tryCatch
             (set (withIsUploading true) ;;
              (match listId with
               | Some (Npos id) => uploadToList (Npos id) file
               | _ => uploadPerRow file
               end) ;;
              set (withIsAdding false) ;;
              set (withAddMode None) ;;
              set (withSelectedFile None) ;;
              onEntryAdded)
             (λ error,
                set (withToast (Some {| toastMessage := message error;
                                        toastType := InlineAddEntry.error |}))))
          (set (withIsUploading false))
          render
    end.

Definition handleSave : Async unit :=
  λ render,
    tryFinally
      (tryCatch
         (set (withIsSaving true) ;;
          (let dataToSend := stripEmpty (formData render) in
           if decide (size dataToSend = 0%nat) then
             set (withToast (Some {| toastMessage := str "Please fill in at least one field";
                                     toastType := warning |})) ;;
             set (withIsSaving false)
           else
             response <- fetch (createRequest tableName dataToSend) ;;
             (if negb (ok response) then throw (serverRejected response)
              else ret tt) ;;
             result <- await (json response) ;;
             set (withToast (Some {| toastMessage := str "Entry added successfully!";
                                     toastType := success |})) ;;
             set (withIsAdding false) ;;
             set (withFormData ∅) ;;
             onEntryAdded))
         (λ error,
            set (withToast (Some {| toastMessage := message error;
                                    toastType := InlineAddEntry.error |}))))
      (set (withIsSaving false))
      render.

End Handlers.

End InlineAddEntry.

(** ** pages/DomainView.tsx *)

Module DomainView.

(** Map subdomain names to their corresponding entry table names:
    [tableMapping[subdomainName] || null]. *)
Definition getEntryTableName (subdomainName : js_string) : option js_string :=
  let tableMapping : gmap js_string js_string := list_to_map [
    (str "Target Lists", str "target_list");
    (str "Call Lists", str "call_list_entries");
    (str "Formulary Decision-Maker Lists", str "formulary_decision_maker_entries");
    (str "IDN/Health System Lists", str "idn_health_system_entries");
    (str "Event Invitation Lists", str "event_invitation_entries");
    (str "Digital Engagement Lists", str "digital_engagement_entries");
    (str "High-Value Prescriber Lists", str "high_value_prescriber_entries");
    (str "Competitor Target Lists", str "competitor_target_entries")
  ] in
  match JsObject.get tableMapping subdomainName with
  | Some (c :: tableName) => Some (c :: tableName)
  | _ => None
  end.

(** The [tableName] prop handed to [InlineAddEntry]:
    [getEntryTableName(selectedSubdomain.subdomain_name) || '']; the
    [listId] prop is not passed. *)
Definition addEntryTableName (subdomainName : js_string) : js_string :=
  default [] (getEntryTableName subdomainName).

Definition addEntryListId : option N := None.

(** Get the ID field based on table type. *)
Definition getIdFieldName (tableName : js_string) : js_string :=
  if decide (tableName = str "target_list") then str "id" else str "entry_id".

Record Subdomain := {
  subdomain_id : N;
  domain_id : N;
  subdomain_name : js_string
}.

(** A JavaScript [Set]: its elements, without repetition, in insertion
    order. *)
Module JsSet.

Definition add {A} `{EqDecision A} (x : A) (s : list A) : list A :=
  if decide (x ∈ s) then s else s ++ [x].

Definition delete {A} `{EqDecision A} (x : A) (s : list A) : list A :=
  filter (λ y, y ≠ x) s.

(** [new Set(array)] *)
Definition ofArray {A} `{EqDecision A} (array : list A) : list A :=
  foldl (λ s x, add x s) [] array.

End JsSet.

Section Entries.

(** The values found in a row of an entry table; their equality is the
    one a [Set] uses. *)
Context {Value : Type} `{EqDecision Value}.

(** A row as the backend returns it: its own properties in enumeration
    order. *)
Local Abbreviation Entry := (list (js_string * Value)).

(** [entry[key]] for a key that [Object.prototype] has no member for
    (the id fields), [None] standing for [undefined]. *)
Definition prop (entry : Entry) (key : js_string) : option Value :=
  snd <$> List.find (λ kv, bool_decide (kv.1 = key)) entry.

(** Get unique ID for an entry. *)
Definition getEntryId (entry : Entry) (tableName : js_string) : option Value :=
  prop entry (getIdFieldName tableName).

(** Get column names for the current entry type. *)
Definition getColumnNames (entries : list Entry) : list js_string :=
  match entries with
  | [] => []
  | firstEntry :: _ =>
      filter (λ key, key ∉ [str "entry_id"; str "version_id"; str "created_at"; str "id"])
             (map fst firstEntry)
  end.

(** Toggle entry selection. *)
Definition handleToggleEntry (entryId : option Value)
    (prev : list (option Value)) : list (option Value) :=
  let newSet := prev in
  if decide (entryId ∈ newSet) then JsSet.delete entryId newSet
  else JsSet.add entryId newSet.

(** Select all entries. *)
Definition handleSelectAll (subdomainName : js_string) (entries : list Entry)
    (selectedEntries : list (option Value)) : list (option Value) :=
  match getEntryTableName subdomainName with
  | Some (c :: tableName) =>
      if (length selectedEntries =? length entries)%nat then []
      else JsSet.ofArray (map (λ e, getEntryId e (c :: tableName)) entries)
  | _ => selectedEntries
  end.

(** The part of the page state the entry table lives in. *)
Record State := {
  selectedSubdomain : option Subdomain;
  entries : list Entry;
  toast : option InlineAddEntry.Toast;
  entriesLoading : bool;
  isEditMode : bool;
  selectedEntries : list (option Value)
}.

Definition withEntries (v : list Entry) (st : State) : State :=
  {| selectedSubdomain := selectedSubdomain st; entries := v; toast := toast st;
     entriesLoading := entriesLoading st; isEditMode := isEditMode st;
     selectedEntries := selectedEntries st |}.
Definition withToast (v : option InlineAddEntry.Toast) (st : State) : State :=
  {| selectedSubdomain := selectedSubdomain st; entries := entries st; toast := v;
     entriesLoading := entriesLoading st; isEditMode := isEditMode st;
     selectedEntries := selectedEntries st |}.
Definition withEntriesLoading (v : bool) (st : State) : State :=
  {| selectedSubdomain := selectedSubdomain st; entries := entries st; toast := toast st;
     entriesLoading := v; isEditMode := isEditMode st;
     selectedEntries := selectedEntries st |}.

Context {Backend : Type}.
Variable serve :
  Backend → axiosClient.Config → Backend * Settled (axiosClient.Response (list Entry)).
Variable defaults : gmap js_string js_string.

(** [fetchEntries]: load the rows of the selected subdomain's table. *)
Definition fetchEntries (st : State) (w : axiosClient.World Backend (list Entry))
    : State * axiosClient.World Backend (list Entry) :=
  match selectedSubdomain st with
  | None => (withEntries [] st, w)
  | Some subdomain =>
      let st1 := withEntriesLoading true st in
      let '(st2, w2) :=
        match getEntryTableName (subdomain_name subdomain) with
        | Some (c :: tableName) =>
            let '(w', outcome) :=
              axiosClient.request serve defaults (str "get")
                (str "/api/" ++ c :: tableName) w in
            match outcome with
            | Resolved response =>
                (withEntries (default [] (axiosClient.data response)) st1, w')
            | Rejected _ =>
                (withEntries []
                   (withToast (Some
                      {| InlineAddEntry.toastMessage :=
                           str "Failed to load entries. Please try again.";
                         InlineAddEntry.toastType := InlineAddEntry.error |}) st1), w')
            end
        | _ =>
            (withEntries []
               (withToast (Some
                  {| InlineAddEntry.toastMessage :=
                       str "Unknown subdomain type: " ++ subdomain_name subdomain;
                     InlineAddEntry.toastType := InlineAddEntry.error |}) st1), w)
        end in
      (withEntriesLoading false st2, w2)
  end.

End Entries.

End DomainView.

(** ** constants/domains.ts *)

Module domains.

Record DomainConfig := {
  key : js_string;
  displayName : js_string;
  listTypes : list js_string;
  domainId : N
}.

Definition DOMAIN_CONFIGS : list DomainConfig := [
  {| key := str "Customer/HCP";
     displayName := str "Customer/HCP Lists";
     listTypes := [str "Target Lists"; str "Call Lists"];
     domainId := 1 |};
  {| key := str "Account/Institutional";
     displayName := str "Account/Institutional Lists";
     listTypes := [str "Formulary Decision-Maker Lists"; str "IDN/Health System Lists"];
     domainId := 2 |};
  {| key := str "Marketing Campaign";
     displayName := str "Marketing Campaign Lists";
     listTypes := [str "Event Invitation Lists"; str "Digital Engagement Lists"];
     domainId := 3 |};
  {| key := str "Data/Analytics";
     displayName := str "Data/Analytics Lists";
     listTypes := [str "High-Value Prescriber Lists"; str "Competitor Target Lists"];
     domainId := 4 |}
].

(** [DOMAIN_CONFIGS.find(config => config.key === key)] *)
Definition getDomainConfig (k : js_string) : option DomainConfig :=
  List.find (λ config, bool_decide (key config = k)) DOMAIN_CONFIGS.

Definition getDomainKeys : list js_string := map key DOMAIN_CONFIGS.

Definition getDomainDisplayName (k : js_string) : js_string :=
  match getDomainConfig k with
  | Some config => displayName config
  | None => k
  end.

Definition getListTypesForDomain (k : js_string) : list js_string :=
  match getDomainConfig k with
  | Some config => listTypes config
  | None => []
  end.

(** Map old domain names to new ones for backward compatibility. *)
Definition DOMAIN_MIGRATION_MAP : gmap js_string js_string := list_to_map [
  (str "Customer", str "Customer/HCP");
  (str "Account", str "Account/Institutional");
  (str "Marketing", str "Marketing Campaign");
  (str "Data", str "Data/Analytics")
].

(** [DOMAIN_MIGRATION_MAP[oldDomain] || oldDomain] *)
Definition migrateDomainName (oldDomain : js_string) : js_string :=
  match JsObject.get DOMAIN_MIGRATION_MAP oldDomain with
  | Some (c :: newDomain) => c :: newDomain
  | _ => oldDomain
  end.

End domains.

(** ** The add-entry component as a machine driven by the user *)

Module Component.

(** What the user can do to the component: each event runs one handler.
    The render only restricts further when an event can happen.  In this
    machine a handler started by an event is over before the next event:
    the schedule in which the user waits for each save and each upload.
    [Interleaved] has the other schedules. *)
Inductive Event :=
| PlusClick
| ManualAdd
| CsvAdd
| Cancel
| InputChange (column value : js_string)
| FileChange (file : option File)
| DownloadSample
| CsvUpload
| Save.

Record Props := {
  columns : list js_string;
  tableName : js_string;
  listId : option N;
  subdomainName : option js_string
}.

Record Config (Backend : Type) := {
  state : InlineAddEntry.State;
  world : World Backend;
  browser : csvTemplates.Browser
}.
Arguments state {Backend} c.
Arguments world {Backend} c.
Arguments browser {Backend} c.

Section Machine.

Context {Backend : Type}.
Variable serve : Backend → Request → Backend * Settled Response.
Variable props : Props.

Definition sync (f : InlineAddEntry.State → InlineAddEntry.State)
    (c : Config Backend) : Config Backend :=
  {| state := f (state c); world := world c; browser := browser c |}.

Definition async (handler : InlineAddEntry.Async unit) (c : Config Backend)
    : Config Backend :=
  let '(st, w, _) := handler (state c) (world c) in
  {| state := st; world := w; browser := browser c |}.

Definition dispatch (c : Config Backend) (event : Event) : Config Backend :=
  match event with
  | PlusClick => sync InlineAddEntry.handlePlusClick c
  | ManualAdd => sync (InlineAddEntry.handleManualAdd (columns props)) c
  | CsvAdd => sync InlineAddEntry.handleCsvAdd c
  | Cancel => sync InlineAddEntry.handleCancel c
  | InputChange column value => sync (InlineAddEntry.handleInputChange column value) c
  | FileChange file => sync (InlineAddEntry.handleFileChange file) c
  | DownloadSample =>
      let '(st, b) :=
        InlineAddEntry.handleDownloadSample (subdomainName props) (state c) (browser c) in
      {| state := st; world := world c; browser := b |}
  | CsvUpload =>
      async (InlineAddEntry.handleCsvUpload serve (tableName props) (listId props)) c
  | Save => async (InlineAddEntry.handleSave serve (tableName props)) c
  end.

Definition run (events : list Event) (c : Config Backend) : Config Backend :=
  foldl dispatch c events.

(** The component as mounted. *)
Definition mount (w : World Backend) : Config Backend :=
  {| state := InlineAddEntry.initialState; world := w;
     browser := {| csvTemplates.saved := [] |} |}.

End Machine.

End Component.

(** ** The add-entry component with its handlers interleaved *)

Module Interleaved.

(** An [async] handler suspended at one of its [await]s, with what it
    needs to go on.  A request reaches the backend when [fetch] is called;
    what the promise settles to is delivered when the handler resumes. *)
Inductive Task :=
| SaveFetch (outcome : Settled Response)
    (* handleSave at [await fetch(...)] *)
| SaveErrorBody (response : Response)
    (* handleSave at [await response.json().catch(...)] *)
| SaveBody (response : Response)
    (* handleSave at [await response.json()] *)
| UploadFetch (outcome : Settled Response)
    (* handleCsvUpload, list branch, at [await fetch(...)] *)
| UploadErrorBody (response : Response)
| UploadBody (response : Response)
| UploadParse (file : File)
    (* handleCsvUpload at [await parseCsvFile(selectedFile)] *)
| UploadRow (t : InlineAddEntry.Tally) (outcome : Settled Response)
    (rest : list (gmap js_string js_string)).
    (* the loop at [await fetch(...)] for one row, [rest] being the rows
       after it *)

Inductive Handler := Saving | Uploading.

Definition handlerOf (task : Task) : Handler :=
  match task with
  | SaveFetch _ | SaveErrorBody _ | SaveBody _ => Saving
  | _ => Uploading
  end.

(** What can happen to the component: an event of the user that runs a
    handler; the toast being dismissed ([onClose]); a mouse press outside
    the open menu; or the [k]-th suspended handler going on because what
    it awaits has settled. *)
Inductive Input :=
| User (event : Component.Event)
| DismissToast
| ClickOutside
| Resume (k : nat).

Record Configuration (Backend : Type) := {
  state : InlineAddEntry.State;
  world : World Backend;
  browser : csvTemplates.Browser;
  suspended : list Task
}.
Arguments state {Backend} c.
Arguments world {Backend} c.
Arguments browser {Backend} c.
Arguments suspended {Backend} c.

Section Machine.

Context {Backend : Type}.
Variable serve : Backend → Request → Backend * Settled Response.
Variable props : Component.Props.

Definition callFetch (request : Request) (w : World Backend)
    : World Backend * Settled Response :=
  let '(b, outcome) := serve (backend w) request in
  ({| backend := b; trace := trace w ++ [(request, outcome)];
      refreshes := refreshes w |}, outcome).

Definition callOnEntryAdded (w : World Backend) : World Backend :=
  {| backend := backend w; trace := trace w; refreshes := S (refreshes w) |}.

Definition update (f : InlineAddEntry.State → InlineAddEntry.State)
    (c : Configuration Backend) : Configuration Backend :=
  {| state := f (state c); world := world c; browser := browser c;
     suspended := suspended c |}.

(** The [catch] and [finally] of [handleSave]. *)
Definition saveCaught (e : Error) (st : InlineAddEntry.State) : InlineAddEntry.State :=
  InlineAddEntry.withIsSaving false
    (InlineAddEntry.withToast
       (Some {| InlineAddEntry.toastMessage := message e;
                InlineAddEntry.toastType := InlineAddEntry.error |}) st).

(** [handleSave] from the click to its first [await], or to its end when
    there is nothing to send; [formData] is the one of the render the
    click happened in. *)
Definition startSave (c : Configuration Backend) : Configuration Backend :=
  let st := InlineAddEntry.withIsSaving true (state c) in
  let dataToSend := InlineAddEntry.stripEmpty (InlineAddEntry.formData (state c)) in
  if decide (size dataToSend = 0%nat) then
    update (λ _,
      InlineAddEntry.withIsSaving false
        (InlineAddEntry.withIsSaving false
           (InlineAddEntry.withToast
              (Some {| InlineAddEntry.toastMessage := str "Please fill in at least one field";
                       InlineAddEntry.toastType := InlineAddEntry.warning |}) st))) c
  else
    let '(w, outcome) :=
      callFetch (InlineAddEntry.createRequest (Component.tableName props) dataToSend)
        (world c) in
    {| state := st; world := w; browser := browser c;
       suspended := suspended c ++ [SaveFetch outcome] |}.

(** The [catch] and [finally] of [handleCsvUpload]. *)
Definition uploadCaught (e : Error) (st : InlineAddEntry.State) : InlineAddEntry.State :=
  InlineAddEntry.withIsUploading false
    (InlineAddEntry.withToast
       (Some {| InlineAddEntry.toastMessage := message e;
                InlineAddEntry.toastType := InlineAddEntry.error |}) st).

(** The end of [handleCsvUpload] when nothing was thrown. *)
Definition uploadDone (t : InlineAddEntry.Toast) (st : InlineAddEntry.State)
    : InlineAddEntry.State :=
  InlineAddEntry.withIsUploading false
    (InlineAddEntry.withSelectedFile None
       (InlineAddEntry.withAddMode None
          (InlineAddEntry.withIsAdding false
             (InlineAddEntry.withToast (Some t) st)))).

(** [handleCsvUpload] from the click to its first [await]; [selectedFile]
    is the one of the render the click happened in. *)
Definition startCsvUpload (c : Configuration Backend) : Configuration Backend :=
  match InlineAddEntry.selectedFile (state c) with
  | None =>
      update (InlineAddEntry.withToast
              (Some {| InlineAddEntry.toastMessage := str "Please select a CSV file";
                       InlineAddEntry.toastType := InlineAddEntry.warning |})) c
  | Some file =>
      let st := InlineAddEntry.withIsUploading true (state c) in
      match Component.listId props with
      | Some (Npos id) =>
          let '(w, outcome) :=
            callFetch (InlineAddEntry.uploadRequest (Npos id) file) (world c) in
          {| state := st; world := w; browser := browser c;
             suspended := suspended c ++ [UploadFetch outcome] |}
      | _ =>
          {| state := st; world := world c; browser := browser c;
             suspended := suspended c ++ [UploadParse file] |}
      end
  end.

(** The loop over the rows from one [await] to the next: rows left empty
    by the stripping are counted on the way; the loop stops at the first
    row there is something to send for, or at the end of the rows. *)
Fixpoint nextRow (t : InlineAddEntry.Tally) (rows : list (gmap js_string js_string))
    : InlineAddEntry.Tally
      * option (gmap js_string js_string * list (gmap js_string js_string)) :=
  match rows with
  | [] => (t, None)
  | row :: rest =>
      if decide (size (InlineAddEntry.stripEmpty row) = 0%nat)
      then nextRow (InlineAddEntry.countError t) rest
      else (t, Some (row, rest))
  end.

(** The handler suspended at position [k] goes on with the loop. *)
Definition continueRows (k : nat) (t : InlineAddEntry.Tally)
    (rows : list (gmap js_string js_string)) (c : Configuration Backend)
    : Configuration Backend :=
  match nextRow t rows with
  | (t', Some (row, rest)) =>
      let '(w, outcome) :=
        callFetch (InlineAddEntry.createRequest (Component.tableName props)
                 (InlineAddEntry.stripEmpty row)) (world c) in
      {| state := state c; world := w; browser := browser c;
         suspended := <[k := UploadRow t' outcome rest]> (suspended c) |}
  | (t', None) =>
      {| state := uploadDone (InlineAddEntry.completionToast t') (state c);
         world := callOnEntryAdded (world c); browser := browser c;
         suspended := delete k (suspended c) |}
  end.

(** The handler at position [k] is over, leaving the state [st]. *)
Definition finish (k : nat) (st : InlineAddEntry.State) (c : Configuration Backend)
    : Configuration Backend :=
  {| state := st; world := world c; browser := browser c;
     suspended := delete k (suspended c) |}.

(** The handler at position [k] stops at its next [await]. *)
Definition suspend (k : nat) (task : Task) (c : Configuration Backend)
    : Configuration Backend :=
  {| state := state c; world := world c; browser := browser c;
     suspended := <[k := task]> (suspended c) |}.

(** The [k]-th suspended handler runs from the [await] it stopped at to
    its next [await] or to its end.  State setters act on the state as it
    is now. *)
Definition resume (k : nat) (c : Configuration Backend) : Configuration Backend :=
  match suspended c !! k with
  | None => c
  | Some (SaveFetch (Rejected e)) => finish k (saveCaught e (state c)) c
  | Some (SaveFetch (Resolved response)) =>
      if ok response then suspend k (SaveBody response) c
      else suspend k (SaveErrorBody response) c
  | Some (SaveErrorBody response) =>
      finish k (saveCaught (InlineAddEntry.serverRejected response) (state c)) c
  | Some (SaveBody response) =>
      match json response with
      | Rejected e => finish k (saveCaught e (state c)) c
      | Resolved _ =>
          {| state :=
               InlineAddEntry.withIsSaving false
                 (InlineAddEntry.withFormData ∅
                    (InlineAddEntry.withIsAdding false
                       (InlineAddEntry.withToast
                          (Some {| InlineAddEntry.toastMessage := str "Entry added successfully!";
                                   InlineAddEntry.toastType := InlineAddEntry.success |})
                          (state c))));
             world := callOnEntryAdded (world c); browser := browser c;
             suspended := delete k (suspended c) |}
      end
  | Some (UploadFetch (Rejected e)) => finish k (uploadCaught e (state c)) c
  | Some (UploadFetch (Resolved response)) =>
      if ok response then suspend k (UploadBody response) c
      else suspend k (UploadErrorBody response) c
  | Some (UploadErrorBody response) =>
      finish k (uploadCaught (InlineAddEntry.serverRejected response) (state c)) c
  | Some (UploadBody response) =>
      match json response with
      | Rejected e => finish k (uploadCaught e (state c)) c
      | Resolved result =>
          {| state :=
               uploadDone
                 {| InlineAddEntry.toastMessage :=
                      str "Successfully uploaded " ++
                      Js.ofNumber (default 0 (items_added result)) ++ str " entries!";
                    InlineAddEntry.toastType := InlineAddEntry.success |} (state c);
             world := callOnEntryAdded (world c); browser := browser c;
             suspended := delete k (suspended c) |}
      end
  | Some (UploadParse file) =>
      match InlineAddEntry.parseCsvFile file with
      | Rejected e => finish k (uploadCaught e (state c)) c
      | Resolved rows =>
          continueRows k {| InlineAddEntry.successCount := 0;
                            InlineAddEntry.errorCount := 0 |} rows c
      end
  | Some (UploadRow t outcome rest) =>
      let t' :=
        match outcome with
        | Resolved response =>
            if ok response then InlineAddEntry.countSuccess t
            else InlineAddEntry.countError t
        | Rejected _ => InlineAddEntry.countError t
        end in
      continueRows k t' rest c
  end.

Definition user (event : Component.Event) (c : Configuration Backend)
    : Configuration Backend :=
  match event with
  | Component.PlusClick => update InlineAddEntry.handlePlusClick c
  | Component.ManualAdd =>
      update (InlineAddEntry.handleManualAdd (Component.columns props)) c
  | Component.CsvAdd => update InlineAddEntry.handleCsvAdd c
  | Component.Cancel => update InlineAddEntry.handleCancel c
  | Component.InputChange column value =>
      update (InlineAddEntry.handleInputChange column value) c
  | Component.FileChange file => update (InlineAddEntry.handleFileChange file) c
  | Component.DownloadSample =>
      let '(st, b) :=
        InlineAddEntry.handleDownloadSample (Component.subdomainName props)
          (state c) (browser c) in
      {| state := st; world := world c; browser := b; suspended := suspended c |}
  | Component.CsvUpload => startCsvUpload c
  | Component.Save => startSave c
  end.

Definition step (c : Configuration Backend) (event : Input)
    : Configuration Backend :=
  match event with
  | User event => user event c
  | DismissToast => update (InlineAddEntry.withToast None) c
  | ClickOutside =>
      (* the listener is installed only while the menu is shown *)
      update (λ st, if InlineAddEntry.showMenu st
                  then InlineAddEntry.withShowMenu false st else st) c
  | Resume k => resume k c
  end.

Definition runAll (events : list Input) (c : Configuration Backend)
    : Configuration Backend :=
  foldl step c events.

(** The component as mounted. *)
Definition mounted (w : World Backend) : Configuration Backend :=
  {| state := InlineAddEntry.initialState; world := w;
     browser := {| csvTemplates.saved := [] |}; suspended := [] |}.

(** A configuration of the run-to-completion machine, taken up while the
    handlers [tasks] are suspended. *)
Definition withSuspended (tasks : list Task) (c : Component.Config Backend)
    : Configuration Backend :=
  {| state := Component.state c; world := Component.world c;
     browser := Component.browser c; suspended := tasks |}.

End Machine.

End Interleaved.

(** ** Reference readings of the specification's sentences *)

Module Reading.

(** The field cleaning as the specification words it: after trimming, the
    quotes go only when the field is fully surrounded by a pair; an
    unpaired quote stays. *)
Definition stripQuotePair (s : js_string) : js_string :=
  match s with
  | c :: s' =>
      match reverse s' with
      | d :: m => if (c =? Js.DQUOTE) && (d =? Js.DQUOTE) then reverse m else s
      | [] => s
      end
  | [] => []
  end.

(** The field cleaning as the code does it: a leading quote goes if there
    is one, and a trailing quote goes if there is one, each on its own. *)
Definition stripLeadingQuote (s : js_string) : js_string :=
  match s with
  | c :: s' => if c =? Js.DQUOTE then s' else s
  | [] => []
  end.

Definition stripTrailingQuote (s : js_string) : js_string :=
  reverse (stripLeadingQuote (reverse s)).

(** The fields of a line, read off the text: the pieces between its
    commas, each trimmed and then without a leading and without a trailing
    double quote. *)
Definition fields (line : js_string) : list js_string :=
  map (λ piece, stripTrailingQuote (stripLeadingQuote (Js.trim piece)))
      (Js.split Js.COMMA line).

(** A row all of whose fields are empty after trimming. *)
Definition allBlank (row : gmap js_string js_string) : Prop :=
  map_Forall (λ _ value, Js.trim value = []) row.

#[global] Instance allBlank_dec (row : gmap js_string js_string) :
  Decision (allBlank row).
Proof. unfold allBlank. apply _. Defined.

(** A create request failed: the promise rejected, or the response is
    not [ok]. *)
Definition failed (outcome : Settled Response) : bool :=
  match outcome with
  | Resolved response => negb (ok response)
  | Rejected _ => true
  end.

End Reading.

(** ** Scenarios used to exercise the handlers *)

Module Scenario.

Definition LF : string := String (ascii_of_N 10) EmptyString.

(** A backend that answers the requests it receives with the scripted
    outcomes, in order, and does not answer once the script is over. *)
Definition scripted (script : list (Settled Response)) (request : Request)
    : list (Settled Response) * Settled Response :=
  match script with
  | [] => ([], Rejected {| message := str "Failed to fetch" |})
  | outcome :: rest => (rest, outcome)
  end.

Definition answer (code : N) : Settled Response :=
  Resolved {| status := code;
              json := Resolved {| detail := None; items_added := None |} |}.

Definition world (script : list (Settled Response)) : World (list (Settled Response)) :=
  {| backend := script; trace := []; refreshes := 0 |}.

Definition csvFile (text : string) : File :=
  {| name := str "upload.csv"; contents := Some (str text) |}.

(** The component in CSV mode with a file selected. *)
Definition csvEntry (file : File) : InlineAddEntry.State :=
  InlineAddEntry.handleFileChange (Some file)
    (InlineAddEntry.handleCsvAdd InlineAddEntry.initialState).

(** The component in manual mode with the given columns typed in. *)
Definition manualEntry (fields : list (string * string)) : InlineAddEntry.State :=
  foldl (λ st field, InlineAddEntry.handleInputChange (str field.1) (str field.2) st)
    (InlineAddEntry.handleManualAdd (map (λ field, str field.1) fields)
       InlineAddEntry.initialState)
    fields.

Definition rowsOf (file : File) : list (gmap js_string js_string) :=
  match InlineAddEntry.parseCsvFile file with
  | Resolved rows => rows
  | Rejected _ => []
  end.

(** The upload of the specification's scenarios: two data lines. *)
Definition twoRows : string :=
  "hcp_id,hcp_name" +:+ LF +:+ "HCP1,Dr. A" +:+ LF +:+ "HCP2,Dr. B".

(** A file whose first data line has only empty fields. *)
Definition blankLine : string :=
  "hcp_id,hcp_name" +:+ LF +:+ " , " +:+ LF +:+ "HCP2,Dr. B".

(** A subdomain name the backend may return and the lookup does not know. *)
Definition unknownSubdomain : js_string := str "Speaker Bureau Lists".

(** A browser storage holding a bearer token. *)
Definition localStorage : gmap js_string js_string :=
  {[ str "sb_token" := str "secret" ]}.

(** A backend for the shared client, scripted like [scripted]. *)
Definition axiosScripted {Data : Type}
    (script : list (Settled (axiosClient.Response Data))) (config : axiosClient.Config)
    : list (Settled (axiosClient.Response Data)) * Settled (axiosClient.Response Data) :=
  match script with
  | [] => ([], Rejected {| message := str "Network Error" |})
  | outcome :: rest => (rest, outcome)
  end.

Definition axiosWorld {Data : Type} (script : list (Settled (axiosClient.Response Data)))
    : axiosClient.World (list (Settled (axiosClient.Response Data))) Data :=
  {| axiosClient.localStorage := localStorage;
     axiosClient.backend := script;
     axiosClient.sent := [] |}.

(** Two rows of the call list table, with numbers and texts as values. *)
Definition callListEntries : list (list (js_string * (N + js_string))) :=
  [ [(str "entry_id", inl 7); (str "hcp_id", inr (str "HCP1"));
     (str "hcp_name", inr (str "Dr. A")); (str "created_at", inr (str "2025-11-01"))];
    [(str "entry_id", inl 9); (str "hcp_id", inr (str "HCP2"));
     (str "hcp_name", inr (str "Dr. B")); (str "created_at", inr (str "2025-11-02"))] ].

(** The domain view with the given subdomain selected and nothing loaded. *)
Definition domainView (subdomainName : string)
    : @DomainView.State (N + js_string) :=
  {| DomainView.selectedSubdomain :=
       Some {| DomainView.subdomain_id := 2; DomainView.domain_id := 1;
               DomainView.subdomain_name := str subdomainName |};
     DomainView.entries := [];
     DomainView.toast := None;
     DomainView.entriesLoading := false;
     DomainView.isEditMode := false;
     DomainView.selectedEntries := [] |}.

(** The component as [DomainView] mounts it for the call lists. *)
Definition callListProps : Component.Props :=
  {| Component.columns := [str "hcp_id"; str "hcp_name"];
     Component.tableName := DomainView.addEntryTableName (str "Call Lists");
     Component.listId := DomainView.addEntryListId;
     Component.subdomainName := Some (str "Call Lists") |}.

End Scenario.

(** ** The states the asynchronous handlers end in *)

Module Outcome.

(** After a save that went through. *)
Definition saved (st : InlineAddEntry.State) : InlineAddEntry.State :=
  InlineAddEntry.withIsSaving false
    (InlineAddEntry.withFormData ∅
       (InlineAddEntry.withIsAdding false
          (InlineAddEntry.withToast
             (Some {| InlineAddEntry.toastMessage := str "Entry added successfully!";
                      InlineAddEntry.toastType := InlineAddEntry.success |})
             (InlineAddEntry.withIsSaving true st)))).

(** After a save that threw [e]. *)
Definition saveRefused (e : Error) (st : InlineAddEntry.State) : InlineAddEntry.State :=
  InlineAddEntry.withIsSaving false
    (InlineAddEntry.withToast
       (Some {| InlineAddEntry.toastMessage := message e;
                InlineAddEntry.toastType := InlineAddEntry.error |})
       (InlineAddEntry.withIsSaving true st)).

(** After an upload that completed, with the toast it shows. *)
Definition closed (t : InlineAddEntry.Toast) (st : InlineAddEntry.State)
    : InlineAddEntry.State :=
  InlineAddEntry.withIsUploading false
    (InlineAddEntry.withSelectedFile None
       (InlineAddEntry.withAddMode None
          (InlineAddEntry.withIsAdding false
             (InlineAddEntry.withToast (Some t)
                (InlineAddEntry.withIsUploading true st))))).

(** After an upload that threw [e]. *)
Definition uploadRefused (e : Error) (st : InlineAddEntry.State) : InlineAddEntry.State :=
  InlineAddEntry.withIsUploading false
    (InlineAddEntry.withToast
       (Some {| InlineAddEntry.toastMessage := message e;
                InlineAddEntry.toastType := InlineAddEntry.error |})
       (InlineAddEntry.withIsUploading true st)).

End Outcome.

(** ** What holds of the component along its events *)

Module Invariant.

(** The component at rest, as the run-to-completion machine finds it
    between two events: no handler is marked as running, an open form has
    a mode to show, and a selected file has a [.csv] name. *)
Definition atRest (st : InlineAddEntry.State) : Prop :=
  InlineAddEntry.isSaving st = false
  ∧ InlineAddEntry.isUploading st = false
  ∧ (InlineAddEntry.isAdding st = true → is_Some (InlineAddEntry.addMode st))
  ∧ (∀ file, InlineAddEntry.selectedFile st = Some file →
       InlineAddEntry.endsWithCsv (name file) = true).

(** The two kinds of request the component issues: the creation of one
    record that is not empty and has no blank field, or the upload of a
    [.csv] file to the list the component is scoped to. *)
Definition wellFormed (props : Component.Props) (request : Request) : Prop :=
  (∃ dataToSend,
     request = InlineAddEntry.createRequest (Component.tableName props) dataToSend
     ∧ dataToSend ≠ ∅
     ∧ ∀ column value, dataToSend !! column = Some value → Js.trim value ≠ [])
  ∨ (∃ id file,
       request = InlineAddEntry.uploadRequest (Npos id) file
       ∧ Component.listId props = Some (Npos id)
       ∧ InlineAddEntry.endsWithCsv (name file) = true).

(** A handler of the given kind is suspended at an [await]. *)
Definition inFlight (handler : Interleaved.Handler) (tasks : list Interleaved.Task)
    : Prop :=
  ∃ task, task ∈ tasks ∧ Interleaved.handlerOf task = handler.

(** What holds of the component whatever comes in between its handlers:
    a flag is on only while a handler of its kind is suspended, an open
    form has a mode to show, and a selected file has a [.csv] name. *)
Definition coherent {Backend : Type} (c : Interleaved.Configuration Backend) : Prop :=
  (InlineAddEntry.isSaving (Interleaved.state c) = true →
     inFlight Interleaved.Saving (Interleaved.suspended c))
  ∧ (InlineAddEntry.isUploading (Interleaved.state c) = true →
       inFlight Interleaved.Uploading (Interleaved.suspended c))
  ∧ (InlineAddEntry.isAdding (Interleaved.state c) = true →
       is_Some (InlineAddEntry.addMode (Interleaved.state c)))
  ∧ (∀ file, InlineAddEntry.selectedFile (Interleaved.state c) = Some file →
       InlineAddEntry.endsWithCsv (name file) = true).

End Invariant.

(** ** Cells that survive a round trip *)

Module Cell.

(** A field the template engine writes and the parser reads back as it is:
    no comma, no line feed, no white space and no double quote at either
    end. *)
Definition plain (field : js_string) : Prop :=
  (Js.COMMA ∉ field) ∧ (Js.LF ∉ field) ∧ (Js.trim field = field)
  ∧ (head field ≠ Some Js.DQUOTE) ∧ (last field ≠ Some Js.DQUOTE).

#[global] Instance plain_dec (field : js_string) : Decision (plain field).
Proof. unfold plain. apply _. Defined.

(** A row of plain fields, one of which at least is not empty, so that the
    line written for it is not blank. *)
Definition plainRow (row : list js_string) : Prop :=
  Forall plain row ∧ Exists (λ field, field ≠ []) row.

#[global] Instance plainRow_dec (row : list js_string) : Decision (plainRow row).
Proof. unfold plainRow. apply _. Defined.

(** The number of commas inside a field. *)
Definition commas (field : js_string) : nat :=
  length (filter (λ c, c = Js.COMMA) field).

End Cell.

(** * Properties *)

Import InlineAddEntry.

(** ** Strings *)

Lemma split_not_nil (sep : N) (s : js_string) : Js.split sep s ≠ [].
Proof.
  destruct s as [|c s]; simpl; [done|].
  destruct (c =? sep); [done|]. by destruct (Js.split sep s).
Qed.

Lemma split_no_separator (sep : N) (s : js_string) :
  sep ∉ s → Js.split sep s = [s].
Proof.
  induction s as [|c s IH]; intros Hnotin; [done|].
  apply not_elem_of_cons in Hnotin as [Hne Hrest]. simpl.
  destruct (N.eqb_spec c sep) as [->|_]; [done|]. by rewrite IH.
Qed.

Lemma split_app_separator (sep : N) (s rest : js_string) :
  sep ∉ s → Js.split sep (s ++ sep :: rest) = s :: Js.split sep rest.
Proof.
  induction s as [|c s IH]; intros Hnotin; simpl.
  - by rewrite N.eqb_refl.
  - apply not_elem_of_cons in Hnotin as [Hne Hrest].
    destruct (N.eqb_spec c sep) as [->|_]; [done|]. by rewrite IH.
Qed.

(** Splitting undoes joining, for parts that do not hold the separator. *)
Lemma split_join (sep : N) (parts : list js_string) :
  parts ≠ [] → Forall (λ part, sep ∉ part) parts →
  Js.split sep (Js.join [sep] parts) = parts.
Proof.
  induction parts as [|p rest IH]; intros Hne Hall; [done|].
  apply Forall_cons in Hall as [Hp Hrest].
  destruct rest as [|q rest]; simpl.
  - by apply split_no_separator.
  - rewrite split_app_separator by done. f_equal. by apply IH.
Qed.

Local Arguments Js.isEdgeQuote : simpl never.

Lemma isEdgeQuote_inner (len index : nat) (c : N) :
  index ≠ 0%nat → S index ≠ len → Js.isEdgeQuote len index c = false.
Proof.
  intros H0 H1. unfold Js.isEdgeQuote.
  apply Nat.eqb_neq in H0, H1. by rewrite H0, H1, andb_false_r.
Qed.

Lemma isEdgeQuote_first (len : nat) (c : N) :
  Js.isEdgeQuote len 0 c = (c =? Js.DQUOTE).
Proof. unfold Js.isEdgeQuote. simpl. by rewrite andb_true_r. Qed.

Lemma isEdgeQuote_last (index : nat) (c : N) :
  Js.isEdgeQuote (S index) index c = (c =? Js.DQUOTE).
Proof.
  unfold Js.isEdgeQuote. by rewrite Nat.eqb_refl, orb_true_r, andb_true_r.
Qed.

(** Positions strictly inside the input are kept by the quote pattern. *)
Lemma omap_inner_positions (len : nat) (f : nat → nat) (m : js_string) :
  (∀ j, (j < length m)%nat → f j ≠ 0%nat ∧ S (f j) ≠ len) →
  omap (λ ic : nat * N, if Js.isEdgeQuote len ic.1 ic.2 then None else Some ic.2)
       (imap (λ j c, (f j, c)) m) = m.
Proof.
  revert f. induction m as [|c m IH]; intros f Hf; [done|].
  destruct (Hf 0%nat) as [H0 H1]; [simpl; lia|].
  simpl. rewrite isEdgeQuote_inner by done.
  f_equal. apply (IH (f ∘ S)). intros j Hj. apply Hf. simpl. lia.
Qed.

Lemma replaceEdgeQuotes_nil : Js.replaceEdgeQuotes [] = [].
Proof. done. Qed.

Lemma replaceEdgeQuotes_one (c : N) :
  Js.replaceEdgeQuotes [c] = if c =? Js.DQUOTE then [] else [c].
Proof.
  unfold Js.replaceEdgeQuotes. simpl. rewrite isEdgeQuote_first.
  by destruct (c =? Js.DQUOTE).
Qed.

Lemma replaceEdgeQuotes_ends (c d : N) (m : js_string) :
  Js.replaceEdgeQuotes (c :: m ++ [d]) =
    (if c =? Js.DQUOTE then [] else [c]) ++ m ++ (if d =? Js.DQUOTE then [] else [d]).
Proof.
  unfold Js.replaceEdgeQuotes.
  assert (Hlen : length (c :: m ++ [d]) = S (S (length m))).
  { simpl. rewrite length_app. simpl. lia. }
  rewrite Hlen.
  change (imap pair (c :: m ++ [d])) with ((0%nat, c) :: imap (pair ∘ S) (m ++ [d])).
  rewrite imap_app. simpl omap. rewrite omap_app.
  rewrite (omap_inner_positions _ (λ j, S j) m) by (intros j Hj; lia).
  simpl. rewrite isEdgeQuote_first.
  replace (length m + 0)%nat with (length m) by lia.
  rewrite isEdgeQuote_last.
  by destruct (c =? Js.DQUOTE), (d =? Js.DQUOTE).
Qed.

Lemma replaceEdgeQuotes_strip (s : js_string) :
  Js.replaceEdgeQuotes s = Reading.stripTrailingQuote (Reading.stripLeadingQuote s).
Proof.
  destruct s as [|c s]; [done|].
  destruct (decide (s = [])) as [->|Hne].
  - rewrite replaceEdgeQuotes_one. unfold Reading.stripTrailingQuote. simpl.
    destruct (c =? Js.DQUOTE) eqn:Hc; [done|].
    change (reverse [c]) with [c]. simpl. by rewrite Hc.
  - destruct (exists_last Hne) as (m & d & ->).
    rewrite replaceEdgeQuotes_ends.
    unfold Reading.stripTrailingQuote, Reading.stripLeadingQuote.
    destruct (c =? Js.DQUOTE).
    + rewrite reverse_snoc. simpl.
      destruct (d =? Js.DQUOTE).
      * by rewrite reverse_involutive, app_nil_r.
      * by rewrite <- reverse_snoc, reverse_involutive.
    + rewrite app_comm_cons, reverse_snoc. simpl.
      destruct (d =? Js.DQUOTE).
      * by rewrite reverse_involutive, app_nil_r.
      * by rewrite <- reverse_snoc, reverse_involutive.
Qed.

(** ** Counting with filters *)

Lemma filter_all {A} (P : A → Prop) `{!∀ x, Decision (P x)} (l : list A) :
  (∀ x, x ∈ l → P x) → filter P l = l.
Proof.
  induction l as [|x l IH]; intros Hall; [done|].
  rewrite filter_cons_True by (apply Hall; left).
  f_equal. apply IH. intros y Hy. apply Hall. by right.
Qed.

Lemma filter_none {A} (P : A → Prop) `{!∀ x, Decision (P x)} (l : list A) :
  (∀ x, x ∈ l → ¬ P x) → filter P l = [].
Proof.
  induction l as [|x l IH]; intros Hall; [done|].
  rewrite filter_cons_False by (apply Hall; left).
  apply IH. intros y Hy. apply Hall. by right.
Qed.

Lemma failed_partition (outcomes : list (Settled Response)) :
  (length (filter (λ o, Reading.failed o = false) outcomes)
   + length (filter (λ o, Reading.failed o = true) outcomes))%nat = length outcomes.
Proof.
  induction outcomes as [|o rest IH]; [done|].
  rewrite !filter_cons. destruct (Reading.failed o); simpl in *; lia.
Qed.

(** ** Assigning to a property of a plain object *)

Section Assign.

Implicit Types (own : gmap js_string js_string) (key k value : js_string).

Lemma assign_lookup_ne key k value own :
  key ≠ k → JsObject.assign k value own !! key = own !! key.
Proof.
  intros Hne. unfold JsObject.assign. destruct (decide _); [done|].
  by apply lookup_insert_ne.
Qed.

Lemma assign_lookup_eq k value own :
  k ≠ JsObject.PROTO → JsObject.assign k value own !! k = Some value.
Proof.
  intros Hne. unfold JsObject.assign.
  destruct (decide _) as [[Heq _]|_]; [done|]. apply lookup_insert_eq.
Qed.

Lemma assign_lookup_own k value own :
  is_Some (own !! k) → JsObject.assign k value own !! k = Some value.
Proof.
  intros [v Hown]. unfold JsObject.assign.
  destruct (decide _) as [[_ Hnone]|_]; [congruence|]. apply lookup_insert_eq.
Qed.

(** The assignment that stores nothing. *)
Lemma assign_PROTO value own :
  own !! JsObject.PROTO = None → JsObject.assign JsObject.PROTO value own = own.
Proof. intros Hnone. unfold JsObject.assign. by rewrite decide_True. Qed.

Lemma assign_keeps_PROTO k value own :
  own !! JsObject.PROTO = None → JsObject.assign k value own !! JsObject.PROTO = None.
Proof.
  intros Hnone. destruct (decide (k = JsObject.PROTO)) as [->|Hne].
  - by rewrite assign_PROTO.
  - by rewrite assign_lookup_ne.
Qed.

End Assign.

(** ** Building one row from the header array *)

Section ForEachHeader.

Implicit Types (headers values : list js_string) (row : gmap js_string js_string).

Lemma forEachHeader_lookup_notin index headers values row (key : js_string) :
  key ∉ headers →
  forEachHeader index headers values row !! key = row !! key.
Proof.
  revert index row. induction headers as [|h rest IH]; intros index row Hnotin; [done|].
  apply not_elem_of_cons in Hnotin as [Hne Hrest]. simpl.
  rewrite IH by done. by apply assign_lookup_ne.
Qed.

(** A row that starts without an own [__proto__] never gets one. *)
Lemma forEachHeader_PROTO index headers values row :
  row !! JsObject.PROTO = None →
  forEachHeader index headers values row !! JsObject.PROTO = None.
Proof.
  revert index row. induction headers as [|h rest IH]; intros index row Hnone; [done|].
  simpl. apply IH. by apply assign_keeps_PROTO.
Qed.

Lemma forEachHeader_is_Some index headers values row (key : js_string) :
  (key ∈ headers ∧ key ≠ JsObject.PROTO) ∨ is_Some (row !! key) →
  is_Some (forEachHeader index headers values row !! key).
Proof.
  revert index row. induction headers as [|h rest IH]; intros index row Hkey; simpl.
  - destruct Hkey as [[Hin _]|Hsome]; [by apply elem_of_nil in Hin|done].
  - apply IH. destruct (decide (key = h)) as [->|Hne].
    + right. destruct Hkey as [[_ Hproto]|Hsome].
      * rewrite assign_lookup_eq by done. by eexists.
      * rewrite assign_lookup_own by done. by eexists.
    + destruct Hkey as [[Hin Hproto]|Hsome].
      * left. apply elem_of_cons in Hin as [?|?]; [done|done].
      * right. by rewrite assign_lookup_ne.
Qed.

Lemma forEachHeader_keys index headers values row (key : js_string) :
  is_Some (forEachHeader index headers values row !! key) →
  key ∈ headers ∨ is_Some (row !! key).
Proof.
  revert index row. induction headers as [|h rest IH]; intros index row Hsome; simpl in *.
  - by right.
  - destruct (IH _ _ Hsome) as [Hin|Hrow].
    + left. by apply elem_of_cons; right.
    + destruct (decide (key = h)) as [->|Hne].
      * left. by apply elem_of_cons; left.
      * right. by rewrite assign_lookup_ne in Hrow.
Qed.

(** The value under a header is the field standing at the last position
    where that header occurs. *)
Lemma forEachHeader_lookup_last index headers values row (j : nat) (header : js_string) :
  headers !! j = Some header → header ≠ JsObject.PROTO →
  (∀ j', (j < j')%nat → headers !! j' ≠ Some header) →
  forEachHeader index headers values row !! header
    = Some (default [] (values !! (index + j)%nat)).
Proof.
  revert index row j.
  induction headers as [|h rest IH]; intros index row j Hj Hproto Hlast; [done|].
  destruct j as [|j]; simpl in *.
  - injection Hj as ->. rewrite forEachHeader_lookup_notin.
    + rewrite assign_lookup_eq by done. by rewrite Nat.add_0_r.
    + intros Hin. apply list_elem_of_lookup in Hin as [j' Hj'].
      apply (Hlast (S j')); [lia|done].
  - rewrite (IH _ _ j); [|done|done|].
    + do 3 f_equal. lia.
    + intros j' Hlt. apply (Hlast (S j')). lia.
Qed.

(** The keys of a row: the headers, [__proto__] apart. *)
Lemma buildRow_keys headers values (key : js_string) :
  is_Some (buildRow headers values !! key) ↔ key ∈ headers ∧ key ≠ JsObject.PROTO.
Proof.
  unfold buildRow. split.
  - intros Hsome. split.
    + apply forEachHeader_keys in Hsome as [Hin|Hempty]; [done|].
      rewrite lookup_empty in Hempty. by destruct Hempty.
    + intros ->. rewrite forEachHeader_PROTO in Hsome by done. by destruct Hsome.
  - intros Hkey. apply forEachHeader_is_Some. by left.
Qed.

Lemma buildRow_lookup_last headers values (j : nat) (header : js_string) :
  headers !! j = Some header → header ≠ JsObject.PROTO →
  (∀ j', (j < j')%nat → headers !! j' ≠ Some header) →
  buildRow headers values !! header = Some (default [] (values !! j)).
Proof. intros Hj Hproto Hlast. by apply (forEachHeader_lookup_last 0 _ _ _ j). Qed.

End ForEachHeader.

(** ** The parser *)

Lemma parseCsvText_resolved (text headerLine : js_string) (dataLines : list js_string) :
  nonBlankLines text = headerLine :: dataLines → dataLines ≠ [] →
  parseCsvText text =
    Resolved (map (λ line, buildRow (splitFields headerLine) (splitFields line)) dataLines).
Proof.
  intros Hlines Hne. unfold parseCsvText. rewrite Hlines.
  destruct dataLines as [|line rest]; [done|]. done.
Qed.

(** The lines of a text written one per line come back as they are, when
    none of them is blank. *)
Lemma nonBlankLines_join (lines : list js_string) :
  lines ≠ [] →
  Forall (λ line, (Js.LF ∉ line) ∧ (Js.trim line ≠ [])) lines →
  nonBlankLines (Js.join [Js.LF] lines) = lines.
Proof.
  intros Hne Hall. unfold nonBlankLines. rewrite split_join; [|done|].
  - apply filter_all. intros line Hline.
    by apply (proj1 (Forall_forall _ _) Hall line).
  - eapply Forall_impl; [exact Hall|]. by intros line [? _].
Qed.

(** C1, the code at a header line that names [__proto__]: the text
    [__proto__,a] / [x,1] has one data line and the header keys
    [__proto__] and [a]; the parser resolves with one row-mapping, which
    holds [a] but has no key [__proto__]: the assignment
    [row['__proto__'] = 'x'] stored nothing. *)
Theorem parseCsvText_proto_header_not_a_key :
  ∃ row,
    parseCsvText (str "__proto__,a" ++ [Js.LF] ++ str "x,1") = Resolved [row]
    ∧ splitFields (str "__proto__,a") = [str "__proto__"; str "a"]
    ∧ row !! str "a" = Some (str "1")
    ∧ row !! str "__proto__" = None
    ∧ ∀ key, is_Some (row !! key) ↔ key = str "a".
Proof.
  exists {[ str "a" := str "1" ]}.
  split; [by vm_compute|]. split; [by vm_compute|].
  split; [by vm_compute|]. split; [by vm_compute|].
  intros key. destruct (decide (key = str "a")) as [->|Hne].
  - by rewrite lookup_singleton_eq.
  - rewrite lookup_singleton_ne by done. split; [by intros [? ?]|done].
Qed.

(** C7. A text with fewer than two non-blank lines (an empty file, or a
    header without data lines) is rejected with the malformed-file error
    and no rows are produced. *)
Theorem parseCsvFile_too_few_lines (file : File) (text : js_string) :
  contents file = Some text →
  (length (nonBlankLines text) < 2)%nat →
  parseCsvFile file = Rejected MalformedFile.
Proof.
  intros Hfile Hlen. unfold parseCsvFile, parseCsvText. rewrite Hfile.
  apply Nat.ltb_lt in Hlen. by rewrite Hlen.
Qed.

(** C8, the code at a data line that is short of a header named
    [__proto__]: under the header line [a,__proto__] the data line [1] has
    no field for the second header; the row-mapping the parser builds does
    not map [__proto__] to the empty string, it has no such key, and
    reading [row['__proto__']] finds the prototype object instead. *)
Theorem parseCsvText_proto_header_not_filled :
  ∃ row,
    parseCsvText (str "a,__proto__" ++ [Js.LF] ++ str "1") = Resolved [row]
    ∧ splitFields (str "a,__proto__") = [str "a"; str "__proto__"]
    ∧ splitFields (str "1") = [str "1"]
    ∧ row !! str "a" = Some (str "1")
    ∧ row !! str "__proto__" = None
    ∧ JsObject.get row (str "__proto__") = Some (str "[object Object]").
Proof. exists {[ str "a" := str "1" ]}. by vm_compute. Qed.
(** ** Stripping empty fields *)

Lemma stripEmpty_empty_iff (row : gmap js_string js_string) :
  stripEmpty row = ∅ ↔ Reading.allBlank row.
Proof.
  unfold stripEmpty, Reading.allBlank. rewrite map_empty. split.
  - intros Hnone key value Hrow. specialize (Hnone key).
    rewrite map_lookup_filter_None in Hnone. destruct Hnone as [Hnone|Hall].
    + congruence.
    + specialize (Hall value Hrow). simpl in Hall.
      by destruct (decide (Js.trim value = [])).
  - intros Hblank key. apply map_lookup_filter_None. right.
    intros value Hrow. simpl. rewrite (Hblank key value Hrow). by intros ?.
Qed.

Lemma stripEmpty_size_zero (row : gmap js_string js_string) :
  size (stripEmpty row) = 0%nat ↔ Reading.allBlank row.
Proof. by rewrite map_size_empty_iff, stripEmpty_empty_iff. Qed.

(** Every field a stripped row keeps is a field of the row that is not
    blank. *)
Lemma stripEmpty_lookup_Some (row : gmap js_string js_string) (key value : js_string) :
  stripEmpty row !! key = Some value ↔ row !! key = Some value ∧ Js.trim value ≠ [].
Proof. unfold stripEmpty. by rewrite map_lookup_filter_Some. Qed.

(** ** The per-row import loop *)

Section ImportLoop.

Context {Backend : Type}.
Variable serve : Backend → Request → Backend * Settled Response.
Variable tableName : js_string.

Implicit Types (t : Tally) (st : State) (w : World Backend).
Implicit Types (row : gmap js_string js_string).

(** A row left empty by the stripping is counted as an error and nothing
    is sent. *)
Lemma importRow_blank t row st w :
  Reading.allBlank row →
  importRow serve tableName t row st w = (st, w, Resolved (countError t)).
Proof.
  intros Hblank. apply stripEmpty_size_zero in Hblank.
  unfold importRow, tryCatch. by rewrite decide_True.
Qed.

(** Any other row is sent once; the outcome, thrown or not, only decides
    which counter goes up. *)
Lemma importRow_sent t row st w b outcome :
  ¬ Reading.allBlank row →
  serve (backend w) (createRequest tableName (stripEmpty row)) = (b, outcome) →
  importRow serve tableName t row st w =
    (st,
     {| backend := b;
        trace := trace w ++ [(createRequest tableName (stripEmpty row), outcome)];
        refreshes := refreshes w |},
     Resolved (if Reading.failed outcome then countError t else countSuccess t)).
Proof.
  intros Hsent Hserve. rewrite <- stripEmpty_size_zero in Hsent.
  unfold importRow, tryCatch, bind, fetch, ret.
  rewrite decide_False by done. rewrite Hserve.
  destruct outcome as [response|e]; simpl; [|done].
  by destruct (ok response).
Qed.

Lemma importRows_accounting rows t st w :
  ∃ t' w' new,
    importRows serve tableName t rows st w = (st, w', Resolved t')
    ∧ trace w' = trace w ++ new
    ∧ refreshes w' = refreshes w
    ∧ map fst new =
        map (λ row, createRequest tableName (stripEmpty row))
            (filter (λ row, ¬ Reading.allBlank row) rows)
    ∧ successCount t' =
        (successCount t
         + length (filter (λ o, Reading.failed o = false) (map snd new)))%nat
    ∧ errorCount t' =
        (errorCount t
         + length (filter Reading.allBlank rows)
         + length (filter (λ o, Reading.failed o = true) (map snd new)))%nat.
Proof.
  revert t st w. induction rows as [|row rest IH]; intros t st w.
  - exists t, w, []. simpl. rewrite app_nil_r. repeat split; lia.
  - destruct (decide (Reading.allBlank row)) as [Hblank|Hsent].
    + destruct (IH (countError t) st w) as (t' & w' & new & Hrun & Htr & Hrf & Hreq & Hs & He).
      exists t', w', new. simpl. unfold bind at 1.
      rewrite importRow_blank by done. rewrite Hrun.
      rewrite filter_cons_False by (by intros H; apply H).
      rewrite filter_cons_True by done.
      repeat split; try done. simpl in *. lia.
    + destruct (serve (backend w) (createRequest tableName (stripEmpty row)))
        as [b outcome] eqn:Hserve.
      set (w1 := {| backend := b;
                    trace := trace w ++ [(createRequest tableName (stripEmpty row), outcome)];
                    refreshes := refreshes w |}).
      set (t1 := if Reading.failed outcome then countError t else countSuccess t).
      destruct (IH t1 st w1) as (t' & w' & new & Hrun & Htr & Hrf & Hreq & Hs & He).
      exists t', w', ((createRequest tableName (stripEmpty row), outcome) :: new).
      simpl. unfold bind at 1.
      rewrite (importRow_sent _ _ _ _ b outcome) by done.
      fold w1 t1. rewrite Hrun.
      rewrite filter_cons_True by done.
      rewrite (filter_cons_False Reading.allBlank) by done.
      split; [done|]. split; [by rewrite Htr; simpl; rewrite <- app_assoc|].
      split; [done|]. split; [by simpl; rewrite Hreq|].
      rewrite !filter_cons. subst t1.
      destruct (Reading.failed outcome) eqn:Hfailed; simpl in *; split; lia.
Qed.

End ImportLoop.

(** ** The upload handler on the per-row path *)

Section Upload.

Context {Backend : Type}.
Variable serve : Backend → Request → Backend * Settled Response.
Variable tableName : js_string.

Implicit Types (st : State) (w : World Backend).

(** Without a usable [listId] the handler parses the file, runs the loop,
    shows the completion toast, closes the form and asks the hosting view
    to refresh. *)
Lemma handleCsvUpload_per_row listId st w file rows t w' :
  listId = None ∨ listId = Some 0 →
  selectedFile st = Some file →
  parseCsvFile file = Resolved rows →
  importRows serve tableName {| successCount := 0; errorCount := 0 |} rows
    (withIsUploading true st) w = (withIsUploading true st, w', Resolved t) →
  handleCsvUpload serve tableName listId st w =
    (withIsUploading false
       (withSelectedFile None
          (withAddMode None
             (withIsAdding false
                (withToast (Some (completionToast t)) (withIsUploading true st))))),
     {| backend := backend w'; trace := trace w'; refreshes := S (refreshes w') |},
     Resolved tt).
Proof.
  intros HlistId Hfile Hparse Hrun.
  unfold handleCsvUpload. rewrite Hfile.
  assert (Hbranch :
    (match listId with
     | Some (Npos id) => uploadToList serve (Npos id) file
     | _ => uploadPerRow serve tableName file
     end) (withIsUploading true st) w
    = (withToast (Some (completionToast t)) (withIsUploading true st), w', Resolved tt)).
  { destruct HlistId as [->| ->]; unfold uploadPerRow, bind, await;
      by rewrite Hparse, Hrun. }
  unfold tryFinally, tryCatch, bind at 1, set at 1.
  unfold bind at 1. by rewrite Hbranch.
Qed.

End Upload.

(** ** The add-entry workflow *)

Section Workflow.

Context {Backend : Type}.
Variable serve : Backend → Request → Backend * Settled Response.
Variable tableName : js_string.

Implicit Types (st : State) (w : World Backend).

(** C2. Per-row import (no usable list id) of N rows that are all
    submitted: when exactly one of the N create requests fails (the
    promise throws or the response is not ok), all N requests were still
    issued, one per row and in row order, each a POST of the row's
    non-blank fields to the table's endpoint, and the toast shown at the
    end is the warning reporting N-1 successes and 1 failure; the handler
    itself completes, closes the form and asks for a refresh. *)
Theorem handleCsvUpload_one_failure listId st w file rows st' w' result :
  listId = None ∨ listId = Some 0 →
  selectedFile st = Some file →
  parseCsvFile file = Resolved rows →
  (∀ row, row ∈ rows → ¬ Reading.allBlank row) →
  handleCsvUpload serve tableName listId st w = (st', w', result) →
  length (filter (λ o, Reading.failed o = true)
            (map snd (drop (length (trace w)) (trace w')))) = 1%nat →
  result = Resolved tt
  ∧ map fst (drop (length (trace w)) (trace w'))
      = map (λ row,
               {| url := str "http://localhost:8000/api/" ++ tableName;
                  method := str "POST";
                  headers := {[ str "Content-Type" := str "application/json" ]};
                  body := JsonBody (stripEmpty row) |}) rows
  ∧ toast st' = Some
      {| toastMessage :=
           str "Uploaded " ++ Js.ofNumber (N.of_nat (length rows - 1)) ++
           str " entries successfully. " ++ Js.ofNumber 1 ++
           str " entries failed.";
         toastType := warning |}
  ∧ isAdding st' = false
  ∧ refreshes w' = S (refreshes w).
Proof.
  intros HlistId Hfile Hparse Hsent Hrun Hone.
  destruct (importRows_accounting serve tableName rows
              {| successCount := 0; errorCount := 0 |} (withIsUploading true st) w)
    as (t & w1 & new & Hloop & Htrace & Hrefresh & Hreq & Hsucc & Herr).
  rewrite (handleCsvUpload_per_row serve tableName listId st w file rows t w1)
    in Hrun by done.
  injection Hrun as <- <- <-. simpl in *.
  rewrite Htrace, drop_app_length in Hone |- *.
  rewrite (filter_all (λ row, ¬ Reading.allBlank row)) in Hreq by done.
  rewrite (filter_none Reading.allBlank) in Herr
    by (intros row Hrow Hblank; by apply (Hsent row)).
  assert (Hlen : length (map snd new) = length rows).
  { rewrite length_map, <- (length_map fst), Hreq. by rewrite length_map. }
  pose proof (failed_partition (map snd new)) as Hpart.
  assert (Ht : t = {| successCount := length rows - 1; errorCount := 1 |}).
  { destruct t as [s e]. simpl in *. f_equal; lia. }
  subst t. split; [done|]. split; [exact Hreq|]. split; [done|].
  split; [done|]. lia.
Qed.

(** C10. Per-row import of rows among which one is blank (every field
    empty after trimming): the requests issued are exactly those of the
    rows that are not blank, in order, so none is issued for the blank row
    and no request carries an empty record; the completion toast is the
    warning whose failure count adds the blank rows to the failed
    requests, hence is at least one. *)
Theorem handleCsvUpload_blank_row_counted listId st w file rows blank st' w' result :
  listId = None ∨ listId = Some 0 →
  selectedFile st = Some file →
  parseCsvFile file = Resolved rows →
  blank ∈ rows → Reading.allBlank blank →
  handleCsvUpload serve tableName listId st w = (st', w', result) →
  ∃ sent succeeded failures,
    trace w' = trace w ++ sent
    ∧ map fst sent
        = map (λ row, createRequest tableName (stripEmpty row))
              (filter (λ row, ¬ Reading.allBlank row) rows)
    ∧ (∀ request, request ∈ map fst sent → body request ≠ JsonBody ∅)
    ∧ failures =
        (length (filter Reading.allBlank rows)
         + length (filter (λ o, Reading.failed o = true) (map snd sent)))%nat
    ∧ (1 ≤ length (filter Reading.allBlank rows))%nat
    ∧ succeeded = length (filter (λ o, Reading.failed o = false) (map snd sent))
    ∧ toast st' = Some
        {| toastMessage :=
             str "Uploaded " ++ Js.ofNumber (N.of_nat succeeded) ++
             str " entries successfully. " ++ Js.ofNumber (N.of_nat failures) ++
             str " entries failed.";
           toastType := warning |}.
Proof.
  intros HlistId Hfile Hparse Hin Hblank Hrun.
  destruct (importRows_accounting serve tableName rows
              {| successCount := 0; errorCount := 0 |} (withIsUploading true st) w)
    as (t & w1 & new & Hloop & Htrace & Hrefresh & Hreq & Hsucc & Herr).
  rewrite (handleCsvUpload_per_row serve tableName listId st w file rows t w1)
    in Hrun by done.
  injection Hrun as <- <- <-. simpl in *.
  assert (Hcount : (1 ≤ length (filter Reading.allBlank rows))%nat).
  { assert (Hmem : blank ∈ filter Reading.allBlank rows)
      by by apply list_elem_of_filter.
    destruct (filter Reading.allBlank rows); [by apply elem_of_nil in Hmem|simpl; lia]. }
  exists new, (successCount t), (errorCount t).
  split; [done|]. split; [done|]. split.
  { intros request Hrequest. rewrite Hreq in Hrequest.
    apply list_elem_of_fmap in Hrequest as (row & -> & Hrow).
    apply list_elem_of_filter in Hrow as [Hnot _]. simpl.
    intros Hbody. injection Hbody as Hbody.
    by apply Hnot, stripEmpty_empty_iff. }
  split; [done|]. split; [done|]. split; [done|].
  unfold completionToast.
  assert (Hpos : (0 <? errorCount t)%nat = true) by (apply Nat.ltb_lt; lia).
  by rewrite Hpos.
Qed.

(** C6. Saving a manual entry whose fields are all empty after trimming:
    no request is issued (the world is left as it was: same trace, same
    backend, no refresh), the user gets the warning toast, and the
    component is otherwise unchanged: still adding, same mode, same
    in-progress record. *)
Theorem handleSave_empty_record st w :
  Reading.allBlank (formData st) →
  handleSave serve tableName st w =
    (withIsSaving false
       (withToast (Some {| toastMessage := str "Please fill in at least one field";
                           toastType := warning |}) st),
     w, Resolved tt).
Proof.
  intros Hblank. apply stripEmpty_size_zero in Hblank.
  unfold handleSave, tryFinally, tryCatch, bind at 1, set at 1.
  simpl formData. rewrite decide_True by done. reflexivity.
Qed.

End Workflow.

(** ** Field cleaning *)

(** C3, as the specification states it, fails on the code: a quote without
    its partner is removed too, both at the start and at the end. *)
Lemma cleanField_unpaired_quote_not_kept :
  cleanField (Js.DQUOTE :: str "HCP1")
    ≠ Reading.stripQuotePair (Js.trim (Js.DQUOTE :: str "HCP1"))
  ∧ cleanField (str "HCP1" ++ [Js.DQUOTE])
    ≠ Reading.stripQuotePair (Js.trim (str "HCP1" ++ [Js.DQUOTE])).
Proof. split; vm_compute; discriminate. Qed.

(** C3, amended. Every field of a header or data line is trimmed, then
    loses a leading double quote if it has one and a trailing double quote
    if it has one, each independently of the other. *)
Theorem splitFields_strips_each_quote (line : js_string) :
  splitFields line =
    map (λ field, Reading.stripTrailingQuote (Reading.stripLeadingQuote (Js.trim field)))
        (Js.split Js.COMMA line).
Proof.
  unfold splitFields. apply map_ext. intros field.
  unfold cleanField. apply replaceEdgeQuotes_strip.
Qed.

(** On a field fully surrounded by quotes both readings agree: the pair,
    and only the pair, is removed. *)
Lemma cleanField_paired (field inner : js_string) :
  Js.trim field = Js.DQUOTE :: inner ++ [Js.DQUOTE] →
  cleanField field = inner ∧ Reading.stripQuotePair (Js.trim field) = inner.
Proof.
  intros Htrim. unfold cleanField. rewrite Htrim, replaceEdgeQuotes_ends.
  split; [by simpl; rewrite app_nil_r|].
  unfold Reading.stripQuotePair. rewrite reverse_snoc. simpl.
  by rewrite reverse_involutive.
Qed.

(** ** Sample templates *)

(** C9. For a list type of the catalogue, downloading the sample twice
    saves twice the same file name with the same text, whatever was saved
    before; and the first line of the "Call Lists" sample is the
    five-column header of that template. *)
Theorem downloadSampleCSV_twice_identical
    (listType : js_string) (template : csvTemplates.Template) (b : csvTemplates.Browser) :
  csvTemplates.CSV_TEMPLATES !! listType = Some template →
  (let csv := csvTemplates.arrayToCSV (csvTemplates.headers template)
                (csvTemplates.sampleData template) in
   csvTemplates.saved
     (csvTemplates.downloadSampleCSV listType (csvTemplates.downloadSampleCSV listType b))
   = csvTemplates.saved b
       ++ [(csvTemplates.filename template, csv); (csvTemplates.filename template, csv)])
  ∧ (∃ callLists,
       csvTemplates.CSV_TEMPLATES !! str "Call Lists" = Some callLists
       ∧ head (Js.split Js.LF
                 (csvTemplates.arrayToCSV (csvTemplates.headers callLists)
                    (csvTemplates.sampleData callLists)))
         = Some (str "hcp_id,hcp_name,call_date,sales_rep,status")).
Proof.
  intros Hlookup. split.
  - unfold csvTemplates.downloadSampleCSV. rewrite Hlookup. simpl.
    by rewrite <- app_assoc.
  - eexists. split; [vm_compute; reflexivity|]. vm_compute. reflexivity.
Qed.

(** ** Unknown subdomains and the bearer token *)

(** The lookup knows exactly the eight list types of the domain catalogue. *)
Lemma getEntryTableName_known :
  map DomainView.getEntryTableName
      (map str ["Target Lists"; "Call Lists"; "Formulary Decision-Maker Lists";
                "IDN/Health System Lists"; "Event Invitation Lists";
                "Digital Engagement Lists"; "High-Value Prescriber Lists";
                "Competitor Target Lists"])
  = map (λ table, Some (str table))
      ["target_list"; "call_list_entries"; "formulary_decision_maker_entries";
       "idn_health_system_entries"; "event_invitation_entries";
       "digital_engagement_entries"; "high_value_prescriber_entries";
       "competitor_target_entries"].
Proof. vm_compute. reflexivity. Qed.

(** C4, the code at an unknown subdomain name. The lookup has no entry, the
    component is mounted with the empty table name, and both the CSV upload
    and the manual save go through: the requests are sent to the bare
    [/api/] path. *)
Theorem unknown_subdomain_requests_issued :
  DomainView.getEntryTableName Scenario.unknownSubdomain = None
  ∧ DomainView.addEntryTableName Scenario.unknownSubdomain = []
  ∧ (let '(st', w', _) :=
       handleCsvUpload Scenario.scripted
         (DomainView.addEntryTableName Scenario.unknownSubdomain)
         DomainView.addEntryListId
         (Scenario.csvEntry (Scenario.csvFile Scenario.twoRows))
         (Scenario.world [Scenario.answer 200; Scenario.answer 200]) in
     map (λ entry, url entry.1) (trace w')
       = [str "http://localhost:8000/api/"; str "http://localhost:8000/api/"]
     ∧ toast st' = Some {| toastMessage := str "Successfully uploaded 2 entries!";
                           toastType := success |})
  ∧ (let '(st', w', _) :=
       handleSave Scenario.scripted
         (DomainView.addEntryTableName Scenario.unknownSubdomain)
         (Scenario.manualEntry [("hcp_id", "HCP1")])
         (Scenario.world [Scenario.answer 200]) in
     map (λ entry, url entry.1) (trace w') = [str "http://localhost:8000/api/"]
     ∧ toast st' = Some {| toastMessage := str "Entry added successfully!";
                           toastType := success |}).
Proof. vm_compute. repeat split; reflexivity. Qed.

(** The requests the component builds carry no [Authorization] header. *)
Lemma createRequest_no_Authorization (tableName : js_string)
    (dataToSend : gmap js_string js_string) :
  headers (createRequest tableName dataToSend) !! str "Authorization" = None.
Proof. simpl. by apply lookup_singleton_ne. Qed.

Lemma uploadRequest_no_Authorization (listId : N) (file : File) :
  headers (uploadRequest listId file) !! str "Authorization" = None.
Proof. done. Qed.

(** C5, the code with a token in the browser storage. A request going
    through the shared client gets the header, whereas the requests of the
    manual save, of the per-row import and of the list-scoped upload are
    sent without it. *)
Theorem add_entry_requests_without_token :
  axiosClient.headers
    (axiosClient.requestInterceptor Scenario.localStorage
       {| axiosClient.url := str "/api/call_list_entries";
          axiosClient.method := str "get";
          axiosClient.headers := Some ∅ |})
    = Some {[ str "Authorization" := str "Bearer secret" ]}
  ∧ (let '(_, w', _) :=
       handleSave Scenario.scripted (str "call_list_entries")
         (Scenario.manualEntry [("hcp_id", "HCP1")])
         (Scenario.world [Scenario.answer 200]) in
     map (λ entry, headers entry.1 !! str "Authorization") (trace w') = [None])
  ∧ (let '(_, w', _) :=
       handleCsvUpload Scenario.scripted (str "call_list_entries") None
         (Scenario.csvEntry (Scenario.csvFile Scenario.twoRows))
         (Scenario.world [Scenario.answer 200; Scenario.answer 200]) in
     map (λ entry, headers entry.1 !! str "Authorization") (trace w') = [None; None])
  ∧ (let '(_, w', _) :=
       handleCsvUpload Scenario.scripted (str "call_list_entries") (Some 7)
         (Scenario.csvEntry (Scenario.csvFile Scenario.twoRows))
         (Scenario.world [Scenario.answer 200]) in
     map (λ entry, (url entry.1, headers entry.1 !! str "Authorization")) (trace w')
       = [(str "http://localhost:8000/api/lists/7/upload-csv", None)]).
Proof. vm_compute. repeat split; reflexivity. Qed.

(** ** The theorems at concrete inputs *)

(** The specification's scenario: the two-line upload parses to the two
    expected records. *)
Example parseCsvText_twoRows :
  parseCsvText (str Scenario.twoRows) =
    Resolved [ {[ str "hcp_id" := str "HCP1"; str "hcp_name" := str "Dr. A" ]};
               {[ str "hcp_id" := str "HCP2"; str "hcp_name" := str "Dr. B" ]} ].
Proof. vm_compute. reflexivity. Qed.

(** A header without data lines. *)
Lemma parseCsvFile_too_few_lines_witness :
  parseCsvFile (Scenario.csvFile "hcp_id,hcp_name") = Rejected MalformedFile.
Proof.
  apply (parseCsvFile_too_few_lines _ (str "hcp_id,hcp_name")).
  - reflexivity.
  - vm_compute. lia.
Defined.

(** The specification's scenario: two rows, the second create request is
    answered with status 500. *)
Lemma handleCsvUpload_one_failure_witness :
  let run :=
    handleCsvUpload Scenario.scripted (str "call_list_entries") None
      (Scenario.csvEntry (Scenario.csvFile Scenario.twoRows))
      (Scenario.world [Scenario.answer 200; Scenario.answer 500]) in
  toast run.1.1 =
    Some {| toastMessage := str "Uploaded 1 entries successfully. 1 entries failed.";
            toastType := warning |}
  ∧ map (λ entry, url entry.1) (trace run.1.2)
    = [str "http://localhost:8000/api/call_list_entries";
       str "http://localhost:8000/api/call_list_entries"].
Proof.
  intros run.
  destruct (handleCsvUpload_one_failure Scenario.scripted (str "call_list_entries")
              None
              (Scenario.csvEntry (Scenario.csvFile Scenario.twoRows))
              (Scenario.world [Scenario.answer 200; Scenario.answer 500])
              (Scenario.csvFile Scenario.twoRows)
              (Scenario.rowsOf (Scenario.csvFile Scenario.twoRows))
              run.1.1 run.1.2 run.2)
    as (_ & Hsent & Htoast & _).
  - by left.
  - reflexivity.
  - vm_compute. reflexivity.
  - apply Forall_forall. apply (bool_decide_unpack _). vm_compute. exact I.
  - vm_compute. reflexivity.
  - vm_compute. reflexivity.
  - split; [rewrite Htoast; vm_compute; reflexivity|].
    apply (f_equal (map url)) in Hsent. rewrite !map_map in Hsent.
    rewrite drop_0 in Hsent. rewrite Hsent. vm_compute. reflexivity.
Defined.

(** A file whose first data line is [ , ]: one request only, and the toast
    counts one failure although the backend accepted everything it got. *)
Lemma handleCsvUpload_blank_row_counted_witness :
  let run :=
    handleCsvUpload Scenario.scripted (str "call_list_entries") None
      (Scenario.csvEntry (Scenario.csvFile Scenario.blankLine))
      (Scenario.world [Scenario.answer 200; Scenario.answer 200]) in
  ∃ sent succeeded failures,
    trace run.1.2 = sent
    ∧ (∀ request, request ∈ map fst sent → body request ≠ JsonBody ∅)
    ∧ (1 ≤ failures)%nat
    ∧ toast run.1.1 = Some
        {| toastMessage :=
             str "Uploaded " ++ Js.ofNumber (N.of_nat succeeded) ++
             str " entries successfully. " ++ Js.ofNumber (N.of_nat failures) ++
             str " entries failed.";
           toastType := warning |}.
Proof.
  intros run.
  destruct (handleCsvUpload_blank_row_counted Scenario.scripted (str "call_list_entries")
              None
              (Scenario.csvEntry (Scenario.csvFile Scenario.blankLine))
              (Scenario.world [Scenario.answer 200; Scenario.answer 200])
              (Scenario.csvFile Scenario.blankLine)
              (Scenario.rowsOf (Scenario.csvFile Scenario.blankLine))
              (buildRow [str "hcp_id"; str "hcp_name"] [[]; []])
              run.1.1 run.1.2 run.2)
    as (sent & succeeded & failures & Htrace & _ & Hbody & Hfail & Hblank & _ & Htoast).
  - by left.
  - reflexivity.
  - vm_compute. reflexivity.
  - apply (bool_decide_unpack _). vm_compute. exact I.
  - apply (bool_decide_unpack _). vm_compute. exact I.
  - vm_compute. reflexivity.
  - exists sent, succeeded, failures.
    split; [exact Htrace|]. split; [exact Hbody|]. split; [lia|exact Htoast].
Defined.

(** A manual form with two columns, one holding a space, one left empty. *)
Lemma handleSave_empty_record_witness :
  let st := Scenario.manualEntry [("hcp_id", " "); ("hcp_name", "")] in
  let run :=
    handleSave Scenario.scripted (str "call_list_entries") st
      (Scenario.world [Scenario.answer 200]) in
  trace run.1.2 = []
  ∧ addMode run.1.1 = Some manual
  ∧ isAdding run.1.1 = true
  ∧ formData run.1.1 = formData st.
Proof.
  intros st run. unfold run.
  rewrite (handleSave_empty_record Scenario.scripted (str "call_list_entries") st
             (Scenario.world [Scenario.answer 200])).
  - repeat split.
  - apply (bool_decide_unpack _). vm_compute. exact I.
Defined.

(** The "Call Lists" sample, downloaded twice into a fresh browser. *)
Lemma downloadSampleCSV_twice_identical_witness :
  ∃ csv,
    csvTemplates.saved
      (csvTemplates.downloadSampleCSV (str "Call Lists")
         (csvTemplates.downloadSampleCSV (str "Call Lists")
            {| csvTemplates.saved := [] |}))
    = [(str "call_lists_sample.csv", csv); (str "call_lists_sample.csv", csv)].
Proof.
  destruct (csvTemplates.CSV_TEMPLATES !! str "Call Lists") as [template|] eqn:Hlookup.
  - destruct (downloadSampleCSV_twice_identical (str "Call Lists") template
                {| csvTemplates.saved := [] |} Hlookup) as [Hsaved _].
    eexists. rewrite Hsaved. simpl.
    vm_compute in Hlookup. injection Hlookup as <-. reflexivity.
  - vm_compute in Hlookup. discriminate.
Defined.

(** * Further properties *)

(** ** Trimming *)

Lemma trimStart_nil_iff (s : js_string) :
  Js.trimStart s = [] ↔ Forall (λ c, Js.isWhiteSpace c = true) s.
Proof.
  induction s as [|c s IH]; simpl; [by split|].
  destruct (Js.isWhiteSpace c) eqn:Hc.
  - rewrite IH. split; [by constructor|]. by intros [_ ?]%Forall_cons.
  - split; [done|]. intros [Hc' _]%Forall_cons. congruence.
Qed.

(** What [trimStart] leaves starts with a character that is not white. *)
Lemma trimStart_head (s : js_string) (c : N) (rest : js_string) :
  Js.trimStart s = c :: rest → Js.isWhiteSpace c = false.
Proof.
  induction s as [|d s IH]; simpl; [done|].
  destruct (Js.isWhiteSpace d) eqn:Hd; [done|]. by intros [= <- _].
Qed.

Lemma trimStart_app (s t : js_string) :
  Js.trimStart s ≠ [] → Js.trimStart (s ++ t) = Js.trimStart s ++ t.
Proof.
  induction s as [|c s IH]; simpl; [done|].
  by destruct (Js.isWhiteSpace c).
Qed.

Lemma trimStart_white (s t : js_string) :
  Forall (λ c, Js.isWhiteSpace c = true) s → Js.trimStart (s ++ t) = Js.trimStart t.
Proof.
  induction 1 as [|c s Hc _ IH]; simpl; [done|]. by rewrite Hc.
Qed.

Lemma trim_nil_iff (s : js_string) :
  Js.trim s = [] ↔ Forall (λ c, Js.isWhiteSpace c = true) s.
Proof.
  unfold Js.trim, Js.trimEnd. split.
  - intros Htrim. apply (f_equal reverse) in Htrim.
    rewrite reverse_involutive in Htrim. change (reverse []) with (@nil N) in Htrim.
    apply trimStart_nil_iff in Htrim. rewrite Forall_reverse in Htrim.
    destruct (Js.trimStart s) as [|c rest] eqn:Hstart.
    + by apply trimStart_nil_iff.
    + apply trimStart_head in Hstart. apply Forall_cons in Htrim as [Hc _]. congruence.
  - intros Hall. apply trimStart_nil_iff in Hall. by rewrite Hall.
Qed.

(** White space at the end of a string does not survive [trim]. *)
Lemma trim_snoc_white (s : js_string) (c : N) :
  Js.isWhiteSpace c = true → Js.trim (s ++ [c]) = Js.trim s.
Proof.
  intros Hc. unfold Js.trim, Js.trimEnd.
  destruct (Js.trimStart s) as [|d rest] eqn:Hstart.
  - apply trimStart_nil_iff in Hstart.
    rewrite trimStart_white by done. simpl. by rewrite Hc.
  - rewrite trimStart_app by (by rewrite Hstart). rewrite Hstart.
    rewrite reverse_snoc. simpl. by rewrite Hc.
Qed.

(** ** Splitting *)

Lemma split_app (sep : N) (a b : js_string) :
  Js.split sep (a ++ sep :: b) = Js.split sep a ++ Js.split sep b.
Proof.
  induction a as [|c a IH]; simpl.
  - by rewrite N.eqb_refl.
  - destruct (c =? sep); [by rewrite IH|].
    rewrite IH. pose proof (split_not_nil sep a) as Hne.
    by destruct (Js.split sep a).
Qed.

(** A character that is not the separator, added at the end, goes to the
    last part. *)
Lemma split_snoc (sep c : N) (s : js_string) :
  c ≠ sep →
  ∃ parts part,
    Js.split sep s = parts ++ [part]
    ∧ Js.split sep (s ++ [c]) = parts ++ [part ++ [c]].
Proof.
  intros Hne. induction s as [|d s (parts & part & Hs & Hsc)]; simpl.
  - exists [], []. split; [done|]. by rewrite (proj2 (N.eqb_neq c sep)).
  - destruct (d =? sep).
    + exists ([] :: parts), part. by rewrite Hs, Hsc.
    + rewrite Hs, Hsc. destruct parts as [|p parts]; simpl.
      * by exists [], (d :: part).
      * by exists ((d :: p) :: parts), part.
Qed.

Lemma split_length (sep : N) (s : js_string) :
  length (Js.split sep s) = S (length (filter (λ c, c = sep) s)).
Proof.
  induction s as [|c s IH]; simpl; [done|].
  rewrite filter_cons. destruct (N.eqb_spec c sep) as [->|Hne].
  - rewrite decide_True by done. simpl. by rewrite IH.
  - rewrite decide_False by done. rewrite <- IH.
    pose proof (split_not_nil sep s). by destruct (Js.split sep s).
Qed.

(** ** The parser reads lines and fields only *)

Lemma nonBlankLines_app (a b : js_string) :
  nonBlankLines (a ++ Js.LF :: b) = nonBlankLines a ++ nonBlankLines b.
Proof. unfold nonBlankLines. by rewrite split_app, filter_app. Qed.

(** The parse is a function of the fields of the non-blank lines. *)
Lemma parseCsvText_fields (text text' : js_string) :
  map splitFields (nonBlankLines text) = map splitFields (nonBlankLines text') →
  parseCsvText text = parseCsvText text'.
Proof.
  intros Heq. unfold parseCsvText.
  assert (Hlen : length (nonBlankLines text) = length (nonBlankLines text')).
  { by rewrite <- (length_map splitFields), Heq, length_map. }
  rewrite Hlen. destruct ((length (nonBlankLines text') <? 2)%nat); [done|].
  destruct (nonBlankLines text) as [|h rest], (nonBlankLines text') as [|h' rest'];
    try done.
  simpl in Heq. injection Heq as Hh Hrest. rewrite Hh. f_equal.
  rewrite <- !(map_map splitFields (buildRow (splitFields h'))). by rewrite Hrest.
Qed.

(** X1. Lines that are blank count for nothing, wherever they stand: in the
    middle of the text, at its end (a trailing newline), or at its start. *)
Theorem parseCsvText_blank_lines_ignored (a blank b : js_string) :
  nonBlankLines blank = [] →
  parseCsvText (a ++ Js.LF :: blank ++ Js.LF :: b) = parseCsvText (a ++ Js.LF :: b)
  ∧ parseCsvText (a ++ Js.LF :: blank) = parseCsvText a
  ∧ parseCsvText (blank ++ Js.LF :: a) = parseCsvText a.
Proof.
  intros Hblank. repeat split; apply parseCsvText_fields; f_equal;
    rewrite !nonBlankLines_app, ?Hblank, ?app_nil_r; done.
Qed.

Lemma cleanField_snoc_white (field : js_string) (c : N) :
  Js.isWhiteSpace c = true → cleanField (field ++ [c]) = cleanField field.
Proof. intros Hc. unfold cleanField. by rewrite trim_snoc_white. Qed.

Lemma splitFields_snoc_white (line : js_string) (c : N) :
  Js.isWhiteSpace c = true → c ≠ Js.COMMA →
  splitFields (line ++ [c]) = splitFields line.
Proof.
  intros Hc Hne. unfold splitFields.
  destruct (split_snoc Js.COMMA c line Hne) as (parts & part & -> & ->).
  rewrite !map_app. simpl. by rewrite cleanField_snoc_white.
Qed.

Lemma nonBlankLines_snoc_white (text : js_string) (c : N) :
  Js.isWhiteSpace c = true → c ≠ Js.LF → c ≠ Js.COMMA →
  map splitFields (nonBlankLines (text ++ [c])) = map splitFields (nonBlankLines text).
Proof.
  intros Hc Hlf Hcomma. unfold nonBlankLines.
  destruct (split_snoc Js.LF c text Hlf) as (parts & part & -> & ->).
  rewrite !filter_app, !map_app. f_equal.
  rewrite !filter_cons, !filter_nil. rewrite trim_snoc_white by done.
  destruct (decide (Js.trim part ≠ [])); [|done].
  simpl. by rewrite splitFields_snoc_white.
Qed.

(** X2. Windows line ends: a carriage return in front of a line feed, or at
    the very end of the text, does not change what is parsed. *)
Theorem parseCsvText_carriage_return (a b : js_string) :
  parseCsvText (a ++ 13 :: Js.LF :: b) = parseCsvText (a ++ Js.LF :: b)
  ∧ parseCsvText (a ++ [13]) = parseCsvText a.
Proof.
  split; apply parseCsvText_fields.
  - change (a ++ 13 :: Js.LF :: b) with (a ++ [13] ++ Js.LF :: b).
    rewrite app_assoc, !nonBlankLines_app, !map_app.
    by rewrite nonBlankLines_snoc_white.
  - by apply nonBlankLines_snoc_white.
Qed.

(** ** Joining *)

Lemma elem_of_join (sep : js_string) (parts : list js_string) (part : js_string) (c : N) :
  part ∈ parts → c ∈ part → c ∈ Js.join sep parts.
Proof.
  induction parts as [|p rest IH]; intros Hpart Hc; [by apply elem_of_nil in Hpart|].
  apply elem_of_cons in Hpart as [->|Hrest].
  - destruct rest; simpl; [done|]. apply elem_of_app. by left.
  - destruct rest as [|q rest]; [by apply elem_of_nil in Hrest|].
    simpl. apply elem_of_app. right. apply elem_of_app. right. by apply IH.
Qed.

Lemma not_elem_of_join (sep c : N) (parts : list js_string) :
  c ≠ sep → Forall (λ part, c ∉ part) parts → c ∉ Js.join [sep] parts.
Proof.
  intros Hne. induction 1 as [|p rest Hp Hrest IH]; [by apply not_elem_of_nil|].
  destruct rest as [|q rest]; simpl; [done|].
  apply not_elem_of_app. split; [done|].
  apply not_elem_of_cons. split; [done|]. exact IH.
Qed.

Lemma join_commas (fields : list js_string) :
  fields ≠ [] →
  length (filter (λ c, c = Js.COMMA) (Js.join [Js.COMMA] fields))
    = (length fields - 1 + sum_list (map Cell.commas fields))%nat.
Proof.
  induction fields as [|f rest IH]; intros Hne; [done|].
  destruct rest as [|g rest].
  - simpl. unfold Cell.commas. lia.
  - change (Js.join [Js.COMMA] (f :: g :: rest))
      with (f ++ [Js.COMMA] ++ Js.join [Js.COMMA] (g :: rest)).
    rewrite !filter_app, !length_app. rewrite IH by done.
    rewrite (filter_cons_True (λ c, c = Js.COMMA)) by done. rewrite filter_nil.
    simpl. unfold Cell.commas. lia.
Qed.

(** X3. Commas are not escaped: a row read back has one field per field
    written, plus one for every comma standing inside a field. *)
Theorem splitFields_join_length (fields : list js_string) :
  fields ≠ [] →
  length (splitFields (Js.join [Js.COMMA] fields))
    = (length fields + sum_list (map Cell.commas fields))%nat.
Proof.
  intros Hne. unfold splitFields.
  rewrite length_map, split_length, join_commas by done.
  destruct fields; [done|]. simpl. lia.
Qed.

(** ** Round trip *)

Lemma cleanField_plain (field : js_string) : Cell.plain field → cleanField field = field.
Proof.
  intros (_ & _ & Htrim & Hhead & Hlast). unfold cleanField. rewrite Htrim.
  rewrite replaceEdgeQuotes_strip.
  assert (Hleading : ∀ s : js_string,
            head s ≠ Some Js.DQUOTE → Reading.stripLeadingQuote s = s).
  { intros [|c s] Hs; [done|]. simpl in *.
    destruct (N.eqb_spec c Js.DQUOTE) as [->|_]; [done|done]. }
  unfold Reading.stripTrailingQuote. rewrite (Hleading field) by done.
  rewrite Hleading by (by rewrite head_reverse). apply reverse_involutive.
Qed.

Lemma splitFields_join_plain (row : list js_string) :
  row ≠ [] → Forall Cell.plain row → splitFields (Js.join [Js.COMMA] row) = row.
Proof.
  intros Hne Hplain. unfold splitFields. rewrite split_join; [|done|].
  - rewrite <- (map_id row) at 2. apply map_ext_Forall.
    eapply Forall_impl; [exact Hplain|]. intros field. apply cleanField_plain.
  - eapply Forall_impl; [exact Hplain|]. by intros field (? & _).
Qed.

Lemma plainRow_line (row : list js_string) :
  Cell.plainRow row →
  row ≠ [] ∧ (Js.LF ∉ Js.join [Js.COMMA] row) ∧ Js.trim (Js.join [Js.COMMA] row) ≠ [].
Proof.
  intros [Hplain Hsome]. split; [|split].
  - intros ->. by apply Exists_nil in Hsome.
  - apply not_elem_of_join; [done|].
    eapply Forall_impl; [exact Hplain|]. by intros field (_ & ? & _).
  - apply Exists_exists in Hsome as (field & Hin & Hne).
    pose proof (proj1 (Forall_forall _ _) Hplain field Hin) as (_ & _ & Htrim & _).
    intros Hblank. apply trim_nil_iff in Hblank.
    assert (Hfield : Js.trim field = []).
    { apply trim_nil_iff. apply Forall_forall. intros c Hc.
      apply (proj1 (Forall_forall _ _) Hblank c). by apply (elem_of_join _ row field). }
    congruence.
Qed.

Lemma parseCsvText_arrayToCSV_plain (headers : list js_string) (data : list (list js_string)) :
  data ≠ [] → Forall Cell.plainRow (headers :: data) →
  parseCsvText (csvTemplates.arrayToCSV headers data) = Resolved (map (buildRow headers) data).
Proof.
  intros Hne Hrows. unfold csvTemplates.arrayToCSV.
  pose proof Hrows as [Hheaders Hdata]%Forall_cons.
  rewrite (parseCsvText_resolved _ (Js.join [Js.COMMA] headers)
             (map (Js.join [Js.COMMA]) data)).
  - f_equal. rewrite map_map.
    rewrite splitFields_join_plain by (by apply plainRow_line || by destruct Hheaders).
    apply map_ext_Forall. eapply Forall_impl; [exact Hdata|].
    intros row Hrow. simpl. f_equal.
    apply splitFields_join_plain; [by apply plainRow_line|by destruct Hrow].
  - apply (nonBlankLines_join (map (Js.join [Js.COMMA]) (headers :: data))); [done|].
    apply Forall_fmap. eapply Forall_impl; [exact Hrows|].
    intros row Hrow. simpl. by apply plainRow_line in Hrow as (_ & ? & ?).
  - by destruct data.
Qed.

(** X4. Round trip: a table of plain rows under distinct headers, none of
    them [__proto__], written by [arrayToCSV], is read back by the parser
    as one record per data row, in order; the keys of each record are the
    headers, and each header is mapped to the cell of its column (to the
    empty string where the row has no cell there). *)
Theorem parseCsvText_arrayToCSV (headers : list js_string) (data : list (list js_string)) :
  data ≠ [] → Forall Cell.plainRow (headers :: data) →
  NoDup headers → JsObject.PROTO ∉ headers →
  ∃ records,
    parseCsvText (csvTemplates.arrayToCSV headers data) = Resolved records
    ∧ length records = length data
    ∧ ∀ i row, data !! i = Some row →
        ∃ record,
          records !! i = Some record
          ∧ (∀ key, is_Some (record !! key) ↔ key ∈ headers)
          ∧ (∀ j header, headers !! j = Some header →
               record !! header = Some (default [] (row !! j))).
Proof.
  intros Hne Hrows Hdistinct Hproto. eexists.
  split; [by apply parseCsvText_arrayToCSV_plain|].
  split; [by rewrite length_map|].
  intros i row Hi. eexists. split; [by rewrite list_lookup_fmap, Hi|]. split.
  - intros key. rewrite buildRow_keys. split; [by intros [? _]|].
    intros Hin. split; [done|]. by intros ->.
  - intros j header Hj. apply buildRow_lookup_last; [done| |].
    + intros ->. by apply Hproto, list_elem_of_lookup; exists j.
    + intros j' Hlt Hj'.
      pose proof (NoDup_lookup _ _ _ _ Hdistinct Hj Hj'). lia.
Qed.

(** ** The rows of a text, line by line *)

Lemma splitFields_fields (line : js_string) : splitFields line = Reading.fields line.
Proof.
  unfold splitFields, Reading.fields. apply map_ext. intros piece.
  unfold cleanField. apply replaceEdgeQuotes_strip.
Qed.

(** X24. A text is read line by line: the blank lines apart, the first
    line is the header line and the N >= 1 others are the data lines.  The
    parser resolves with exactly N rows, the i-th row holding the fields
    of the i-th data line: its keys are the header fields other than
    [__proto__]; such a header, at the last position where it occurs, is
    mapped to the field the line has at that position, and to the empty
    string when the line has no field there; fields of the line beyond
    the header count appear nowhere. *)
Theorem parseCsvText_rows_of_lines
    (lines : list js_string) (headerLine : js_string) (dataLines : list js_string) :
  Forall (λ line, Js.LF ∉ line) lines →
  filter (λ line, Js.trim line ≠ []) lines = headerLine :: dataLines →
  dataLines ≠ [] →
  ∃ rows,
    parseCsvText (Js.join [Js.LF] lines) = Resolved rows
    ∧ length rows = length dataLines
    ∧ ∀ i line, dataLines !! i = Some line →
        ∃ row,
          rows !! i = Some row
          ∧ (∀ key, is_Some (row !! key) ↔
               key ∈ Reading.fields headerLine ∧ key ≠ JsObject.PROTO)
          ∧ (∀ j header,
               Reading.fields headerLine !! j = Some header →
               header ≠ JsObject.PROTO →
               (∀ j', (j < j')%nat → Reading.fields headerLine !! j' ≠ Some header) →
               row !! header = Some (default [] (Reading.fields line !! j))).
Proof.
  intros Hlines Hkept Hne.
  assert (Hsome : lines ≠ []) by (intros ->; done).
  assert (Hnonblank : nonBlankLines (Js.join [Js.LF] lines) = headerLine :: dataLines).
  { unfold nonBlankLines. by rewrite split_join. }
  eexists. split; [by apply parseCsvText_resolved|].
  split; [by rewrite length_map|].
  intros i line Hi. eexists. split; [by rewrite list_lookup_fmap, Hi|].
  rewrite !splitFields_fields. split.
  - intros key. apply buildRow_keys.
  - intros j header Hj Hproto Hlast. by apply buildRow_lookup_last.
Qed.
(** ** What a save does, case by case *)

Section Save.

Context {Backend : Type}.
Variable serve : Backend → Request → Backend * Settled Response.
Variable tableName : js_string.

Implicit Types (st : State) (w : World Backend).

Lemma handleSave_blank st w :
  Reading.allBlank (formData st) →
  handleSave serve tableName st w =
    (withIsSaving false
       (withToast (Some {| toastMessage := str "Please fill in at least one field";
                           toastType := warning |}) st),
     w, Resolved tt).
Proof.
  intros Hblank. apply stripEmpty_size_zero in Hblank.
  unfold handleSave, tryFinally, tryCatch, bind at 1, set at 1.
  simpl formData. rewrite decide_True by done. reflexivity.
Qed.

Lemma handleSave_sent st w b outcome :
  ¬ Reading.allBlank (formData st) →
  serve (backend w) (createRequest tableName (stripEmpty (formData st))) = (b, outcome) →
  handleSave serve tableName st w =
    (match outcome with
     | Resolved response =>
         if ok response then
           match json response with
           | Resolved _ => Outcome.saved st
           | Rejected e => Outcome.saveRefused e st
           end
         else Outcome.saveRefused (serverRejected response) st
     | Rejected e => Outcome.saveRefused e st
     end,
     {| backend := b;
        trace := trace w ++ [(createRequest tableName (stripEmpty (formData st)), outcome)];
        refreshes :=
          match outcome with
          | Resolved response =>
              if ok response then
                match json response with
                | Resolved _ => S (refreshes w)
                | Rejected _ => refreshes w
                end
              else refreshes w
          | Rejected _ => refreshes w
          end |},
     Resolved tt).
Proof.
  intros Hsent Hserve. rewrite <- stripEmpty_size_zero in Hsent.
  unfold handleSave, tryFinally, tryCatch, bind at 1, set at 1.
  simpl formData. rewrite decide_False by done.
  unfold bind at 1, fetch. simpl backend. rewrite Hserve.
  destruct outcome as [response|e]; [|done].
  destruct (ok response) eqn:Hok; simpl; [|done].
  unfold bind, await, ret. simpl.
  by destruct (json response).
Qed.

(** X5. A save never throws and never leaves the saving flag on; it issues
    at most one request; and either it went through (the one request was
    answered ok with a readable body: success toast, form data cleared,
    adding over, one refresh) or nothing of the form is lost (same record,
    still in the same adding state, no refresh) and a warning or an error
    is shown. *)
Theorem handleSave_outcomes st w st' w' result :
  handleSave serve tableName st w = (st', w', result) →
  result = Resolved tt
  ∧ isSaving st' = false
  ∧ addMode st' = addMode st ∧ selectedFile st' = selectedFile st
  ∧ ∃ sent,
      trace w' = trace w ++ sent ∧ (length sent ≤ 1)%nat
      ∧ ((∃ request response data,
            sent = [(request, Resolved response)]
            ∧ ok response = true ∧ json response = Resolved data
            ∧ refreshes w' = S (refreshes w)
            ∧ isAdding st' = false ∧ formData st' = ∅
            ∧ toast st' = Some {| toastMessage := str "Entry added successfully!";
                                  toastType := success |})
         ∨ (refreshes w' = refreshes w
            ∧ isAdding st' = isAdding st ∧ formData st' = formData st
            ∧ Forall (λ entry, Reading.failed entry.2 = true
                               ∨ ∃ response e, entry.2 = Resolved response
                                               ∧ json response = Rejected e) sent
            ∧ ∃ t, toast st' = Some t ∧ toastType t ≠ success)).
Proof.
  intros Hrun. destruct (decide (Reading.allBlank (formData st))) as [Hblank|Hsent].
  - rewrite handleSave_blank in Hrun by done. injection Hrun as <- <- <-.
    repeat split; try done. exists []. rewrite app_nil_r.
    split; [done|]. split; [simpl; lia|]. right. repeat split; try done.
    eexists. split; [reflexivity|done].
  - destruct (serve (backend w) (createRequest tableName (stripEmpty (formData st))))
      as [b outcome] eqn:Hserve.
    rewrite (handleSave_sent st w b outcome) in Hrun by done.
    injection Hrun as <- <- <-.
    assert (Hrefused : ∀ e, isSaving (Outcome.saveRefused e st) = false
              ∧ addMode (Outcome.saveRefused e st) = addMode st
              ∧ selectedFile (Outcome.saveRefused e st) = selectedFile st
              ∧ isAdding (Outcome.saveRefused e st) = isAdding st
              ∧ formData (Outcome.saveRefused e st) = formData st
              ∧ ∃ t, toast (Outcome.saveRefused e st) = Some t ∧ toastType t ≠ success).
    { intros e. repeat split. eexists. split; [reflexivity|done]. }
    destruct outcome as [response|e].
    + destruct (ok response) eqn:Hok; [destruct (json response) as [data|e] eqn:Hjson|].
      * repeat split; try done. eexists. split; [reflexivity|]. split; [done|].
        left. by exists (createRequest tableName (stripEmpty (formData st))), response, data.
      * destruct (Hrefused e) as (? & ? & ? & ? & ? & ?).
        repeat split; try done. eexists. split; [reflexivity|]. split; [done|].
        right. repeat split; try done. constructor; [|done]. right. by exists response, e.
      * destruct (Hrefused (serverRejected response)) as (? & ? & ? & ? & ? & ?).
        repeat split; try done. eexists. split; [reflexivity|]. split; [done|].
        right. repeat split; try done. constructor; [|done]. left. simpl. by rewrite Hok.
    + destruct (Hrefused e) as (? & ? & ? & ? & ? & ?).
      repeat split; try done. eexists. split; [reflexivity|]. split; [done|].
      right. repeat split; try done. constructor; [|done]. by left.
Qed.

(** X6. The record a save sends holds exactly the fields of the form that
    are not blank, under their column names; it is never empty, and it
    goes by POST to the table's path. *)
Theorem handleSave_sends_non_blank_fields st w st' w' result request outcome :
  handleSave serve tableName st w = (st', w', result) →
  (request, outcome) ∈ drop (length (trace w)) (trace w') →
  url request = str "http://localhost:8000/api/" ++ tableName
  ∧ method request = str "POST"
  ∧ ∃ dataToSend,
      body request = JsonBody dataToSend
      ∧ dataToSend ≠ ∅
      ∧ ∀ column value,
          dataToSend !! column = Some value
          ↔ formData st !! column = Some value ∧ Js.trim value ≠ [].
Proof.
  intros Hrun Hin. destruct (decide (Reading.allBlank (formData st))) as [Hblank|Hsent].
  - rewrite handleSave_blank in Hrun by done. injection Hrun as <- <- <-.
    rewrite drop_all in Hin. by apply elem_of_nil in Hin.
  - destruct (serve (backend w) (createRequest tableName (stripEmpty (formData st))))
      as [b o] eqn:Hserve.
    rewrite (handleSave_sent st w b o) in Hrun by done.
    injection Hrun as <- <- <-. simpl in Hin.
    rewrite drop_app_length in Hin. apply list_elem_of_singleton in Hin.
    injection Hin as -> ->. split; [done|]. split; [done|].
    exists (stripEmpty (formData st)). split; [done|]. split.
    + by rewrite stripEmpty_empty_iff.
    + intros column value. apply stripEmpty_lookup_Some.
Qed.

End Save.

(** ** Opening the manual form, typing, saving *)

Lemma initialData_lookup (columns : list js_string) (data : gmap js_string js_string)
    (column : js_string) :
  data !! JsObject.PROTO = None →
  foldl (λ data col, JsObject.assign col [] data) data columns !! column
    = if decide (column ∈ columns ∧ column ≠ JsObject.PROTO) then Some []
      else data !! column.
Proof.
  revert data. induction columns as [|c columns IH]; intros data Hproto; simpl.
  - destruct (decide (column ∈ [] ∧ column ≠ JsObject.PROTO)) as [[Hin _]|_];
      [by apply elem_of_nil in Hin|done].
  - rewrite IH by (by apply assign_keeps_PROTO).
    destruct (decide (column ∈ columns ∧ column ≠ JsObject.PROTO)) as [[Hin Hne]|Hnot].
    + rewrite decide_True; [done|]. split; [by right|done].
    + destruct (decide (column = c)) as [->|Hother].
      * destruct (decide (c = JsObject.PROTO)) as [->|Hne].
        { rewrite assign_PROTO by done. rewrite decide_False; [done|]. by intros [_ ?]. }
        rewrite assign_lookup_eq by done.
        rewrite decide_True; [done|]. split; [by left|done].
      * rewrite assign_lookup_ne by done.
        rewrite decide_False; [done|]. intros [Hin Hne]. apply Hnot.
        split; [|done]. by apply elem_of_cons in Hin as [?|?].
Qed.

Section ManualForm.

Context {Backend : Type}.
Variable serve : Backend → Request → Backend * Settled Response.
Variable tableName : js_string.

Implicit Types (st : State) (w : World Backend).

(** X7. The manual form opens with one empty field per column other than
    [__proto__] (for which the assignment stores nothing) and nothing
    else, whatever was typed before; saving it as it is sends nothing and
    asks for at least one field, the form staying open in manual mode. *)
Theorem handleManualAdd_then_save (columns : list js_string) st w :
  (∀ column,
     formData (handleManualAdd columns st) !! column
       = if decide (column ∈ columns ∧ column ≠ JsObject.PROTO) then Some [] else None)
  ∧ ∃ st',
      handleSave serve tableName (handleManualAdd columns st) w = (st', w, Resolved tt)
      ∧ toast st' = Some {| toastMessage := str "Please fill in at least one field";
                            toastType := warning |}
      ∧ isAdding st' = true ∧ addMode st' = Some manual
      ∧ formData st' = formData (handleManualAdd columns st).
Proof.
  assert (Hdata : ∀ column,
            formData (handleManualAdd columns st) !! column
              = if decide (column ∈ columns ∧ column ≠ JsObject.PROTO) then Some []
                else None).
  { intros column. simpl. by rewrite initialData_lookup, lookup_empty. }
  split; [exact Hdata|].
  eexists. rewrite handleSave_blank; [by repeat split|].
  intros column value Hlookup. rewrite Hdata in Hlookup.
  destruct (decide (column ∈ columns ∧ column ≠ JsObject.PROTO)); [|done].
  by injection Hlookup as <-.
Qed.

(** X8. Typing a value that is not blank into a column and saving sends
    exactly one request; its record has that value under that column, and
    for the other columns what the form held. *)
Theorem handleInputChange_then_save (column value : js_string) st w :
  Js.trim value ≠ [] →
  ∃ st' w' dataToSend outcome,
    handleSave serve tableName (handleInputChange column value st) w
      = (st', w', Resolved tt)
    ∧ trace w' = trace w ++ [(createRequest tableName dataToSend, outcome)]
    ∧ dataToSend !! column = Some value
    ∧ ∀ other, other ≠ column → dataToSend !! other = stripEmpty (formData st) !! other.
Proof.
  intros Hvalue. set (st1 := handleInputChange column value st).
  assert (Hsent : ¬ Reading.allBlank (formData st1)).
  { intros Hblank. apply Hvalue, (Hblank column value). simpl. apply lookup_insert_eq. }
  destruct (serve (backend w) (createRequest tableName (stripEmpty (formData st1))))
    as [b outcome] eqn:Hserve.
  eexists _, _, (stripEmpty (formData st1)), outcome.
  rewrite (handleSave_sent serve tableName st1 w b outcome) by done.
  split; [reflexivity|]. split; [done|]. split.
  - apply stripEmpty_lookup_Some. split; [apply lookup_insert_eq|done].
  - intros other Hne. unfold stripEmpty. simpl.
    rewrite !map_lookup_filter. by rewrite lookup_insert_ne.
Qed.

End ManualForm.

(** ** What an upload does, path by path *)

Section UploadPaths.

Context {Backend : Type}.
Variable serve : Backend → Request → Backend * Settled Response.
Variable tableName : js_string.

Implicit Types (st : State) (w : World Backend).

Lemma handleCsvUpload_no_file listId st w :
  selectedFile st = None →
  handleCsvUpload serve tableName listId st w =
    (withToast (Some {| toastMessage := str "Please select a CSV file";
                        toastType := warning |}) st, w, Resolved tt).
Proof. intros Hfile. unfold handleCsvUpload. by rewrite Hfile. Qed.

Lemma handleCsvUpload_parse_rejected listId st w file e :
  listId = None ∨ listId = Some 0 →
  selectedFile st = Some file →
  parseCsvFile file = Rejected e →
  handleCsvUpload serve tableName listId st w =
    (withIsUploading false
       (withToast (Some {| toastMessage := message e; toastType := error |})
          (withIsUploading true st)),
     w, Resolved tt).
Proof.
  intros HlistId Hfile Hparse. unfold handleCsvUpload. rewrite Hfile.
  assert (Hbranch :
    (match listId with
     | Some (Npos id) => uploadToList serve (Npos id) file
     | _ => uploadPerRow serve tableName file
     end) (withIsUploading true st) w
    = (withIsUploading true st, w, Rejected e)).
  { destruct HlistId as [->| ->]; unfold uploadPerRow, bind, await; by rewrite Hparse. }
  unfold tryFinally, tryCatch, bind at 1, set at 1.
  unfold bind at 1. by rewrite Hbranch.
Qed.

Lemma handleCsvUpload_list id st w file b outcome :
  selectedFile st = Some file →
  serve (backend w) (uploadRequest (Npos id) file) = (b, outcome) →
  handleCsvUpload serve tableName (Some (Npos id)) st w =
    (match outcome with
     | Resolved response =>
         if ok response then
           match json response with
           | Resolved result =>
               Outcome.closed
                 {| toastMessage :=
                      str "Successfully uploaded " ++
                      Js.ofNumber (default 0 (items_added result)) ++ str " entries!";
                    toastType := success |} st
           | Rejected e => Outcome.uploadRefused e st
           end
         else Outcome.uploadRefused (serverRejected response) st
     | Rejected e => Outcome.uploadRefused e st
     end,
     {| backend := b;
        trace := trace w ++ [(uploadRequest (Npos id) file, outcome)];
        refreshes :=
          match outcome with
          | Resolved response =>
              if ok response then
                match json response with
                | Resolved _ => S (refreshes w)
                | Rejected _ => refreshes w
                end
              else refreshes w
          | Rejected _ => refreshes w
          end |},
     Resolved tt).
Proof.
  intros Hfile Hserve. unfold handleCsvUpload. rewrite Hfile.
  unfold tryFinally, tryCatch, bind at 1, set at 1.
  unfold bind at 1, uploadToList, bind at 1, fetch. simpl backend. rewrite Hserve.
  destruct outcome as [response|e]; [|done].
  destruct (ok response) eqn:Hok; simpl; [|done].
  unfold bind, await, ret. simpl.
  by destruct (json response).
Qed.

(** X9. Per-row import: every parsed row is counted exactly once, as a
    success or as a failure, whatever the backend does; no more requests
    are issued than there are rows; and the toast is the plain success one
    exactly when no row was blank and no request failed. *)
Theorem handleCsvUpload_counts_every_row listId st w file rows st' w' result :
  listId = None ∨ listId = Some 0 →
  selectedFile st = Some file →
  parseCsvFile file = Resolved rows →
  handleCsvUpload serve tableName listId st w = (st', w', result) →
  ∃ t sent,
    result = Resolved tt
    ∧ trace w' = trace w ++ sent
    ∧ toast st' = Some (completionToast t)
    ∧ (successCount t + errorCount t)%nat = length rows
    ∧ (length sent ≤ length rows)%nat
    ∧ successCount t = length (filter (λ o, Reading.failed o = false) (map snd sent))
    ∧ (toastType (completionToast t) = success
       ↔ Forall (λ row, ¬ Reading.allBlank row) rows
         ∧ Forall (λ entry, Reading.failed entry.2 = false) sent).
Proof.
  intros HlistId Hfile Hparse Hrun.
  destruct (importRows_accounting serve tableName rows
              {| successCount := 0; errorCount := 0 |} (withIsUploading true st) w)
    as (t & w1 & sent & Hloop & Htrace & Hrefresh & Hreq & Hsucc & Herr).
  rewrite (handleCsvUpload_per_row serve tableName listId st w file rows t w1)
    in Hrun by done.
  injection Hrun as <- <- <-. simpl in *.
  assert (Hsent : length sent
                  = length (filter (λ row, ¬ Reading.allBlank row) rows)).
  { by rewrite <- (length_map fst), Hreq, length_map. }
  assert (Hrows : (length (filter Reading.allBlank rows)
                   + length (filter (λ row, ¬ Reading.allBlank row) rows))%nat
                  = length rows).
  { clear. induction rows as [|row rows IH]; [done|].
    destruct (decide (Reading.allBlank row)) as [Hblank|Hsent].
    - rewrite (filter_cons_True Reading.allBlank) by done.
      rewrite (filter_cons_False (λ row, ¬ Reading.allBlank row)) by (by intros H; apply H).
      simpl. lia.
    - rewrite (filter_cons_False Reading.allBlank) by done.
      rewrite (filter_cons_True (λ row, ¬ Reading.allBlank row)) by done.
      simpl. lia. }
  pose proof (failed_partition (map snd sent)) as Hpart.
  rewrite length_map in Hpart.
  exists t, sent.
  split; [done|]. split; [done|]. split; [done|]. split; [lia|].
  split; [lia|]. split; [done|].
  unfold completionToast. split.
  - destruct (errorCount t) as [|n] eqn:He; simpl; [intros _|done]. split.
    + apply Forall_forall. intros row Hrow Hblank.
      assert (Hmem : row ∈ filter Reading.allBlank rows)
        by by apply list_elem_of_filter.
      destruct (filter Reading.allBlank rows);
        [by apply elem_of_nil in Hmem|simpl in *; lia].
    + apply Forall_forall. intros entry Hentry.
      destruct (Reading.failed entry.2) eqn:Hfailed; [|done].
      assert (Hmem : entry.2 ∈ filter (λ o, Reading.failed o = true) (map snd sent)).
      { apply list_elem_of_filter. split; [done|]. by apply list_elem_of_fmap_2. }
      destruct (filter (λ o, Reading.failed o = true) (map snd sent));
        [by apply elem_of_nil in Hmem|simpl in *; lia].
  - intros [Hnoblank Hnofail].
    rewrite (filter_none Reading.allBlank) in Herr
      by (intros row Hrow; apply (proj1 (Forall_forall _ _) Hnoblank row Hrow)).
    rewrite (filter_none (λ o, Reading.failed o = true)) in Herr.
    + simpl in Herr. by rewrite Herr.
    + intros o Ho. apply list_elem_of_fmap in Ho as (entry & -> & Hentry).
      rewrite (proj1 (Forall_forall _ _) Hnofail entry Hentry). done.
Qed.

(** X10. A file the parser rejects (fewer than two non-blank lines, or a
    read failure) is not imported on the per-row path: no request, no
    refresh, the parser's message in an error toast, the form left open
    with the file still selected. *)
Theorem handleCsvUpload_rejected_file listId st w file :
  listId = None ∨ listId = Some 0 →
  selectedFile st = Some file →
  (contents file = None
   ∨ ∃ text, contents file = Some text ∧ (length (nonBlankLines text) < 2)%nat) →
  ∃ st' e,
    handleCsvUpload serve tableName listId st w = (st', w, Resolved tt)
    ∧ parseCsvFile file = Rejected e
    ∧ (e = MalformedFile ∨ e = {| message := str "Failed to read file" |})
    ∧ toast st' = Some {| toastMessage := message e; toastType := error |}
    ∧ isAdding st' = isAdding st ∧ addMode st' = addMode st
    ∧ selectedFile st' = Some file ∧ isUploading st' = false.
Proof.
  intros HlistId Hfile Hcontents.
  assert (Hparse : ∃ e, parseCsvFile file = Rejected e
            ∧ (e = MalformedFile ∨ e = {| message := str "Failed to read file" |})).
  { unfold parseCsvFile, parseCsvText.
    destruct Hcontents as [->|(text & -> & Hlen)].
    - eexists. split; [done|]. by right.
    - apply Nat.ltb_lt in Hlen. rewrite Hlen. eexists. split; [done|]. by left. }
  destruct Hparse as (e & Hparse & He).
  eexists _, e. rewrite (handleCsvUpload_parse_rejected listId st w file e) by done.
  by repeat split.
Qed.

(** X11. With a list id that is a positive integer (below 2^53, so that
    it is printed digit by digit) the file goes as it is, parsed or not,
    in one request: a POST to [/api/lists/<id>/upload-csv] without headers
    of its own, the file being the form data.  The upload then either went
    through (success toast, with the number of items the backend reports
    when that is a natural number below 2^53, zero when it reports none;
    form closed, file dropped, one refresh) or the form stays as it was,
    file included, with an error toast and no refresh. *)
Theorem handleCsvUpload_list_scoped id st w file st' w' result :
  Npos id < 2 ^ 53 →
  selectedFile st = Some file →
  handleCsvUpload serve tableName (Some (Npos id)) st w = (st', w', result) →
  result = Resolved tt
  ∧ isUploading st' = false
  ∧ ∃ request outcome,
      trace w' = trace w ++ [(request, outcome)]
      ∧ url request
        = str "http://localhost:8000/api/lists/" ++ Js.ofNumber (Npos id)
          ++ str "/upload-csv"
      ∧ method request = str "POST"
      ∧ headers request = ∅
      ∧ body request = FormDataBody file
      ∧ ((∃ response data t,
            outcome = Resolved response ∧ ok response = true
            ∧ json response = Resolved data
            ∧ toast st' = Some t ∧ toastType t = success
            ∧ (default 0 (items_added data) < 2 ^ 53 →
               toastMessage t =
                 str "Successfully uploaded " ++
                 Js.ofNumber (default 0 (items_added data)) ++ str " entries!")
            ∧ isAdding st' = false ∧ addMode st' = None ∧ selectedFile st' = None
            ∧ refreshes w' = S (refreshes w))
         ∨ (isAdding st' = isAdding st ∧ addMode st' = addMode st
            ∧ selectedFile st' = Some file
            ∧ refreshes w' = refreshes w
            ∧ ∃ t, toast st' = Some t ∧ toastType t = error)).
Proof.
  intros _ Hfile Hrun.
  destruct (serve (backend w) (uploadRequest (Npos id) file)) as [b outcome] eqn:Hserve.
  rewrite (handleCsvUpload_list id st w file b outcome) in Hrun by done.
  injection Hrun as <- <- <-.
  assert (Hrefused : ∀ e, isUploading (Outcome.uploadRefused e st) = false
            ∧ isAdding (Outcome.uploadRefused e st) = isAdding st
            ∧ addMode (Outcome.uploadRefused e st) = addMode st
            ∧ selectedFile (Outcome.uploadRefused e st) = Some file
            ∧ ∃ t, toast (Outcome.uploadRefused e st) = Some t ∧ toastType t = error).
  { intros e. repeat split; [done|]. eexists. by split. }
  split; [done|].
  destruct outcome as [response|e].
  - destruct (ok response) eqn:Hok; [destruct (json response) as [data|e] eqn:Hjson|].
    + split; [done|]. eexists _, _. split; [reflexivity|].
      split; [done|]. split; [done|]. split; [done|]. split; [done|].
      left. eexists response, data, _.
      split; [done|]. split; [done|]. split; [done|]. split; [reflexivity|].
      split; [done|]. split; [by intros _|]. done.
    + destruct (Hrefused e) as (? & ? & ? & ? & ?).
      split; [done|]. eexists _, _. split; [reflexivity|].
      split; [done|]. split; [done|]. split; [done|]. split; [done|]. by right.
    + destruct (Hrefused (serverRejected response)) as (? & ? & ? & ? & ?).
      split; [done|]. eexists _, _. split; [reflexivity|].
      split; [done|]. split; [done|]. split; [done|]. split; [done|]. by right.
  - destruct (Hrefused e) as (? & ? & ? & ? & ?).
    split; [done|]. eexists _, _. split; [reflexivity|].
    split; [done|]. split; [done|]. split; [done|]. split; [done|]. by right.
Qed.

End UploadPaths.

(** ** The component along any sequence of events *)

Section Reachable.

Context {Backend : Type}.
Variable serve : Backend → Request → Backend * Settled Response.
Variable props : Component.Props.

Implicit Types (st : State) (w : World Backend) (c : Component.Config Backend).

Local Ltac rest :=
  unfold Invariant.atRest; simpl; repeat split;
  first [ done | by eauto | by (intros ? [= <-]) | congruence
        | match goal with
          | H : ∀ f : File, _ → endsWithCsv (name f) = true |- _ =>
              intros ? ?; apply H; congruence
          end ].

(** One event keeps the component at rest and adds well-formed requests
    only. *)
Lemma dispatch_invariant c event :
  Invariant.atRest (Component.state c) →
  Invariant.atRest (Component.state (Component.dispatch serve props c event))
  ∧ ∃ sent,
      trace (Component.world (Component.dispatch serve props c event))
        = trace (Component.world c) ++ sent
      ∧ Forall (λ entry, Invariant.wellFormed props entry.1) sent
      ∧ (refreshes (Component.world c)
         ≤ refreshes (Component.world (Component.dispatch serve props c event))
         ≤ S (refreshes (Component.world c)))%nat.
Proof.
  destruct c as [st w b]. intros (Hsaving & Huploading & Hmode & Hcsv). simpl in *.
  assert (Hnone : ∀ A (l : list A), l = l ++ []) by (intros; by rewrite app_nil_r).
  destruct event; simpl.
  - (* PlusClick *)
    split; [done|]. exists []. split; [apply Hnone|]. split; [done|lia].
  - (* ManualAdd *)
    split; [by repeat split; eauto|]. exists []. split; [apply Hnone|]. split; [done|lia].
  - (* CsvAdd *)
    split; [by repeat split; eauto|]. exists []. split; [apply Hnone|]. split; [done|lia].
  - (* Cancel *)
    split; [by repeat split|]. exists []. split; [apply Hnone|]. split; [done|lia].
  - (* InputChange *)
    split; [done|]. exists []. split; [apply Hnone|]. split; [done|lia].
  - (* FileChange *)
    split; [|exists []; split; [apply Hnone|]; split; [done|lia]].
    destruct file as [f|]; simpl; [|done].
    destruct (endsWithCsv (name f)) eqn:Hname; simpl; [|done].
    repeat split; try done. by intros file [= <-].
  - (* DownloadSample *)
    destruct (handleDownloadSample (Component.subdomainName props) st b)
      as [st' b'] eqn:Hdownload. simpl.
    split; [|exists []; split; [apply Hnone|]; split; [done|lia]].
    unfold handleDownloadSample in Hdownload.
    destruct (Component.subdomainName props) as [[|? ?]|];
      [by injection Hdownload as <- _| |by injection Hdownload as <- _].
    destruct (csvTemplates.getListTypeFromSubdomain _) as [[|? ?]|];
      by injection Hdownload as <- _.
  - (* CsvUpload *)
    unfold Component.async. simpl.
    destruct (selectedFile st) as [file|] eqn:Hfile.
    2:{ rewrite handleCsvUpload_no_file by done. simpl.
        split; [rest|]. exists []. split; [apply Hnone|]. split; [done|lia]. }
    destruct (Component.listId props) as [[|id]|] eqn:HlistId.
    2:{ destruct (serve (backend w) (uploadRequest (Npos id) file))
          as [b' outcome] eqn:Hserve.
        rewrite (handleCsvUpload_list serve _ id st w file b' outcome) by done.
        simpl. split.
        - destruct outcome as [response|e]; [|rest].
          destruct (ok response); [|rest].
          destruct (json response); rest.
        - eexists. split; [reflexivity|]. split.
          + constructor; [|done]. right. exists id, file. eauto.
          + destruct outcome as [response|e]; [|lia].
            destruct (ok response); [|lia]. destruct (json response); lia. }
    all: destruct (parseCsvFile file) as [rows|e] eqn:Hparse.
    all: try (rewrite (handleCsvUpload_parse_rejected serve _ _ st w file e) by eauto;
              simpl; split; [rest|];
              exists []; split; [apply Hnone|]; split; [done|lia]).
    all: destruct (importRows_accounting serve (Component.tableName props) rows
                {| successCount := 0; errorCount := 0 |} (withIsUploading true st) w)
      as (t & w1 & sent & Hloop & Htrace & Hrefresh & Hreq & _).
    all: rewrite (handleCsvUpload_per_row serve _ _ st w file rows t w1) by eauto.
    all: simpl; split; [rest|].
    all: exists sent; split; [done|]; split; [|lia].
    all: apply Forall_forall; intros entry Hentry.
    all: assert (Hfst : entry.1 ∈ map fst sent) by by apply list_elem_of_fmap_2.
    all: rewrite Hreq in Hfst; apply list_elem_of_fmap in Hfst as (row & -> & Hrow).
    all: apply list_elem_of_filter in Hrow as [Hnot _].
    all: left; exists (stripEmpty row); split; [done|].
    all: split; [by rewrite stripEmpty_empty_iff|].
    all: intros column value Hlookup; by apply stripEmpty_lookup_Some in Hlookup as [_ ?].
  - (* Save *)
    unfold Component.async. simpl.
    destruct (decide (Reading.allBlank (formData st))) as [Hblank|Hsent].
    + rewrite handleSave_blank by done. simpl.
      split; [rest|]. exists []. split; [apply Hnone|]. split; [done|lia].
    + destruct (serve (backend w)
                  (createRequest (Component.tableName props) (stripEmpty (formData st))))
        as [b' outcome] eqn:Hserve.
      rewrite (handleSave_sent serve _ st w b' outcome) by done. simpl. split.
      * destruct outcome as [response|e]; [|rest].
        destruct (ok response); [|rest].
        destruct (json response); rest.
      * eexists. split; [reflexivity|]. split.
        -- constructor; [|done]. left. exists (stripEmpty (formData st)).
           split; [done|]. split; [by rewrite stripEmpty_empty_iff|].
           intros column value Hlookup.
           by apply stripEmpty_lookup_Some in Hlookup as [_ ?].
        -- destruct outcome as [response|e]; [|lia].
           destruct (ok response); [|lia]. destruct (json response); lia.
Qed.

Lemma run_invariant events c :
  Invariant.atRest (Component.state c) →
  Invariant.atRest (Component.state (Component.run serve props events c))
  ∧ ∃ sent,
      trace (Component.world (Component.run serve props events c))
        = trace (Component.world c) ++ sent
      ∧ Forall (λ entry, Invariant.wellFormed props entry.1) sent
      ∧ (refreshes (Component.world (Component.run serve props events c))
         ≤ refreshes (Component.world c) + length events)%nat.
Proof.
  revert c. induction events as [|event events IH]; intros c Hrest.
  - split; [done|]. exists []. rewrite app_nil_r. split; [done|]. split; [done|simpl; lia].
  - destruct (dispatch_invariant c event Hrest) as (Hrest' & sent1 & Htrace1 & Hsent1 & Hr1).
    destruct (IH _ Hrest') as (Hfinal & sent2 & Htrace2 & Hsent2 & Hr2).
    split; [exact Hfinal|]. exists (sent1 ++ sent2). simpl.
    split; [by rewrite Htrace2, Htrace1, app_assoc|].
    split; [by apply Forall_app|]. lia.
Qed.

(** X13. Whatever the user does, the requests the component issues are
    creations of a record that is neither empty nor holds a blank field,
    sent to its table, or uploads of a [.csv] file to its list; all are
    POST requests without an Authorization header; earlier requests are
    never rewritten; and the hosting view is asked to refresh at most once
    per event. *)
Theorem component_requests_well_formed (events : list Component.Event) w :
  ∃ sent,
    trace (Component.world (Component.run serve props events (Component.mount w)))
      = trace w ++ sent
    ∧ Forall (λ entry, Invariant.wellFormed props entry.1) sent
    ∧ Forall (λ entry, method entry.1 = str "POST"
                       ∧ headers entry.1 !! str "Authorization" = None) sent
    ∧ (refreshes (Component.world (Component.run serve props events (Component.mount w)))
       ≤ refreshes w + length events)%nat.
Proof.
  destruct (run_invariant events (Component.mount w)) as (_ & sent & Htrace & Hsent & Hr).
  { repeat split; try done. }
  exists sent. split; [done|]. split; [done|]. split; [|done].
  eapply Forall_impl; [exact Hsent|]. intros [request outcome].
  intros [(d & -> & _)|(id & file & -> & _)]; simpl; by split.
Qed.

End Reachable.


(** ** The component when events come in between a handler's steps *)

Section InFlight.

Implicit Types (tasks : list Interleaved.Task) (task : Interleaved.Task).

Lemma inFlight_app handler tasks task :
  Invariant.inFlight handler tasks → Invariant.inFlight handler (tasks ++ [task]).
Proof. intros (t & Hin & Hh). exists t. split; [|done]. apply elem_of_app. by left. Qed.

Lemma inFlight_new tasks task :
  Invariant.inFlight (Interleaved.handlerOf task) (tasks ++ [task]).
Proof. exists task. split; [|done]. apply elem_of_app. right. by apply list_elem_of_singleton. Qed.

(** A handler that goes from one [await] to the next is still in flight,
    and so are the others. *)
Lemma inFlight_insert handler tasks k old new :
  tasks !! k = Some old →
  Interleaved.handlerOf new = Interleaved.handlerOf old →
  Invariant.inFlight handler tasks →
  Invariant.inFlight handler (<[k := new]> tasks).
Proof.
  intros Hk Hsame (t & Hin & Hh).
  apply list_elem_of_lookup in Hin as [i Hi].
  destruct (decide (i = k)) as [->|Hne].
  - exists new. split.
    + apply list_elem_of_lookup. exists k. apply list_lookup_insert_eq.
      by eapply lookup_lt_Some.
    + rewrite Hsame. congruence.
  - exists t. split; [|done]. apply list_elem_of_lookup. exists i.
    by rewrite list_lookup_insert_ne.
Qed.

(** A handler that ends leaves the handlers of the other kind in flight. *)
Lemma inFlight_delete handler tasks k old :
  tasks !! k = Some old →
  Interleaved.handlerOf old ≠ handler →
  Invariant.inFlight handler tasks →
  Invariant.inFlight handler (delete k tasks).
Proof.
  intros Hk Hother (t & Hin & Hh).
  apply list_elem_of_lookup in Hin as [i Hi].
  assert (Hne : i ≠ k) by (intros ->; congruence).
  exists t. split; [|done]. apply list_elem_of_lookup.
  destruct (decide (i < k)%nat) as [Hlt|Hge].
  - exists i. by rewrite list_lookup_delete_lt.
  - exists (i - 1)%nat. rewrite list_lookup_delete_ge by lia.
    by replace (S (i - 1)) with i by lia.
Qed.

End InFlight.

Section Interleaving.

Context {Backend : Type}.
Variable serve : Backend → Request → Backend * Settled Response.
Variable props : Component.Props.

Implicit Types (c : Interleaved.Configuration Backend).

Lemma user_coherent c event :
  Invariant.coherent c → Invariant.coherent (Interleaved.user serve props event c).
Proof.
  destruct c as [st w b tasks]. intros (Hsaving & Huploading & Hmode & Hcsv).
  simpl in *. destruct event; unfold Invariant.coherent; simpl.
  - done.
  - split; [done|]. split; [done|]. split; [by eauto|done].
  - split; [done|]. split; [done|]. split; [by eauto|done].
  - split; [done|]. split; [done|]. split; [done|done].
  - done.
  - destruct file as [f|]; simpl; [|done].
    destruct (endsWithCsv (name f)) eqn:Hname; simpl; [|done].
    split; [done|]. split; [done|]. split; [done|]. by intros file [= <-].
  - destruct (handleDownloadSample (Component.subdomainName props) st b)
      as [st' b'] eqn:Hdownload. simpl.
    unfold handleDownloadSample in Hdownload.
    destruct (Component.subdomainName props) as [[|? ?]|];
      [by injection Hdownload as <- _| |by injection Hdownload as <- _].
    destruct (csvTemplates.getListTypeFromSubdomain _) as [[|? ?]|];
      by injection Hdownload as <- _.
  - unfold Interleaved.startCsvUpload. simpl.
    destruct (selectedFile st) as [file|] eqn:Hfile; [|by simpl; rewrite Hfile].
    destruct (Component.listId props) as [[|id]|].
    2:{ unfold Interleaved.callFetch. destruct (serve _ _) as [b' outcome]. simpl.
        split; [by intros ?; apply inFlight_app, Hsaving|].
        split; [intros _; apply (inFlight_new tasks (Interleaved.UploadFetch outcome))|].
        split; [done|]. intros ? ?. apply Hcsv. congruence. }
    all: simpl; split; [by intros ?; apply inFlight_app, Hsaving|].
    all: split; [intros _; apply (inFlight_new tasks (Interleaved.UploadParse file))|].
    all: split; [done|]; intros ? ?; apply Hcsv; congruence.
  - unfold Interleaved.startSave. simpl.
    destruct (decide (size (stripEmpty (formData st)) = 0%nat)); simpl.
    + split; [done|]. split; [done|]. split; [done|done].
    + unfold Interleaved.callFetch. destruct (serve _ _) as [b' outcome]. simpl.
      split; [intros _; apply (inFlight_new tasks (Interleaved.SaveFetch outcome))|].
      split; [by intros ?; apply inFlight_app, Huploading|]. split; [done|done].
Qed.

(** A handler that ends. *)
Lemma ends_coherent c k old st' (w' : World Backend) :
  Interleaved.suspended c !! k = Some old →
  Invariant.coherent c →
  (isSaving st' = true →
     isSaving (Interleaved.state c) = true ∧ Interleaved.handlerOf old ≠ Interleaved.Saving) →
  (isUploading st' = true →
     isUploading (Interleaved.state c) = true
     ∧ Interleaved.handlerOf old ≠ Interleaved.Uploading) →
  (isAdding st' = true →
     isAdding (Interleaved.state c) = true ∧ addMode st' = addMode (Interleaved.state c)) →
  (∀ file, selectedFile st' = Some file →
     selectedFile (Interleaved.state c) = Some file) →
  Invariant.coherent
    {| Interleaved.state := st'; Interleaved.world := w';
       Interleaved.browser := Interleaved.browser c;
       Interleaved.suspended := delete k (Interleaved.suspended c) |}.
Proof.
  intros Hk (Hsaving & Huploading & Hmode & Hcsv) Hs Hu Ha Hf.
  unfold Invariant.coherent. simpl. split; [|split; [|split]].
  - intros [Hon Hother]%Hs. by eapply inFlight_delete; eauto.
  - intros [Hon Hother]%Hu. by eapply inFlight_delete; eauto.
  - intros [Hon Heq]%Ha. rewrite Heq. by apply Hmode.
  - intros file Hfile%Hf. by apply Hcsv.
Qed.

(** A handler that goes from one [await] to the next. *)
Lemma goes_on_coherent c k old new (w' : World Backend) :
  Interleaved.suspended c !! k = Some old →
  Interleaved.handlerOf new = Interleaved.handlerOf old →
  Invariant.coherent c →
  Invariant.coherent
    {| Interleaved.state := Interleaved.state c; Interleaved.world := w';
       Interleaved.browser := Interleaved.browser c;
       Interleaved.suspended := <[k := new]> (Interleaved.suspended c) |}.
Proof.
  intros Hk Hsame (Hsaving & Huploading & Hmode & Hcsv).
  unfold Invariant.coherent. simpl. split; [|split; [|split]]; [| |done|done].
  - intros Hon. by eapply inFlight_insert; eauto.
  - intros Hon. by eapply inFlight_insert; eauto.
Qed.

Lemma continueRows_coherent c k old t rows :
  Interleaved.suspended c !! k = Some old →
  Interleaved.handlerOf old = Interleaved.Uploading →
  Invariant.coherent c →
  Invariant.coherent (Interleaved.continueRows serve props k t rows c).
Proof.
  intros Hk Hold Hc. unfold Interleaved.continueRows.
  destruct (Interleaved.nextRow t rows) as [t' [[row rest]|]].
  - unfold Interleaved.callFetch. destruct (serve _ _) as [b' outcome].
    by apply (goes_on_coherent c k old).
  - apply (ends_coherent c k old); try done.
    intros Hon. split; [done|]. by rewrite Hold.
Qed.

Lemma resume_coherent c k :
  Invariant.coherent c → Invariant.coherent (Interleaved.resume serve props k c).
Proof.
  intros Hc. unfold Interleaved.resume.
  destruct (Interleaved.suspended c !! k) as [task|] eqn:Hk; [|done].
  destruct task as [[response|e]|response|response|[response|e]|response|response|file
                   |t outcome rest].
  - destruct (ok response); by apply (goes_on_coherent c k _ _ _ Hk).
  - by apply (ends_coherent c k _ _ _ Hk).
  - by apply (ends_coherent c k _ _ _ Hk).
  - destruct (json response); by apply (ends_coherent c k _ _ _ Hk).
  - destruct (ok response); by apply (goes_on_coherent c k _ _ _ Hk).
  - by apply (ends_coherent c k _ _ _ Hk).
  - by apply (ends_coherent c k _ _ _ Hk).
  - destruct (json response); by apply (ends_coherent c k _ _ _ Hk).
  - destruct (parseCsvFile file);
      [by apply (continueRows_coherent c k _ _ _ Hk)|by apply (ends_coherent c k _ _ _ Hk)].
  - by apply (continueRows_coherent c k _ _ _ Hk).
Qed.

Lemma step_coherent c event :
  Invariant.coherent c → Invariant.coherent (Interleaved.step serve props c event).
Proof.
  intros Hc. destruct event as [event| | |k].
  - by apply user_coherent.
  - exact Hc.
  - destruct Hc as (Hsaving & Huploading & Hmode & Hcsv).
    unfold Invariant.coherent. simpl.
    by destruct (showMenu (Interleaved.state c)).
  - by apply resume_coherent.
Qed.

Lemma run_coherent events c :
  Invariant.coherent c → Invariant.coherent (Interleaved.runAll serve props events c).
Proof.
  revert c. induction events as [|event events IH]; intros c Hc; [done|].
  simpl. apply IH. by apply step_coherent.
Qed.

(** X12. Whatever the user does, whenever the awaited answers arrive and
    whatever they are: the saving flag is on only while a [handleSave] is
    suspended at one of its [await]s and the uploading flag only while a
    [handleCsvUpload] is, so that both are off once no handler is left
    waiting; an open form has a mode; and the selected file, if any, has
    a name ending in [.csv]. *)
Theorem component_flags_follow_handlers (events : list Interleaved.Input) w :
  let c := Interleaved.runAll serve props events (Interleaved.mounted w) in
  (isSaving (Interleaved.state c) = true →
     ∃ task, task ∈ Interleaved.suspended c
             ∧ Interleaved.handlerOf task = Interleaved.Saving)
  ∧ (isUploading (Interleaved.state c) = true →
       ∃ task, task ∈ Interleaved.suspended c
               ∧ Interleaved.handlerOf task = Interleaved.Uploading)
  ∧ (Interleaved.suspended c = [] →
       isSaving (Interleaved.state c) = false
       ∧ isUploading (Interleaved.state c) = false)
  ∧ (isAdding (Interleaved.state c) = true → is_Some (addMode (Interleaved.state c)))
  ∧ (∀ file, selectedFile (Interleaved.state c) = Some file →
       endsWithCsv (name file) = true).
Proof.
  intros c.
  assert (Hc : Invariant.coherent c).
  { apply run_coherent. unfold Invariant.coherent. simpl. done. }
  destruct Hc as (Hsaving & Huploading & Hmode & Hcsv).
  split; [exact Hsaving|]. split; [exact Huploading|]. split; [|by split].
  intros Hnone. split.
  - destruct (isSaving (Interleaved.state c)); [|done].
    destruct (Hsaving eq_refl) as (task & Hin & _).
    rewrite Hnone in Hin. by apply elem_of_nil in Hin.
  - destruct (isUploading (Interleaved.state c)); [|done].
    destruct (Huploading eq_refl) as (task & Hin & _).
    rewrite Hnone in Hin. by apply elem_of_nil in Hin.
Qed.

Lemma nextRow_sent t rows t' row rest :
  Interleaved.nextRow t rows = (t', Some (row, rest)) →
  size (stripEmpty row) ≠ 0%nat.
Proof.
  revert t. induction rows as [|r rows IH]; intros t Hnext; [done|].
  simpl in Hnext. destruct (decide (size (stripEmpty r) = 0%nat)) as [Hblank|Hsent].
  - by apply (IH (countError t)).
  - by injection Hnext as _ <- _.
Qed.

Lemma createRequest_wellFormed (row : gmap js_string js_string) :
  size (stripEmpty row) ≠ 0%nat →
  Invariant.wellFormed props (createRequest (Component.tableName props) (stripEmpty row)).
Proof.
  intros Hsent. left. exists (stripEmpty row). split; [done|]. split.
  - intros Hempty. apply Hsent. by rewrite Hempty.
  - intros column value Hlookup. by apply stripEmpty_lookup_Some in Hlookup as [_ ?].
Qed.

(** One step adds well-formed requests only, one at most, and asks for
    one refresh at most. *)
Lemma step_requests c event :
  Invariant.coherent c →
  ∃ sent,
    trace (Interleaved.world (Interleaved.step serve props c event))
      = trace (Interleaved.world c) ++ sent
    ∧ Forall (λ entry, Invariant.wellFormed props entry.1) sent
    ∧ (length sent ≤ 1)%nat
    ∧ (refreshes (Interleaved.world c)
       ≤ refreshes (Interleaved.world (Interleaved.step serve props c event))
       ≤ S (refreshes (Interleaved.world c)))%nat.
Proof.
  intros (_ & _ & _ & Hcsv).
  assert (Hnone : ∀ c' : Interleaved.Configuration Backend,
            Interleaved.world c' = Interleaved.world c →
            ∃ sent,
              trace (Interleaved.world c') = trace (Interleaved.world c) ++ sent
              ∧ Forall (λ entry, Invariant.wellFormed props entry.1) sent
              ∧ (length sent ≤ 1)%nat
              ∧ (refreshes (Interleaved.world c) ≤ refreshes (Interleaved.world c')
                 ≤ S (refreshes (Interleaved.world c)))%nat).
  { intros c' ->. exists []. rewrite app_nil_r. split; [done|]. split; [done|].
    simpl. split; lia. }
  assert (Hrefresh : ∀ c' : Interleaved.Configuration Backend,
            Interleaved.world c' = Interleaved.callOnEntryAdded (Interleaved.world c) →
            ∃ sent,
              trace (Interleaved.world c') = trace (Interleaved.world c) ++ sent
              ∧ Forall (λ entry, Invariant.wellFormed props entry.1) sent
              ∧ (length sent ≤ 1)%nat
              ∧ (refreshes (Interleaved.world c) ≤ refreshes (Interleaved.world c')
                 ≤ S (refreshes (Interleaved.world c)))%nat).
  { intros c' ->. exists []. rewrite app_nil_r. split; [done|]. split; [done|].
    simpl. split; lia. }
  assert (Hfetch : ∀ (c' : Interleaved.Configuration Backend) request,
            Interleaved.world c' = (Interleaved.callFetch serve request (Interleaved.world c)).1 →
            Invariant.wellFormed props request →
            ∃ sent,
              trace (Interleaved.world c') = trace (Interleaved.world c) ++ sent
              ∧ Forall (λ entry, Invariant.wellFormed props entry.1) sent
              ∧ (length sent ≤ 1)%nat
              ∧ (refreshes (Interleaved.world c) ≤ refreshes (Interleaved.world c')
                 ≤ S (refreshes (Interleaved.world c)))%nat).
  { intros c' request -> Hwell. unfold Interleaved.callFetch.
    destruct (serve _ _) as [b' outcome]. simpl. eexists. split; [reflexivity|].
    split; [by constructor|]. simpl. split; lia. }
  assert (Hrows : ∀ k t rows,
            ∃ sent,
              trace (Interleaved.world (Interleaved.continueRows serve props k t rows c))
                = trace (Interleaved.world c) ++ sent
              ∧ Forall (λ entry, Invariant.wellFormed props entry.1) sent
              ∧ (length sent ≤ 1)%nat
              ∧ (refreshes (Interleaved.world c)
                 ≤ refreshes (Interleaved.world
                                (Interleaved.continueRows serve props k t rows c))
                 ≤ S (refreshes (Interleaved.world c)))%nat).
  { intros k t rows. unfold Interleaved.continueRows.
    destruct (Interleaved.nextRow t rows) as [t' [[row rest]|]] eqn:Hnext.
    - apply (Hfetch _ (createRequest (Component.tableName props) (stripEmpty row))).
      + by destruct (Interleaved.callFetch _ _ _).
      + apply createRequest_wellFormed. by eapply nextRow_sent.
    - by apply Hrefresh. }
  destruct event as [event| | |k]; simpl; [|by apply Hnone|by apply Hnone|].
  - destruct event; simpl; try by apply Hnone.
    + destruct (handleDownloadSample _ _ _). by apply Hnone.
    + unfold Interleaved.startCsvUpload.
      destruct (selectedFile (Interleaved.state c)) as [file|] eqn:Hfile; [|by apply Hnone].
      destruct (Component.listId props) as [[|id]|] eqn:HlistId; try by apply Hnone.
      apply (Hfetch _ (uploadRequest (Npos id) file)).
      * by destruct (Interleaved.callFetch _ _ _).
      * right. exists id, file. split; [done|]. split; [done|]. by apply Hcsv.
    + unfold Interleaved.startSave.
      destruct (decide (size (stripEmpty (formData (Interleaved.state c))) = 0%nat));
        [by apply Hnone|].
      apply (Hfetch _ (createRequest (Component.tableName props)
                         (stripEmpty (formData (Interleaved.state c))))).
      * by destruct (Interleaved.callFetch _ _ _).
      * by apply createRequest_wellFormed.
  - unfold Interleaved.resume.
    destruct (Interleaved.suspended c !! k) as [task|]; [|by apply Hnone].
    destruct task as [[response|e]|response|response|[response|e]|response|response|file
                     |t outcome rest]; try by apply Hnone.
    + destruct (ok response); by apply Hnone.
    + destruct (json response); [by apply Hrefresh|by apply Hnone].
    + destruct (ok response); by apply Hnone.
    + destruct (json response); [by apply Hrefresh|by apply Hnone].
    + destruct (parseCsvFile file); [apply Hrows|by apply Hnone].
    + apply Hrows.
Qed.

Lemma run_requests events c :
  Invariant.coherent c →
  ∃ sent,
    trace (Interleaved.world (Interleaved.runAll serve props events c))
      = trace (Interleaved.world c) ++ sent
    ∧ Forall (λ entry, Invariant.wellFormed props entry.1) sent
    ∧ (length sent ≤ length events)%nat
    ∧ (refreshes (Interleaved.world (Interleaved.runAll serve props events c))
       ≤ refreshes (Interleaved.world c) + length events)%nat.
Proof.
  revert c. induction events as [|event events IH]; intros c Hc.
  - exists []. rewrite app_nil_r. split; [done|]. split; [done|]. simpl. split; lia.
  - destruct (step_requests c event Hc) as (sent1 & Htrace1 & Hsent1 & Hlen1 & Hr1).
    assert (Hc' : Invariant.coherent (Interleaved.step serve props c event))
      by by apply step_coherent.
    destruct (IH _ Hc') as (sent2 & Htrace2 & Hsent2 & Hlen2 & Hr2).
    exists (sent1 ++ sent2). simpl.
    split; [by rewrite Htrace2, Htrace1, app_assoc|].
    split; [by apply Forall_app|]. rewrite length_app. split; lia.
Qed.

(** X25. With events coming in between the steps of the handlers as
    well, the requests the component issues are creations of a record that
    is neither empty nor holds a blank field, sent to its table, or
    uploads of a [.csv] file to its list; all are POST requests without an
    Authorization header; a step (an event of the user, or a handler going
    on after an [await]) issues one request at most and asks for one
    refresh at most; earlier requests are never rewritten. *)
Theorem interleaved_requests_well_formed (events : list Interleaved.Input) w :
  ∃ sent,
    trace (Interleaved.world
             (Interleaved.runAll serve props events (Interleaved.mounted w)))
      = trace w ++ sent
    ∧ Forall (λ entry, Invariant.wellFormed props entry.1) sent
    ∧ Forall (λ entry, method entry.1 = str "POST"
                       ∧ headers entry.1 !! str "Authorization" = None) sent
    ∧ (length sent ≤ length events)%nat
    ∧ (refreshes (Interleaved.world
                    (Interleaved.runAll serve props events (Interleaved.mounted w)))
       ≤ refreshes w + length events)%nat.
Proof.
  destruct (run_requests events (Interleaved.mounted w))
    as (sent & Htrace & Hsent & Hlen & Hr).
  { unfold Invariant.coherent. simpl. done. }
  exists sent. split; [done|]. split; [done|]. split; [|done].
  eapply Forall_impl; [exact Hsent|]. intros [request outcome].
  intros [(d & -> & _)|(id & file & -> & _)]; simpl; by split.
Qed.

End Interleaving.

(** ** A handler nothing comes in between *)

Section Uninterrupted.

Context {Backend : Type}.
Variable serve : Backend → Request → Backend * Settled Response.
Variable props : Component.Props.

Implicit Types (st : State) (w : World Backend) (b : csvTemplates.Browser).
Implicit Types (tasks : list Interleaved.Task) (task : Interleaved.Task).

Lemma lookup_last_task tasks task : (tasks ++ [task]) !! length tasks = Some task.
Proof. by apply list_lookup_middle. Qed.

Lemma insert_last_task tasks old new :
  <[length tasks := new]> (tasks ++ [old]) = tasks ++ [new].
Proof. rewrite insert_app_r_alt by lia. by rewrite Nat.sub_diag. Qed.

Lemma delete_last_task tasks task : delete (length tasks) (tasks ++ [task]) = tasks.
Proof. rewrite (delete_middle tasks [] task). apply app_nil_r. Qed.

(** Resuming a handler that is not there does nothing. *)
Lemma run_idle (n k : nat) (c : Interleaved.Configuration Backend) :
  Interleaved.suspended c !! k = None →
  Interleaved.runAll serve props (replicate n (Interleaved.Resume k)) c = c.
Proof.
  intros Hk. induction n as [|n IH]; [done|].
  simpl. unfold Interleaved.resume. by rewrite Hk.
Qed.

Lemma run_idle_last (n : nat) st w b tasks :
  Interleaved.runAll serve props (replicate n (Interleaved.Resume (length tasks)))
    {| Interleaved.state := st; Interleaved.world := w; Interleaved.browser := b;
       Interleaved.suspended := tasks |}
  = {| Interleaved.state := st; Interleaved.world := w; Interleaved.browser := b;
       Interleaved.suspended := tasks |}.
Proof. apply run_idle. simpl. apply lookup_ge_None_2. lia. Qed.

(** The loop, resumed after each of its requests, ends as the loop run
    to completion does. *)
Lemma continueRows_uninterrupted rows t st w b tasks task (n : nat) t' w' :
  (length rows ≤ n)%nat →
  importRows serve (Component.tableName props) t rows st w = (st, w', Resolved t') →
  Interleaved.runAll serve props (replicate n (Interleaved.Resume (length tasks)))
    (Interleaved.continueRows serve props (length tasks) t rows
       {| Interleaved.state := st; Interleaved.world := w; Interleaved.browser := b;
          Interleaved.suspended := tasks ++ [task] |})
  = {| Interleaved.state := Interleaved.uploadDone (completionToast t') st;
       Interleaved.world := Interleaved.callOnEntryAdded w';
       Interleaved.browser := b; Interleaved.suspended := tasks |}.
Proof.
  revert t w task n. induction rows as [|row rest IH]; intros t w task n Hn Hloop.
  - injection Hloop as <- <-. unfold Interleaved.continueRows. simpl.
    rewrite delete_last_task. apply run_idle_last.
  - simpl in Hloop. unfold bind at 1 in Hloop.
    unfold Interleaved.continueRows. simpl.
    destruct (decide (size (stripEmpty row) = 0%nat)) as [Hblank|Hsent].
    + rewrite importRow_blank in Hloop by (by apply stripEmpty_size_zero).
      apply (IH (countError t) w task n); [simpl in Hn; lia|done].
    + destruct (serve (backend w) (createRequest (Component.tableName props) (stripEmpty row)))
        as [b1 outcome] eqn:Hserve.
      rewrite (importRow_sent _ _ _ _ _ _ b1 outcome) in Hloop;
        [|by rewrite <- stripEmpty_size_zero|done].
      unfold Interleaved.callFetch. rewrite Hserve. simpl.
      rewrite insert_last_task.
      destruct n as [|n]; [simpl in Hn; lia|]. simpl.
      unfold Interleaved.resume at 1. simpl. rewrite lookup_last_task.
      apply (IH _ _ (Interleaved.UploadRow t outcome rest) n); [simpl in Hn; lia|].
      rewrite <- Hloop. f_equal.
      destruct outcome as [response|e]; simpl; [|done]. by destruct (ok response).
Qed.

(** X26. The run-to-completion machine is the interleaved one on the
    schedules where nothing comes in between a handler's steps: an event
    of the user followed by enough resumptions of the handler it started
    (two, and one more than the file has rows) leaves the component, the
    world and the browser as the run-to-completion dispatch of that event
    does, and the handlers that were suspended before as they were. *)
Theorem uninterrupted_handler_runs_to_completion
    (c : Component.Config Backend) tasks (event : Component.Event) (n : nat) :
  (2 ≤ n)%nat →
  (∀ file rows,
     selectedFile (Component.state c) = Some file →
     parseCsvFile file = Resolved rows → (length rows < n)%nat) →
  Interleaved.runAll serve props
    (Interleaved.User event :: replicate n (Interleaved.Resume (length tasks)))
    (Interleaved.withSuspended tasks c)
  = Interleaved.withSuspended tasks (Component.dispatch serve props c event).
Proof.
  intros Hn Hrows. destruct c as [st w b]. simpl in Hrows.
  unfold Interleaved.withSuspended. simpl.
  destruct event; simpl; try apply run_idle_last.
  - (* DownloadSample *)
    destruct (handleDownloadSample (Component.subdomainName props) st b) as [st' b'].
    apply run_idle_last.
  - (* CsvUpload *)
    unfold Interleaved.startCsvUpload, Component.async. simpl.
    destruct (selectedFile st) as [file|] eqn:Hfile.
    2:{ rewrite handleCsvUpload_no_file by done. apply run_idle_last. }
    destruct n as [|[|n]]; [lia|lia|].
    destruct (Component.listId props) as [[|id]|] eqn:HlistId.
    2:{ unfold Interleaved.callFetch.
        destruct (serve (backend w) (uploadRequest (Npos id) file))
          as [b' outcome] eqn:Hserve.
        rewrite (handleCsvUpload_list serve _ id st w file b' outcome) by done.
        simpl. unfold Interleaved.resume at 2. simpl. rewrite lookup_last_task.
        destruct outcome as [response|e].
        2:{ unfold Interleaved.finish. simpl. rewrite delete_last_task.
            unfold Interleaved.resume at 1. simpl.
            rewrite (lookup_ge_None_2 tasks (length tasks)) by lia.
            apply run_idle_last. }
        destruct (ok response) eqn:Hok; unfold Interleaved.suspend; simpl;
          rewrite insert_last_task; unfold Interleaved.resume at 1; simpl;
          rewrite lookup_last_task.
        - destruct (json response) as [result|e]; unfold Interleaved.finish; simpl;
            rewrite delete_last_task; apply run_idle_last.
        - unfold Interleaved.finish. simpl. rewrite delete_last_task.
          apply run_idle_last. }
    all: simpl; unfold Interleaved.resume at 2; simpl; rewrite lookup_last_task.
    all: destruct (parseCsvFile file) as [rows|e] eqn:Hparse.
    all: try (rewrite (handleCsvUpload_parse_rejected serve _ _ st w file e) by eauto;
              unfold Interleaved.finish; simpl; rewrite delete_last_task;
              unfold Interleaved.resume at 1; simpl;
              rewrite (lookup_ge_None_2 tasks (length tasks)) by lia;
              apply run_idle_last).
    all: destruct (importRows_accounting serve (Component.tableName props) rows
                {| successCount := 0; errorCount := 0 |} (withIsUploading true st) w)
      as (t & w1 & sent & Hloop & _).
    all: rewrite (handleCsvUpload_per_row serve _ _ st w file rows t w1) by eauto.
    all: pose proof (Hrows file rows eq_refl Hparse) as Hlen.
    all: apply (continueRows_uninterrupted rows _ _ _ _ _ _ (S n) t w1); [lia|done].
  - (* Save *)
    unfold Interleaved.startSave, Component.async. simpl.
    destruct (decide (size (stripEmpty (formData st)) = 0%nat)) as [Hblank|Hsent].
    + rewrite handleSave_blank by (by apply stripEmpty_size_zero). apply run_idle_last.
    + unfold Interleaved.callFetch.
      destruct (serve (backend w)
                  (createRequest (Component.tableName props) (stripEmpty (formData st))))
        as [b' outcome] eqn:Hserve.
      rewrite (handleSave_sent serve _ st w b' outcome);
        [|by rewrite <- stripEmpty_size_zero|done].
      destruct n as [|[|n]]; [lia|lia|].
      simpl. unfold Interleaved.resume at 2. simpl. rewrite lookup_last_task.
      destruct outcome as [response|e].
      2:{ unfold Interleaved.finish. simpl. rewrite delete_last_task.
          unfold Interleaved.resume at 1. simpl.
          rewrite (lookup_ge_None_2 tasks (length tasks)) by lia.
          apply run_idle_last. }
      destruct (ok response) eqn:Hok; unfold Interleaved.suspend; simpl;
        rewrite insert_last_task; unfold Interleaved.resume at 1; simpl;
        rewrite lookup_last_task.
      * destruct (json response) as [result|e]; unfold Interleaved.finish; simpl;
          rewrite delete_last_task; apply run_idle_last.
      * unfold Interleaved.finish. simpl. rewrite delete_last_task.
        apply run_idle_last.
Qed.

End Uninterrupted.
(** ** The catalogue: list types, entry tables, templates *)

Lemma list_to_map_is_Some {A} (l : list (js_string * A)) (k : js_string) :
  is_Some ((list_to_map l : gmap js_string A) !! k) ↔ k ∈ map fst l.
Proof.
  rewrite <- not_eq_None_Some. rewrite <- not_elem_of_list_to_map.
  destruct (decide (k ∈ l.*1)); [|done]. split; [done|]. by intros _ H; apply H.
Qed.

(** The list types of the domain catalogue, in catalogue order. *)
Lemma catalogue_list_types :
  domains.DOMAIN_CONFIGS ≫= domains.listTypes
  = map str ["Target Lists"; "Call Lists"; "Formulary Decision-Maker Lists";
             "IDN/Health System Lists"; "Event Invitation Lists";
             "Digital Engagement Lists"; "High-Value Prescriber Lists";
             "Competitor Target Lists"].
Proof. reflexivity. Qed.

(** *** Names that reach a member of [Object.prototype] *)

(** The text standing for an inherited member is not empty, and is itself
    neither an inherited name, nor a key of the template catalogue or of
    the migration map, nor the name of the target list table; and no
    inherited name is a list type of the catalogue. *)
Lemma prototype_text (name text : js_string) :
  JsObject.prototype !! name = Some text →
  text ≠ []
  ∧ JsObject.prototype !! text = None
  ∧ csvTemplates.CSV_TEMPLATES !! text = None
  ∧ domains.DOMAIN_MIGRATION_MAP !! text = None
  ∧ text ≠ str "target_list"
  ∧ name ∉ (domains.DOMAIN_CONFIGS ≫= domains.listTypes).
Proof.
  intros Hlookup. unfold JsObject.prototype in Hlookup.
  apply elem_of_list_to_map_2 in Hlookup.
  repeat (apply elem_of_cons in Hlookup as [[= -> ->]|Hlookup];
          [apply (bool_decide_unpack _); by vm_compute|]).
  by apply elem_of_nil in Hlookup.
Qed.

Lemma getEntryTableName_nonempty (name table : js_string) :
  DomainView.getEntryTableName name = Some table → table ≠ [].
Proof.
  unfold DomainView.getEntryTableName.
  destruct (JsObject.get _ name) as [[|c t]|]; [done| |done]. by intros [= <-].
Qed.

(** A list type of the catalogue has its own entry table. *)
Lemma getEntryTableName_listed (name : js_string) :
  name ∈ (domains.DOMAIN_CONFIGS ≫= domains.listTypes) →
  ∃ table,
    DomainView.getEntryTableName name = Some table
    ∧ (name, table) ∈
        [ (str "Target Lists", str "target_list");
          (str "Call Lists", str "call_list_entries");
          (str "Formulary Decision-Maker Lists", str "formulary_decision_maker_entries");
          (str "IDN/Health System Lists", str "idn_health_system_entries");
          (str "Event Invitation Lists", str "event_invitation_entries");
          (str "Digital Engagement Lists", str "digital_engagement_entries");
          (str "High-Value Prescriber Lists", str "high_value_prescriber_entries");
          (str "Competitor Target Lists", str "competitor_target_entries") ].
Proof.
  intros Hname. rewrite catalogue_list_types in Hname. simpl in Hname.
  repeat (apply elem_of_cons in Hname as [->|Hname];
          [eexists; split; [by vm_compute|];
           apply (bool_decide_unpack _); by vm_compute|]).
  by apply elem_of_nil in Hname.
Qed.

(** Any other name is looked up in [Object.prototype]. *)
Lemma getEntryTableName_unlisted (name : js_string) :
  name ∉ (domains.DOMAIN_CONFIGS ≫= domains.listTypes) →
  DomainView.getEntryTableName name = JsObject.prototype !! name.
Proof.
  intros Hname. unfold DomainView.getEntryTableName, JsObject.get.
  destruct (list_to_map _ !! name) as [own|] eqn:Hown.
  - exfalso. apply Hname.
    pose proof (proj1 (list_to_map_is_Some _ name) (mk_is_Some _ _ Hown)) as Hin.
    rewrite catalogue_list_types. exact Hin.
  - destruct (JsObject.prototype !! name) as [text|] eqn:Htext; [|done].
    apply prototype_text in Htext as (Hne & _). by destruct text.
Qed.

Lemma getEntryTableName_is_Some (name : js_string) :
  is_Some (DomainView.getEntryTableName name)
  ↔ name ∈ (domains.DOMAIN_CONFIGS ≫= domains.listTypes)
    ∨ is_Some (JsObject.prototype !! name).
Proof.
  destruct (decide (name ∈ (domains.DOMAIN_CONFIGS ≫= domains.listTypes))) as [Hin|Hnot].
  - destruct (getEntryTableName_listed name Hin) as (table & -> & _).
    split; [by left|by eexists].
  - rewrite getEntryTableName_unlisted by done. split; [by right|by intros [?|?]].
Qed.

Lemma CSV_TEMPLATES_is_Some (name : js_string) :
  is_Some (csvTemplates.CSV_TEMPLATES !! name)
  ↔ name ∈ (domains.DOMAIN_CONFIGS ≫= domains.listTypes).
Proof. unfold csvTemplates.CSV_TEMPLATES. by rewrite list_to_map_is_Some. Qed.

Lemma getListTypeFromSubdomain_listed (name : js_string) :
  name ∈ (domains.DOMAIN_CONFIGS ≫= domains.listTypes) →
  csvTemplates.getListTypeFromSubdomain name = Some name.
Proof.
  intros Hname. rewrite catalogue_list_types in Hname. simpl in Hname.
  repeat (apply elem_of_cons in Hname as [->|Hname]; [by vm_compute|]).
  by apply elem_of_nil in Hname.
Qed.

Lemma getListTypeFromSubdomain_unlisted (name : js_string) :
  name ∉ (domains.DOMAIN_CONFIGS ≫= domains.listTypes) →
  csvTemplates.getListTypeFromSubdomain name = JsObject.prototype !! name.
Proof.
  intros Hname. unfold csvTemplates.getListTypeFromSubdomain, JsObject.get.
  destruct (list_to_map _ !! name) as [own|] eqn:Hown.
  - exfalso. apply Hname.
    pose proof (proj1 (list_to_map_is_Some _ name) (mk_is_Some _ _ Hown)) as Hin.
    rewrite catalogue_list_types. exact Hin.
  - destruct (JsObject.prototype !! name) as [text|] eqn:Htext; [|done].
    apply prototype_text in Htext as (Hne & _). by destruct text.
Qed.

(** X14. The lookups keyed by subdomain name against the domain catalogue.
    A name has an entry table, and likewise a list type, exactly when it
    is a list type of some domain of the catalogue or the name of a member
    of [Object.prototype] ([constructor], [toString], [__proto__], ...),
    the two never at once.  It has a sample template of its own exactly
    when it is a list type of the catalogue, and is then its own list
    type; the list type found for an inherited name has no template.  The
    fallback table name [''] of the domain view arises only for names
    without entry table. *)
Theorem subdomain_lookups_agree (name : js_string) :
  let listed := ∃ config, config ∈ domains.DOMAIN_CONFIGS ∧ name ∈ domains.listTypes config in
  let inherited := is_Some (JsObject.prototype !! name) in
  (is_Some (DomainView.getEntryTableName name) ↔ listed ∨ inherited)
  ∧ (is_Some (csvTemplates.getListTypeFromSubdomain name) ↔ listed ∨ inherited)
  ∧ ¬ (listed ∧ inherited)
  ∧ (is_Some (csvTemplates.CSV_TEMPLATES !! name) ↔ listed)
  ∧ (listed → csvTemplates.getListTypeFromSubdomain name = Some name)
  ∧ (inherited →
       ∃ listType, csvTemplates.getListTypeFromSubdomain name = Some listType
                   ∧ csvTemplates.CSV_TEMPLATES !! listType = None)
  ∧ (DomainView.addEntryTableName name = []
     ↔ DomainView.getEntryTableName name = None).
Proof.
  intros listed inherited.
  assert (Hlisted : listed ↔ name ∈ (domains.DOMAIN_CONFIGS ≫= domains.listTypes)).
  { unfold listed. rewrite list_elem_of_bind.
    split; intros (config & ? & ?); by exists config. }
  split; [|split; [|split; [|split; [|split; [|split]]]]].
  - by rewrite Hlisted, getEntryTableName_is_Some.
  - rewrite Hlisted.
    destruct (decide (name ∈ (domains.DOMAIN_CONFIGS ≫= domains.listTypes))) as [Hin|Hnot].
    + rewrite getListTypeFromSubdomain_listed by done. split; [by left|by eexists].
    + rewrite getListTypeFromSubdomain_unlisted by done.
      split; [by right|by intros [?|?]].
  - intros [Hin%Hlisted [text Htext]]. by apply prototype_text in Htext as (_ & _ & _ & _ & _ & ?).
  - by rewrite Hlisted, CSV_TEMPLATES_is_Some.
  - intros Hin%Hlisted. by apply getListTypeFromSubdomain_listed.
  - intros [text Htext]. exists text.
    pose proof (prototype_text _ _ Htext) as (_ & _ & Hnone & _ & _ & Hnot).
    split; [|done]. by rewrite getListTypeFromSubdomain_unlisted.
  - unfold DomainView.addEntryTableName.
    destruct (DomainView.getEntryTableName name) as [table|] eqn:Hlookup; [|done].
    simpl. split; [|done]. intros ->. by apply getEntryTableName_nonempty in Hlookup.
Qed.

Section DownloadSample.

Implicit Types (st : State) (b : csvTemplates.Browser).

(** X15. Asking for the sample changes nothing of the component but the
    toast, and goes one of three ways.  For the list types of the
    catalogue exactly one file is saved, the sample of that list type
    under the template's file name, with the success toast.  For a
    subdomain whose name is that of a member of [Object.prototype]
    nothing is saved and the success toast is shown all the same.
    Otherwise nothing is saved and an error is shown: that the list type
    cannot be determined when the component has no subdomain name, that
    there is no template when the name is unknown. *)
Theorem handleDownloadSample_outcomes (subdomainName : option js_string) st b st' b' :
  handleDownloadSample subdomainName st b = (st', b') →
  st' = withToast (toast st') st
  ∧ ((∃ name template,
        subdomainName = Some name
        ∧ name ∈ (domains.DOMAIN_CONFIGS ≫= domains.listTypes)
        ∧ csvTemplates.CSV_TEMPLATES !! name = Some template
        ∧ csvTemplates.saved b'
            = csvTemplates.saved b
                ++ [(csvTemplates.filename template,
                     csvTemplates.arrayToCSV (csvTemplates.headers template)
                       (csvTemplates.sampleData template))]
        ∧ toast st' = Some {| toastMessage := str "Sample CSV downloaded successfully!";
                              toastType := success |})
     ∨ (∃ name,
          subdomainName = Some name
          ∧ is_Some (JsObject.prototype !! name)
          ∧ b' = b
          ∧ toast st' = Some {| toastMessage := str "Sample CSV downloaded successfully!";
                                toastType := success |})
     ∨ (b' = b
        ∧ (subdomainName = None ∨ subdomainName = Some [])
        ∧ toast st' = Some
            {| toastMessage := str "Unable to determine list type for sample CSV";
               toastType := error |})
     ∨ (∃ name,
          subdomainName = Some name ∧ name ≠ []
          ∧ (name ∉ (domains.DOMAIN_CONFIGS ≫= domains.listTypes))
          ∧ JsObject.prototype !! name = None
          ∧ b' = b
          ∧ toast st' = Some
              {| toastMessage := str "No sample template available for this list type";
                 toastType := error |})).
Proof.
  unfold handleDownloadSample. intros Hrun.
  destruct subdomainName as [[|c name]|].
  - injection Hrun as <- <-. split; [done|]. right. right. left.
    split; [done|]. split; [by right|done].
  - destruct (decide ((c :: name) ∈ (domains.DOMAIN_CONFIGS ≫= domains.listTypes)))
      as [Hin|Hnot].
    + rewrite getListTypeFromSubdomain_listed in Hrun by done.
      injection Hrun as <- <-. split; [done|]. left.
      pose proof (proj2 (CSV_TEMPLATES_is_Some (c :: name)) Hin) as [template Htemplate].
      exists (c :: name), template.
      split; [done|]. split; [done|]. split; [done|]. split; [|done].
      unfold csvTemplates.downloadSampleCSV. by rewrite Htemplate.
    + rewrite getListTypeFromSubdomain_unlisted in Hrun by done.
      destruct (JsObject.prototype !! (c :: name)) as [text|] eqn:Htext.
      * pose proof (prototype_text _ _ Htext) as (Hne & _ & Hnone & _).
        destruct text as [|d text]; [done|].
        unfold csvTemplates.downloadSampleCSV in Hrun. rewrite Hnone in Hrun.
        injection Hrun as <- <-. split; [done|]. right. left.
        exists (c :: name). split; [done|]. split; [by rewrite Htext|done].
      * injection Hrun as <- <-. split; [done|]. right. right. right.
        exists (c :: name). by repeat split.
  - injection Hrun as <- <-. split; [done|]. right. right. left.
    split; [done|]. split; [by left|done].
Qed.

End DownloadSample.


(** ** The shared client *)

(** X17. The request interceptor only ever touches the Authorization
    header: the path, the verb and every other header are kept; running it
    twice changes nothing more; and without a stored token, or with an
    empty one, the configuration is returned as it came. *)
Theorem requestInterceptor_only_adds_token
    (localStorage : gmap js_string js_string) (config : axiosClient.Config) :
  let config' := axiosClient.requestInterceptor localStorage config in
  axiosClient.url config' = axiosClient.url config
  ∧ axiosClient.method config' = axiosClient.method config
  ∧ axiosClient.requestInterceptor localStorage config' = config'
  ∧ (∀ name, name ≠ str "Authorization" →
       (axiosClient.headers config' ≫= (.!! name))
       = (axiosClient.headers config ≫= (.!! name)))
  ∧ (localStorage !! str "sb_token" = None ∨ localStorage !! str "sb_token" = Some []
     → config' = config).
Proof.
  unfold axiosClient.requestInterceptor.
  destruct config as [u m hs]. simpl.
  destruct (localStorage !! str "sb_token") as [token|] eqn:Htoken;
    [|by repeat split].
  destruct hs as [hs|]; [|by repeat split; try (intros [?|?])].
  destruct (decide (token = [])) as [->|Hne]; simpl.
  - by repeat split.
  - split; [done|]. split; [done|]. split; [by rewrite insert_insert_eq|].
    split.
    + intros name Hname. simpl. by rewrite lookup_insert_ne.
    + intros [?|?]; congruence.
Qed.

(** ** The domain catalogue *)

(** X18. A domain is found by its key and only by it: the configuration
    returned has the key asked for and is one of the catalogue; the keys
    listed are exactly those that are found; and for a key that is not
    found the display name falls back to the key itself and there are no
    list types. *)
Theorem getDomainConfig_by_key (k : js_string) :
  (∀ config, domains.getDomainConfig k = Some config →
     domains.key config = k ∧ config ∈ domains.DOMAIN_CONFIGS
     ∧ domains.getDomainDisplayName k = domains.displayName config
     ∧ domains.getListTypesForDomain k = domains.listTypes config)
  ∧ (k ∈ domains.getDomainKeys ↔ is_Some (domains.getDomainConfig k))
  ∧ (domains.getDomainConfig k = None →
       domains.getDomainDisplayName k = k ∧ domains.getListTypesForDomain k = []).
Proof.
  unfold domains.getDomainDisplayName, domains.getListTypesForDomain,
    domains.getDomainKeys, domains.getDomainConfig.
  split; [|split].
  - intros config Hfind. rewrite Hfind.
    apply find_some in Hfind as [Hin Hkey].
    apply bool_decide_eq_true in Hkey. by rewrite <- list_elem_of_In in Hin.
  - split.
    + intros Hk. apply list_elem_of_fmap in Hk as (config & -> & Hconfig).
      destruct (List.find _ domains.DOMAIN_CONFIGS) as [found|] eqn:Hfind; [by eexists|].
      apply list_elem_of_In in Hconfig.
      pose proof (find_none _ _ Hfind config Hconfig) as Hkey. simpl in Hkey.
      by rewrite bool_decide_eq_false in Hkey.
    + intros [config Hfind]. apply find_some in Hfind as [Hin Hkey].
      apply bool_decide_eq_true in Hkey. subst k.
      apply list_elem_of_fmap_2. by apply list_elem_of_In.
  - by intros ->.
Qed.

(** X19. Migrating a domain name is idempotent, sends each old name to a key
    of the catalogue, and leaves every key of the catalogue as it is. *)
Theorem migrateDomainName_idempotent (name : js_string) :
  domains.migrateDomainName (domains.migrateDomainName name)
    = domains.migrateDomainName name
  ∧ (is_Some (domains.DOMAIN_MIGRATION_MAP !! name) →
       domains.migrateDomainName name ∈ domains.getDomainKeys)
  ∧ (name ∈ domains.getDomainKeys → domains.migrateDomainName name = name).
Proof.
  assert (Hold : ∀ new, domains.DOMAIN_MIGRATION_MAP !! name = Some new →
            new ∈ domains.getDomainKeys ∧ domains.migrateDomainName new = new
            ∧ domains.migrateDomainName name = new).
  { intros new Hlookup. unfold domains.migrateDomainName at 2, JsObject.get.
    rewrite Hlookup.
    unfold domains.DOMAIN_MIGRATION_MAP in Hlookup.
    apply elem_of_list_to_map_2 in Hlookup.
    repeat (apply elem_of_cons in Hlookup as [[= -> ->]|Hlookup];
            [split; [apply (bool_decide_unpack _); by vm_compute|];
             split; by vm_compute|]).
    by apply elem_of_nil in Hlookup. }
  split; [|split].
  - destruct (domains.DOMAIN_MIGRATION_MAP !! name) as [new|] eqn:Hlookup.
    + destruct (Hold new eq_refl) as (_ & Hnew & ->). exact Hnew.
    + assert (Hget : ∀ key, domains.DOMAIN_MIGRATION_MAP !! key = None →
                JsObject.prototype !! key = None →
                domains.migrateDomainName key = key).
      { intros key Hown Hinherited.
        unfold domains.migrateDomainName, JsObject.get. by rewrite Hown, Hinherited. }
      destruct (JsObject.prototype !! name) as [text|] eqn:Htext.
      * pose proof (prototype_text _ _ Htext) as (Hne & Hnone & _ & Hmap & _).
        assert (Hname : domains.migrateDomainName name = text).
        { unfold domains.migrateDomainName, JsObject.get. rewrite Hlookup, Htext.
          by destruct text. }
        rewrite Hname. by apply Hget.
      * rewrite (Hget name) by done. by apply Hget.
  - intros [new Hlookup]. by destruct (Hold new Hlookup) as (? & _ & ->).
  - intros Hkey. unfold domains.getDomainKeys, domains.DOMAIN_CONFIGS in Hkey.
    simpl in Hkey.
    repeat (apply elem_of_cons in Hkey as [->|Hkey]; [by vm_compute|]).
    by apply elem_of_nil in Hkey.
Qed.

(** ** Selecting rows in the domain view *)

Section Selection.

Context {Value : Type} `{EqDecision Value}.

Implicit Types (s : list (option Value)) (id : option Value).

Lemma ofArray_foldl (array : list (option Value)) s :
  NoDup s →
  let result := foldl (λ s x, DomainView.JsSet.add x s) s array in
  NoDup result ∧ ∀ x, x ∈ result ↔ x ∈ s ∨ x ∈ array.
Proof.
  revert s. induction array as [|a array IH]; intros s Hs; simpl.
  - split; [done|]. intros x. split; [by left|]. intros [?|Hnil]; [done|].
    by apply elem_of_nil in Hnil.
  - unfold DomainView.JsSet.add at 2 4. destruct (decide (a ∈ s)) as [Hin|Hnotin].
    + destruct (IH s Hs) as [Hnodup Helem]. split; [done|].
      intros x. rewrite Helem, elem_of_cons. split; [tauto|].
      intros [?|[->|?]]; tauto.
    + assert (Hs' : NoDup (s ++ [a])).
      { apply NoDup_app. split; [done|]. split; [|apply NoDup_singleton].
        intros x Hx ->%list_elem_of_singleton. done. }
      destruct (IH _ Hs') as [Hnodup Helem]. split; [done|].
      intros x. rewrite Helem, elem_of_app, list_elem_of_singleton, elem_of_cons. tauto.
Qed.

Lemma ofArray_NoDup (array : list (option Value)) :
  NoDup array → DomainView.JsSet.ofArray array = array.
Proof.
  unfold DomainView.JsSet.ofArray.
  assert (Hgen : ∀ s, NoDup (s ++ array) →
            foldl (λ s x, DomainView.JsSet.add x s) s array = s ++ array).
  { induction array as [|a array IH]; intros s Hs; simpl; [by rewrite app_nil_r|].
    unfold DomainView.JsSet.add at 2. rewrite decide_False.
    - rewrite IH; [by rewrite <- app_assoc|]. by rewrite <- app_assoc.
    - apply NoDup_app in Hs as (_ & Hdisjoint & _). intros Hin.
      apply (Hdisjoint a Hin). by left. }
  intros Harray. by apply (Hgen []).
Qed.

(** X20. Ticking a row toggles it and nothing else: afterwards the row is
    selected exactly if it was not before, every other row is as before,
    and the selection still has no repeated element. *)
Theorem handleToggleEntry_toggles id s :
  NoDup s →
  NoDup (DomainView.handleToggleEntry id s)
  ∧ (id ∈ DomainView.handleToggleEntry id s ↔ id ∉ s)
  ∧ (∀ other, other ≠ id → other ∈ DomainView.handleToggleEntry id s ↔ other ∈ s)
  ∧ ∀ x, x ∈ DomainView.handleToggleEntry id (DomainView.handleToggleEntry id s) ↔ x ∈ s.
Proof.
  intros Hs.
  assert (Hone : ∀ s', NoDup s' →
            NoDup (DomainView.handleToggleEntry id s')
            ∧ (id ∈ DomainView.handleToggleEntry id s' ↔ id ∉ s')
            ∧ (∀ other, other ≠ id →
                 other ∈ DomainView.handleToggleEntry id s' ↔ other ∈ s')).
  { intros s' Hs'. unfold DomainView.handleToggleEntry, DomainView.JsSet.delete,
      DomainView.JsSet.add.
    destruct (decide (id ∈ s')) as [Hin|Hnotin].
    - split; [by apply NoDup_filter|]. split.
      + rewrite list_elem_of_filter. split; [by intros [? _]|done].
      + intros other Hne. rewrite list_elem_of_filter. split; [by intros [_ ?]|done].
    - split; [|split].
      + apply NoDup_app. split; [done|]. split; [|apply NoDup_singleton].
        intros x Hx ->%list_elem_of_singleton. done.
      + rewrite elem_of_app, list_elem_of_singleton. split; [done|]. intros _. by right.
      + intros other Hne. rewrite elem_of_app, list_elem_of_singleton.
        split; [by intros [?|?]|by left]. }
  destruct (Hone s Hs) as (Hnodup & Hid & Hother).
  split; [done|]. split; [done|]. split; [done|].
  destruct (Hone _ Hnodup) as (_ & Hid' & Hother').
  intros x. destruct (decide (x = id)) as [->|Hne].
  - rewrite Hid', Hid. destruct (decide (id ∈ s)) as [Hin|Hnotin].
    + split; [done|]. intros _ Hnn. by apply Hnn.
    + split; [|done]. intros Hnn. by destruct Hnn.
  - by rewrite Hother', Hother.
Qed.

(** X21. With rows whose ids are pairwise distinct, the select-all box
    alternates: pressed while not all rows are selected it selects exactly
    the ids of the rows shown, in their order, and pressed again it clears
    the selection; for a subdomain without entry table it does nothing. *)
Theorem handleSelectAll_alternates (subdomainName tableName : js_string)
    (entries : list (list (js_string * Value))) s :
  DomainView.getEntryTableName subdomainName = Some tableName →
  NoDup (map (λ e, DomainView.getEntryId e tableName) entries) →
  length s ≠ length entries →
  DomainView.handleSelectAll subdomainName entries s
    = map (λ e, DomainView.getEntryId e tableName) entries
  ∧ DomainView.handleSelectAll subdomainName entries
      (DomainView.handleSelectAll subdomainName entries s) = [].
Proof.
  intros Htable Hids Hlen.
  assert (Hnonempty : ∃ c t, tableName = c :: t).
  { destruct tableName as [|c t]; [|by eexists _, _].
    by apply getEntryTableName_nonempty in Htable. }
  destruct Hnonempty as (c & t & ->).
  assert (Hfirst : DomainView.handleSelectAll subdomainName entries s
                   = map (λ e, DomainView.getEntryId e (c :: t)) entries).
  { unfold DomainView.handleSelectAll. rewrite Htable.
    rewrite (proj2 (Nat.eqb_neq _ _)) by done. by apply ofArray_NoDup. }
  split; [done|]. rewrite Hfirst. unfold DomainView.handleSelectAll. rewrite Htable.
  by rewrite length_map, Nat.eqb_refl.
Qed.

Lemma handleSelectAll_unknown (subdomainName : js_string)
    (entries : list (list (js_string * Value))) s :
  DomainView.getEntryTableName subdomainName = None →
  DomainView.handleSelectAll subdomainName entries s = s.
Proof. intros Htable. unfold DomainView.handleSelectAll. by rewrite Htable. Qed.

(** X22. The manual form opened from the domain view has one empty field for
    each property of the first row shown, the bookkeeping ones ([entry_id],
    [version_id], [created_at], [id]) left out, as well as one named
    [__proto__], for which nothing is stored; it has no other field; with
    no row shown it has no field at all. *)
Theorem manual_form_columns (entries : list (list (js_string * Value)))
    (st : State) (column : js_string) :
  (formData (handleManualAdd (DomainView.getColumnNames entries) st) !! column = Some []
   ↔ ∃ first rest,
       entries = first :: rest ∧ column ∈ map fst first
       ∧ column ∉ [str "entry_id"; str "version_id"; str "created_at"; str "id";
                   str "__proto__"])
  ∧ (formData (handleManualAdd (DomainView.getColumnNames entries) st) !! column = None
     ∨ formData (handleManualAdd (DomainView.getColumnNames entries) st) !! column
       = Some [])
  ∧ (entries = [] →
     formData (handleManualAdd (DomainView.getColumnNames entries) st) = ∅).
Proof.
  assert (Hdata : formData (handleManualAdd (DomainView.getColumnNames entries) st) !! column
            = if decide (column ∈ DomainView.getColumnNames entries
                         ∧ column ≠ JsObject.PROTO) then Some [] else None).
  { simpl. by rewrite initialData_lookup, lookup_empty. }
  split; [|split].
  - rewrite Hdata. destruct entries as [|first rest]; simpl.
    + split; [|by intros (? & ? & ? & _)].
      by destruct (decide (column ∈ [] ∧ column ≠ JsObject.PROTO))
        as [[?%elem_of_nil _]|].
    + destruct (decide _) as [[Hin Hproto]|Hnotin].
      * split; [intros _|done]. apply list_elem_of_filter in Hin as [Hkept Hfirst].
        exists first, rest. split; [done|]. split; [done|].
        intros Hmember. apply Hkept.
        repeat (apply elem_of_cons in Hmember as [->|Hmember];
                [first [done | apply (bool_decide_unpack _); by vm_compute]|]).
        by apply elem_of_nil in Hmember.
      * split; [done|]. intros (first' & rest' & [= <- <-] & Hfirst & Hkept).
        destruct Hnotin. split.
        -- apply list_elem_of_filter. split; [|done]. intros Hmember. apply Hkept.
           repeat (apply elem_of_cons in Hmember as [->|Hmember];
                   [apply (bool_decide_unpack _); by vm_compute|]).
           by apply elem_of_nil in Hmember.
        -- intros ->. apply Hkept. apply (bool_decide_unpack _). by vm_compute.
  - rewrite Hdata. destruct (decide _); [by right|by left].
  - by intros ->.
Qed.

(** ** Loading the rows of a subdomain *)

Context {Backend : Type}.
Variable serve :
  Backend → axiosClient.Config
  → Backend * Settled (axiosClient.Response (list (list (js_string * Value)))).
Variable defaults : gmap js_string js_string.

(** X23. Loading the entries issues at most one request, a [get] of the
    path [/api/] followed by what the table lookup gives, and none at all
    when no subdomain is selected or when the lookup gives nothing: the
    name is then neither a list type of the catalogue nor the name of a
    member of [Object.prototype], the table is emptied and the unknown
    type is reported. Rows are shown only when they came with an answer
    in 200-299; any failure empties the table and shows an error. The
    loading flag is never left on. *)
Theorem fetchEntries_outcomes
    (st st' : DomainView.State)
    (w w' : axiosClient.World Backend (list (list (js_string * Value)))) :
  DomainView.fetchEntries serve defaults st w = (st', w') →
  (DomainView.selectedSubdomain st ≠ None → DomainView.entriesLoading st' = false)
  ∧ DomainView.selectedEntries st' = DomainView.selectedEntries st
  ∧ ((w' = w ∧ DomainView.entries st' = []
      ∧ (DomainView.selectedSubdomain st = None
         ∨ ∃ subdomain,
             DomainView.selectedSubdomain st = Some subdomain
             ∧ DomainView.getEntryTableName (DomainView.subdomain_name subdomain) = None
             ∧ (DomainView.subdomain_name subdomain
                  ∉ (domains.DOMAIN_CONFIGS ≫= domains.listTypes))
             ∧ JsObject.prototype !! DomainView.subdomain_name subdomain = None
             ∧ DomainView.toast st' = Some
                 {| toastMessage :=
                      str "Unknown subdomain type: "
                        ++ DomainView.subdomain_name subdomain;
                    toastType := error |}))
     ∨ ∃ subdomain tableName config outcome,
         DomainView.selectedSubdomain st = Some subdomain
         ∧ DomainView.getEntryTableName (DomainView.subdomain_name subdomain)
           = Some tableName
         ∧ axiosClient.sent w' = axiosClient.sent w ++ [(config, outcome)]
         ∧ axiosClient.url config = str "/api/" ++ tableName
         ∧ axiosClient.method config = str "get"
         ∧ ((∃ response,
               outcome = Resolved response
               ∧ (200 ≤ axiosClient.status response < 300)%N
               ∧ DomainView.entries st' = default [] (axiosClient.data response)
               ∧ DomainView.toast st' = DomainView.toast st)
            ∨ (DomainView.entries st' = []
               ∧ DomainView.toast st' = Some
                   {| toastMessage := str "Failed to load entries. Please try again.";
                      toastType := error |}))).
Proof.
  unfold DomainView.fetchEntries. intros Hrun.
  destruct (DomainView.selectedSubdomain st) as [subdomain|] eqn:Hselected.
  2:{ injection Hrun as <- <-. split; [done|]. split; [done|]. left. by repeat split; eauto. }
  destruct (DomainView.getEntryTableName (DomainView.subdomain_name subdomain))
    as [[|c tableName]|] eqn:Htable.
  - exfalso. by apply getEntryTableName_nonempty in Htable.
  - destruct (axiosClient.request serve defaults (str "get") (str "/api/" ++ c :: tableName) w)
      as [w1 outcome1] eqn:Hrequest.
    assert (Hsent : ∃ config outcome,
              axiosClient.sent w1 = axiosClient.sent w ++ [(config, outcome)]
              ∧ axiosClient.url config = str "/api/" ++ c :: tableName
              ∧ axiosClient.method config = str "get"
              ∧ ∀ response, outcome1 = Resolved response →
                  outcome = Resolved response
                  ∧ (200 ≤ axiosClient.status response < 300)%N).
    { unfold axiosClient.request in Hrequest.
      set (config := axiosClient.requestInterceptor _ _) in Hrequest.
      assert (Hconfig : axiosClient.url config = str "/api/" ++ c :: tableName
                        ∧ axiosClient.method config = str "get").
      { unfold config, axiosClient.requestInterceptor. simpl.
        destruct (axiosClient.localStorage w !! str "sb_token") as [token|]; [|done].
        by destruct (decide (token = [])). }
      destruct Hconfig as [Hurl Hmethod].
      destruct (serve (axiosClient.backend w) config) as [b outcome] eqn:Hserve.
      exists config, outcome. destruct outcome as [response|e].
      - destruct (axiosClient.validateStatus (axiosClient.status response)) eqn:Hvalid;
          injection Hrequest as <- <-;
          (split; [done|]); (split; [done|]); (split; [done|]);
          intros response' Heq; [|done].
        injection Heq as <-. split; [done|].
        unfold axiosClient.validateStatus in Hvalid.
        by apply andb_true_iff in Hvalid as [?%N.leb_le ?%N.ltb_lt].
      - injection Hrequest as <- <-.
        split; [done|]. split; [done|]. split; [done|]. by intros response' Heq. }
    destruct Hsent as (config & outcome & Hsent & Hurl & Hmethod & Hresolved).
    destruct outcome1 as [response|e]; injection Hrun as <- <-;
      (split; [done|]); (split; [done|]); right;
      exists subdomain, (c :: tableName), config, outcome;
      (split; [done|]); (split; [done|]); (split; [done|]); (split; [done|]);
      (split; [done|]).
    + left. exists response. destruct (Hresolved response eq_refl) as [-> Hrange].
      split; [done|]. split; [done|]. by split.
    + by right.
  - injection Hrun as <- <-. split; [done|]. split; [done|]. left.
    split; [done|]. split; [done|]. right. exists subdomain.
    assert (Hunknown : ¬ is_Some (DomainView.getEntryTableName
                                    (DomainView.subdomain_name subdomain)))
      by (rewrite Htable; by intros [? ?]).
    rewrite getEntryTableName_is_Some in Hunknown.
    split; [done|]. split; [done|]. split; [by intros ?; apply Hunknown; left|].
    split; [|done]. apply eq_None_not_Some. by intros ?; apply Hunknown; right.
Qed.

End Selection.

(** ** The further properties at concrete inputs *)

(** A blank line of spaces in the middle, at the end and at the start. *)
Lemma parseCsvText_blank_lines_ignored_witness :
  parseCsvText (str "a,b" ++ Js.LF :: str "  " ++ Js.LF :: str "1,2")
    = parseCsvText (str "a,b" ++ Js.LF :: str "1,2").
Proof.
  apply (parseCsvText_blank_lines_ignored (str "a,b") (str "  ") (str "1,2")).
  vm_compute. reflexivity.
Defined.

(** A row whose second cell holds a comma comes back with four fields. *)
Lemma splitFields_join_length_witness :
  length (splitFields (Js.join [Js.COMMA] [str "HCP1"; str "Kumar, Rajesh"; str "A"]))
    = 4%nat.
Proof.
  rewrite (splitFields_join_length [str "HCP1"; str "Kumar, Rajesh"; str "A"]).
  - vm_compute. reflexivity.
  - discriminate.
Defined.

(** A two-column table with two rows. *)
Lemma parseCsvText_arrayToCSV_witness :
  ∃ records record,
    parseCsvText
      (csvTemplates.arrayToCSV [str "hcp_id"; str "hcp_name"]
         [[str "HCP1"; str "Dr. A"]; [str "HCP2"; str "Dr. B"]])
    = Resolved records
    ∧ length records = 2%nat
    ∧ records !! 1%nat = Some record
    ∧ record !! str "hcp_id" = Some (str "HCP2")
    ∧ record !! str "hcp_name" = Some (str "Dr. B").
Proof.
  destruct (parseCsvText_arrayToCSV [str "hcp_id"; str "hcp_name"]
              [[str "HCP1"; str "Dr. A"]; [str "HCP2"; str "Dr. B"]])
    as (records & Hparse & Hlen & Hrows).
  - discriminate.
  - apply (bool_decide_unpack _). vm_compute. exact I.
  - apply (bool_decide_unpack _). vm_compute. exact I.
  - apply (bool_decide_unpack _). vm_compute. exact I.
  - destruct (Hrows 1%nat [str "HCP2"; str "Dr. B"] eq_refl)
      as (record & Hrecord & _ & Hcells).
    exists records, record. split; [exact Hparse|]. split; [exact Hlen|].
    split; [exact Hrecord|]. split.
    + apply (Hcells 0%nat (str "hcp_id")). reflexivity.
    + apply (Hcells 1%nat (str "hcp_name")). reflexivity.
Defined.

(** Under the header [a,b,c], with blank lines in between, the line [1]
    leaves [b] and [c] empty and the line [1,2,3,4] loses its fourth
    field. *)
Lemma parseCsvText_rows_of_lines_witness :
  ∃ rows short long,
    parseCsvText (str "a,b,c" ++ [Js.LF] ++ str "  " ++ [Js.LF] ++ str "1"
                  ++ [Js.LF; Js.LF] ++ str "1,2,3,4") = Resolved rows
    ∧ length rows = 2%nat
    ∧ rows !! 0%nat = Some short ∧ rows !! 1%nat = Some long
    ∧ short !! str "a" = Some (str "1") ∧ short !! str "c" = Some []
    ∧ long !! str "c" = Some (str "3")
    ∧ ∀ key, is_Some (long !! key) → key ∈ [str "a"; str "b"; str "c"].
Proof.
  destruct (parseCsvText_rows_of_lines
              [str "a,b,c"; str "  "; str "1"; []; str "1,2,3,4"]
              (str "a,b,c") [str "1"; str "1,2,3,4"])
    as (rows & Hparse & Hlen & Hrows).
  - apply (bool_decide_unpack _). vm_compute. exact I.
  - vm_compute. reflexivity.
  - discriminate.
  - destruct (Hrows 0%nat (str "1") eq_refl) as (short & Hshort & _ & Hcells).
    destruct (Hrows 1%nat (str "1,2,3,4") eq_refl) as (long & Hlong & Hkeys & Hcells').
    assert (Hlast : ∀ (j : nat) (header : js_string),
              [str "a"; str "b"; str "c"] !! j = Some header →
              ∀ j', (j < j')%nat → Reading.fields (str "a,b,c") !! j' ≠ Some header).
    { intros j header Hj j' Hlt.
      destruct j as [|[|[|j]]]; [| | |discriminate]; injection Hj as <-;
        (destruct j' as [|[|[|j']]]; [lia|..]); first [lia | vm_compute; discriminate]. }
    exists rows, short, long. split; [exact Hparse|]. split; [exact Hlen|].
    split; [exact Hshort|]. split; [exact Hlong|]. split; [|split; [|split]].
    + apply (Hcells 0%nat (str "a")); [reflexivity|discriminate|by apply Hlast].
    + apply (Hcells 2%nat (str "c")); [reflexivity|discriminate|by apply Hlast].
    + apply (Hcells' 2%nat (str "c")); [reflexivity|discriminate|by apply Hlast].
    + intros key Hkey. by apply Hkeys in Hkey as [? _].
Defined.


(** A save the backend answers with status 500 and a detail message. *)
Lemma handleSave_outcomes_witness :
  let st := Scenario.manualEntry [("hcp_id", "HCP1")] in
  let run :=
    handleSave Scenario.scripted (str "call_list_entries") st
      (Scenario.world
         [Resolved {| status := 500;
                      json := Resolved {| detail := Some (str "duplicate key");
                                          items_added := None |} |}]) in
  run.2 = Resolved tt ∧ isSaving run.1.1 = false.
Proof.
  intros st run.
  destruct (handleSave_outcomes Scenario.scripted (str "call_list_entries") st
              (Scenario.world
                 [Resolved {| status := 500;
                              json := Resolved {| detail := Some (str "duplicate key");
                                                  items_added := None |} |}])
              run.1.1 run.1.2 run.2) as (Hresult & Hsaving & _).
  - vm_compute. reflexivity.
  - by split.
Defined.

(** A form with one filled and one blank column: the record sent holds the
    filled one only. *)
Lemma handleSave_sends_non_blank_fields_witness :
  let st := Scenario.manualEntry [("hcp_id", "HCP1"); ("hcp_name", " ")] in
  let run :=
    handleSave Scenario.scripted (str "call_list_entries") st
      (Scenario.world [Scenario.answer 200]) in
  ∃ request outcome dataToSend,
    trace run.1.2 = [(request, outcome)]
    ∧ body request = JsonBody dataToSend
    ∧ dataToSend !! str "hcp_id" = Some (str "HCP1")
    ∧ dataToSend !! str "hcp_name" = None.
Proof.
  intros st run.
  set (request := createRequest (str "call_list_entries") {[ str "hcp_id" := str "HCP1" ]}).
  destruct (handleSave_sends_non_blank_fields Scenario.scripted (str "call_list_entries")
              st (Scenario.world [Scenario.answer 200]) run.1.1 run.1.2 run.2
              request (Scenario.answer 200))
    as (_ & _ & dataToSend & Hbody & _ & Hfields).
  - vm_compute. reflexivity.
  - vm_compute. constructor.
  - exists request, (Scenario.answer 200), dataToSend.
    split; [vm_compute; reflexivity|]. split; [exact Hbody|]. split.
    + apply Hfields. split; [vm_compute; reflexivity|vm_compute; discriminate].
    + apply eq_None_not_Some. intros [value Hvalue].
      apply Hfields in Hvalue as [Hform Htrim].
      vm_compute in Hform. injection Hform as <-. by vm_compute in Htrim.
Defined.

(** Typing a name into a fresh form and saving. *)
Lemma handleInputChange_then_save_witness :
  ∃ st' w' dataToSend outcome,
    handleSave Scenario.scripted (str "call_list_entries")
      (handleInputChange (str "hcp_name") (str "Dr. A")
         (handleManualAdd [str "hcp_id"; str "hcp_name"] initialState))
      (Scenario.world [Scenario.answer 200])
    = (st', w', Resolved tt)
    ∧ trace w' = [(createRequest (str "call_list_entries") dataToSend, outcome)]
    ∧ dataToSend !! str "hcp_name" = Some (str "Dr. A").
Proof.
  destruct (handleInputChange_then_save Scenario.scripted (str "call_list_entries")
              (str "hcp_name") (str "Dr. A")
              (handleManualAdd [str "hcp_id"; str "hcp_name"] initialState)
              (Scenario.world [Scenario.answer 200]))
    as (st' & w' & dataToSend & outcome & Hrun & Htrace & Hvalue & _).
  - vm_compute. discriminate.
  - exists st', w', dataToSend, outcome.
    split; [exact Hrun|]. split; [exact Htrace|exact Hvalue].
Defined.

(** Three parsed rows, one blank, one refused by the backend. *)
Lemma handleCsvUpload_counts_every_row_witness :
  let file := Scenario.csvFile
                ("a,b" +:+ Scenario.LF +:+ "1,2" +:+ Scenario.LF +:+ " , "
                 +:+ Scenario.LF +:+ "3,4") in
  let run :=
    handleCsvUpload Scenario.scripted (str "call_list_entries") None
      (Scenario.csvEntry file)
      (Scenario.world [Scenario.answer 201; Scenario.answer 422]) in
  ∃ t sent,
    trace run.1.2 = sent ∧ length sent = 2%nat
    ∧ toast run.1.1 = Some (completionToast t)
    ∧ (successCount t + errorCount t)%nat = 3%nat.
Proof.
  intros file run.
  destruct (handleCsvUpload_counts_every_row Scenario.scripted (str "call_list_entries")
              None (Scenario.csvEntry file)
              (Scenario.world [Scenario.answer 201; Scenario.answer 422])
              file (Scenario.rowsOf file) run.1.1 run.1.2 run.2)
    as (t & sent & _ & Htrace & Htoast & Hsum & _).
  - by left.
  - reflexivity.
  - vm_compute. reflexivity.
  - vm_compute. reflexivity.
  - exists t, sent. split; [exact Htrace|]. split.
    + assert (Hlen : length (trace run.1.2) = 2%nat) by (vm_compute; reflexivity).
      rewrite Htrace in Hlen. exact Hlen.
    + split; [exact Htoast|exact Hsum].
Defined.

(** A file holding a header only. *)
Lemma handleCsvUpload_rejected_file_witness :
  let file := Scenario.csvFile "hcp_id,hcp_name" in
  ∃ st',
    handleCsvUpload Scenario.scripted (str "call_list_entries") None
      (Scenario.csvEntry file) (Scenario.world [Scenario.answer 200])
    = (st', Scenario.world [Scenario.answer 200], Resolved tt)
    ∧ selectedFile st' = Some file ∧ isAdding st' = true.
Proof.
  intros file.
  destruct (handleCsvUpload_rejected_file Scenario.scripted (str "call_list_entries")
              None (Scenario.csvEntry file) (Scenario.world [Scenario.answer 200]) file)
    as (st' & e & Hrun & _ & _ & _ & Hadding & _ & Hfile & _).
  - by left.
  - reflexivity.
  - right. exists (str "hcp_id,hcp_name"). split; [reflexivity|vm_compute; lia].
  - exists st'. split; [exact Hrun|]. split; [exact Hfile|]. rewrite Hadding. reflexivity.
Defined.

(** An upload scoped to list 7, the backend reporting three items. *)
Lemma handleCsvUpload_list_scoped_witness :
  let run :=
    handleCsvUpload Scenario.scripted (str "call_list_entries") (Some 7)
      (Scenario.csvEntry (Scenario.csvFile Scenario.twoRows))
      (Scenario.world
         [Resolved {| status := 200;
                      json := Resolved {| detail := None; items_added := Some 3 |} |}]) in
  run.2 = Resolved tt ∧ isUploading run.1.1 = false
  ∧ map (λ entry, (url entry.1, method entry.1, body entry.1)) (trace run.1.2)
    = [(str "http://localhost:8000/api/lists/7/upload-csv", str "POST",
        FormDataBody (Scenario.csvFile Scenario.twoRows))].
Proof.
  intros run.
  destruct (handleCsvUpload_list_scoped Scenario.scripted (str "call_list_entries") 7
              (Scenario.csvEntry (Scenario.csvFile Scenario.twoRows))
              (Scenario.world
                 [Resolved {| status := 200;
                              json := Resolved {| detail := None;
                                                  items_added := Some 3 |} |}])
              (Scenario.csvFile Scenario.twoRows) run.1.1 run.1.2 run.2)
    as (Hresult & Huploading & request & outcome & Htrace & Hurl & Hmethod & _ & Hbody & _).
  - vm_compute. reflexivity.
  - reflexivity.
  - vm_compute. reflexivity.
  - split; [exact Hresult|]. split; [exact Huploading|].
    rewrite Htrace. simpl. rewrite Hurl, Hmethod, Hbody. vm_compute. reflexivity.
Defined.

(** The sample of the call lists, asked for from the component. *)
Lemma handleDownloadSample_outcomes_witness :
  let run :=
    handleDownloadSample (Some (str "Call Lists")) initialState
      {| csvTemplates.saved := [] |} in
  run.1 = withToast (toast run.1) initialState.
Proof.
  intros run.
  destruct (handleDownloadSample_outcomes (Some (str "Call Lists")) initialState
              {| csvTemplates.saved := [] |} run.1 run.2) as [Hstate _].
  - vm_compute. reflexivity.
  - exact Hstate.
Defined.

(** Ticking row 9 in a selection holding row 7. *)
Lemma handleToggleEntry_toggles_witness :
  Some 9 ∈ DomainView.handleToggleEntry (Some 9) [Some 7]
  ∧ NoDup (DomainView.handleToggleEntry (Some 9) [Some 7]).
Proof.
  destruct (handleToggleEntry_toggles (Some 9) [Some 7]) as (Hnodup & Hid & _).
  - apply (bool_decide_unpack _). vm_compute. exact I.
  - split; [|exact Hnodup]. apply Hid. apply (bool_decide_unpack _). vm_compute. exact I.
Defined.

(** The select-all box over the two rows of the call list table. *)
Lemma handleSelectAll_alternates_witness :
  DomainView.handleSelectAll (str "Call Lists") Scenario.callListEntries []
    = [Some (inl 7); Some (inl 9)].
Proof.
  destruct (handleSelectAll_alternates (str "Call Lists") (str "call_list_entries")
              Scenario.callListEntries []) as [Hall _].
  - vm_compute. reflexivity.
  - apply (bool_decide_unpack _). vm_compute. exact I.
  - vm_compute. discriminate.
  - rewrite Hall. vm_compute. reflexivity.
Defined.

(** Loading the rows of a subdomain the lookup does not know. *)
Lemma fetchEntries_outcomes_witness :
  let run :=
    DomainView.fetchEntries Scenario.axiosScripted ∅
      (Scenario.domainView "Speaker Bureau Lists")
      (Scenario.axiosWorld
         [Resolved {| axiosClient.status := 200;
                      axiosClient.data := Some Scenario.callListEntries |}]) in
  DomainView.entriesLoading run.1 = false
  ∧ DomainView.selectedEntries run.1 = [].
Proof.
  intros run.
  destruct (fetchEntries_outcomes Scenario.axiosScripted ∅
              (Scenario.domainView "Speaker Bureau Lists") run.1
              (Scenario.axiosWorld
                 [Resolved {| axiosClient.status := 200;
                              axiosClient.data := Some Scenario.callListEntries |}])
              run.2) as (Hloading & Hselected & _).
  - vm_compute. reflexivity.
  - split; [by apply Hloading|exact Hselected].
Defined.

(** A save nothing comes in between: the click, the answer, the body. *)
Lemma uninterrupted_handler_runs_to_completion_witness :
  let c :=
    {| Component.state := Scenario.manualEntry [("hcp_id", "HCP1")];
       Component.world := Scenario.world [Scenario.answer 200];
       Component.browser := {| csvTemplates.saved := [] |} |} in
  Interleaved.runAll Scenario.scripted Scenario.callListProps
    [Interleaved.User Component.Save; Interleaved.Resume 0; Interleaved.Resume 0]
    (Interleaved.withSuspended [] c)
  = Interleaved.withSuspended []
      (Component.dispatch Scenario.scripted Scenario.callListProps c Component.Save).
Proof.
  intros c.
  apply (uninterrupted_handler_runs_to_completion Scenario.scripted
           Scenario.callListProps c [] Component.Save 2).
  - lia.
  - intros file rows Hfile. vm_compute in Hfile. discriminate.
Defined.

(** Typing while a save waits for its answer: between the two events the
    saving flag is on, and a [handleSave] is indeed suspended. *)
Lemma component_flags_follow_handlers_witness :
  let c :=
    Interleaved.runAll Scenario.scripted Scenario.callListProps
      [Interleaved.User Component.ManualAdd;
       Interleaved.User (Component.InputChange (str "hcp_id") (str "HCP1"));
       Interleaved.User Component.Save;
       Interleaved.User (Component.InputChange (str "hcp_name") (str "Dr. A"))]
      (Interleaved.mounted (Scenario.world [Scenario.answer 200])) in
  isSaving (Interleaved.state c) = true
  ∧ ∃ task, task ∈ Interleaved.suspended c
            ∧ Interleaved.handlerOf task = Interleaved.Saving.
Proof.
  intros c.
  destruct (component_flags_follow_handlers Scenario.scripted Scenario.callListProps
              [Interleaved.User Component.ManualAdd;
               Interleaved.User (Component.InputChange (str "hcp_id") (str "HCP1"));
               Interleaved.User Component.Save;
               Interleaved.User (Component.InputChange (str "hcp_name") (str "Dr. A"))]
              (Scenario.world [Scenario.answer 200])) as (Hsaving & _).
  split; [vm_compute; reflexivity|]. apply Hsaving. vm_compute. reflexivity.
Defined.

(** ** The corner inputs, evaluated *)

(** Below 2^53 a number is printed digit by digit. *)
Lemma ofNumber_safe (n : N) : n < 2 ^ 53 → Js.ofNumber n = str (pretty n).
Proof.
  intros Hn. unfold Js.ofNumber, Js.toDouble.
  by rewrite (proj2 (N.ltb_lt _ _) Hn), (proj2 (N.ltb_lt _ _) Hn).
Qed.

(** Beyond, it is printed as a double is. *)
Example ofNumber_large :
  Js.ofNumber (2 ^ 53 + 1) = str "9007199254740992"
  ∧ Js.ofNumber (2 ^ 60) = str "1152921504606847000"
  ∧ Js.ofNumber (10 ^ 21 - 1) = str "1e+21"
  ∧ Js.ofNumber (10 ^ 21) = str "1e+21"
  ∧ Js.ofNumber (2 ^ 70) = str "1.1805916207174113e+21"
  ∧ Js.ofNumber (2 ^ 1024) = str "Infinity".
Proof. by vm_compute. Qed.

(** A list id of 10^21 in the path of the upload. *)
Example uploadRequest_large_listId :
  url (uploadRequest (10 ^ 21) (Scenario.csvFile Scenario.twoRows))
  = str "http://localhost:8000/api/lists/1e+21/upload-csv".
Proof. by vm_compute. Qed.

(** Repeated headers: the last column of the name wins. *)
Example buildRow_repeated_header :
  buildRow [str "a"; str "a"] [str "1"; str "2"] = {[ str "a" := str "2" ]}.
Proof. by vm_compute. Qed.

(** A column named [__proto__] gets no field in the manual form. *)
Example handleManualAdd_proto_column :
  formData (handleManualAdd [str "hcp_id"; str "__proto__"] initialState)
  = {[ str "hcp_id" := [] ]}.
Proof. by vm_compute. Qed.

(** Typing into such a column does create the field. *)
Example handleInputChange_proto_column :
  formData (handleInputChange (str "__proto__") (str "x")
              (handleManualAdd [str "__proto__"] initialState))
  = {[ str "__proto__" := str "x" ]}.
Proof. by vm_compute. Qed.

(** A subdomain named [constructor] has a truthy "table name". *)
Example getEntryTableName_constructor :
  DomainView.getEntryTableName (str "constructor")
  = Some (str "function Object() { [native code] }")
  ∧ DomainView.getEntryTableName (str "__proto__") = Some (str "[object Object]")
  ∧ DomainView.getEntryTableName (str "Call Lists") = Some (str "call_list_entries")
  ∧ DomainView.getEntryTableName Scenario.unknownSubdomain = None.
Proof. by vm_compute. Qed.

(** For that subdomain the sample button reports a download and saves
    nothing. *)
Example handleDownloadSample_constructor :
  handleDownloadSample (Some (str "constructor")) initialState
    {| csvTemplates.saved := [] |}
  = (withToast (Some {| toastMessage := str "Sample CSV downloaded successfully!";
                        toastType := success |}) initialState,
     {| csvTemplates.saved := [] |}).
Proof. by vm_compute. Qed.

(** And its rows are asked for, at a path the backend does not have. *)
Example fetchEntries_constructor :
  let run :=
    DomainView.fetchEntries Scenario.axiosScripted ∅
      (Scenario.domainView "constructor")
      (Scenario.axiosWorld
         [Resolved {| axiosClient.status := 404;
                      axiosClient.data := (None : option (list (list (js_string * (N + js_string))))) |}]) in
  map (λ entry, axiosClient.url entry.1) (axiosClient.sent run.2)
  = [str "/api/function Object() { [native code] }"]
  ∧ DomainView.toast run.1
    = Some {| toastMessage := str "Failed to load entries. Please try again.";
              toastType := error |}.
Proof. by vm_compute. Qed.

(** Typing while a save is waiting for its answer: the flag is on between
    the two events, and the save still sends what the form held at the
    click. *)
Example saving_flag_on_between_events :
  let c :=
    Interleaved.runAll Scenario.scripted Scenario.callListProps
      [Interleaved.User Component.ManualAdd;
       Interleaved.User (Component.InputChange (str "hcp_id") (str "HCP1"));
       Interleaved.User Component.Save;
       Interleaved.User (Component.InputChange (str "hcp_name") (str "Dr. A"))]
      (Interleaved.mounted (Scenario.world [Scenario.answer 200])) in
  isSaving (Interleaved.state c) = true
  ∧ Interleaved.suspended c = [Interleaved.SaveFetch (Scenario.answer 200)]
  ∧ map (λ entry, body entry.1) (trace (Interleaved.world c))
    = [JsonBody {[ str "hcp_id" := str "HCP1" ]}]
  ∧ formData (Interleaved.state c) !! str "hcp_name" = Some (str "Dr. A").
Proof. by vm_compute. Qed.
